(** * SALP: segmentation analysis labelling program

    A shallow embedding of [scripts/salp.py] (the interactive detector and
    its scale-calibration window) and of [scripts/mask_color.py] (the mask
    colour summary), with the properties of the detection pipeline, the
    colour-range picker, the ROI list, the calibration and the measurements.

    Conventions.
    - Python [int] values are [Z]; Python [float] values are exact rationals
      [Q]: rounding, overflow and underflow of the binary64 operations are
      not modelled, division of a Python [float] by zero raises
      [ZeroDivisionError] as in Python. A statement about a computed number
      is therefore made for a computation that completes, and about a
      rounded number as a bound.
    - A Python [str] that the program inspects is the list of its code
      points; file names, identifiers and the texts of message boxes are
      strings.
    - The script is written against NumPy 1.x (it calls [np.int0]); there a
      [uint8] scalar combined with a Python [int] is promoted to [int64], so
      [h - H_TOL] and [s + SV_TOL] are computed in [Z] without wrap-around.
    - OpenCV and libm primitives are an interface ([External]); the
      application code is written over it.
    - Widget calls that only change the look of the window (cursor, grid,
      status text) are left out, and so is the optional preview window of
      the mask, which the redraw refreshes when it is open; message boxes
      are logged in [messages], by their text, or by a short text where
      the box formats a value that is not part of the state, and the
      enabled flag of the undo button is a field of the state. A statement about a callback that has to complete carries the
      completion as a hypothesis. *)

From Stdlib Require Import ZArith QArith Qround Qabs Qminmax Lia Lqa List Bool String Ascii.
From stdpp Require Import gmap strings list.

#[local] Open Scope Z_scope.

(** ** Python values and exceptions *)

Module Py.

Inductive exn : Type := ZeroDivisionError | IndexError | AttributeError.

Inductive result (A : Type) : Type :=
| Ok (a : A)
| Raise (e : exn).
Arguments Ok {A} a.
Arguments Raise {A} e.

Definition bind {A B : Type} (r : result A) (k : A -> result B) : result B :=
  match r with
  | Ok a => k a
  | Raise e => Raise e
  end.

(** [a / b] on Python floats. *)
Definition truediv (a b : Q) : result Q :=
  if Qeq_bool b 0 then Raise ZeroDivisionError else Ok (a / b)%Q.

(** [int(x)] on a float: truncation towards zero. *)
Definition int_of_float (q : Q) : Z :=
  if Qle_bool 0 q then Qfloor q else Qceiling q.

(** Binary64 values where the infinite ones matter (a NumPy float64, a
    Python float read from a dialog): finite, infinite or not-a-number. *)
Inductive npfloat : Type :=
| Num (q : Q)
| PosInf
| NegInf
| NaN.

(** [a / b] on a NumPy float64: no exception, a non-finite result. *)
Definition np_truediv (a b : Q) : npfloat :=
  if Qeq_bool b 0 then
    (if Qeq_bool a 0 then NaN else if Qle_bool 0 a then PosInf else NegInf)
  else Num (a / b)%Q.

(** Round half to even, as [round] does. *)
Definition round_half_even (q : Q) : Z :=
  let f := Qfloor q in
  let d := (q - inject_Z f)%Q in
  match Qcompare d (1 # 2) with
  | Lt => f
  | Gt => f + 1
  | Eq => if Z.even f then f else f + 1
  end.

(** The binary floating-point number of [prec] significant bits next to a
    rational, of two nearest ones the even one; the range of the exponent
    is not limited. [ilog2 q] is the exponent of the greatest power of two
    that is at most [q], for [q] above zero. *)
Definition ilog2 (q : Q) : Z :=
  let k := Z.log2 (Qnum q) - Z.log2 (Zpos (Qden q)) in
  if Qle_bool (2 ^ k) q then k else k - 1.
Definition round_binary (prec : Z) (q : Q) : Q :=
  if Qeq_bool q 0 then 0%Q
  else
    let e := ilog2 (Qabs q) - (prec - 1) in
    (inject_Z (round_half_even (q / 2 ^ e)) * 2 ^ e)%Q.

(** [round(x, 2)] of a number as a rational: the nearest multiple of 0.01,
    of two nearest ones the even one. The script rounds the binary64 value
    next to the rational, which at such a tie of the rational can fall to
    either side. *)
Definition round2 (q : Q) : Q :=
  (inject_Z (round_half_even (q * 100)) / 100)%Q.

(** A Python [str]: the sequence of its code points. *)
Definition str : Type := list Z.

(** The [str] of a literal of the ASCII range. *)
Definition str_of (s : string) : str :=
  map (fun c => Z.of_nat (nat_of_ascii c)) (list_ascii_of_string s).

(** [x > 0] on a float. *)
Definition positive (x : npfloat) : bool :=
  match x with
  | Num q => negb (Qle_bool q 0)
  | PosInf => true
  | NegInf | NaN => false
  end.

(** Magnitudes far from the ends of the binary64 range: a quotient or a
    product of two of them neither overflows nor leaves the normal range. *)
Definition moderate (q : Q) : Prop := (2 ^ (-500) <= Qabs q <= 2 ^ 500)%Q.

(** [l.pop(i)]: negative indices count from the end, an index out of range
    raises [IndexError]. *)
Definition pop {A : Type} (l : list A) (i : Z) : result (A * list A) :=
  let n := Z.of_nat (length l) in
  let j := if i <? 0 then i + n else i in
  if (0 <=? j) && (j <? n) then
    match l !! Z.to_nat j with
    | Some a => Ok (a, delete (Z.to_nat j) l)
    | None => Raise IndexError
    end
  else Raise IndexError.

(** [l.pop()]. *)
Definition pop_last {A : Type} (l : list A) : result (A * list A) :=
  pop l (-1).

End Py.

#[global] Instance result_ret : MRet Py.result := @Py.Ok.
#[global] Instance result_bind : MBind Py.result :=
  fun A B k r => Py.bind r k.

(** ** Images, masks, contours and the external primitives *)

(** A pixel of a colour image, in OpenCV's channel order (blue, green, red);
    an HSV pixel is (hue, saturation, value). *)
Definition Pixel : Type := (Z * Z * Z)%type.
Definition Image : Type := list (list Pixel).
Definition Mask : Type := list (list Z).
Definition Point : Type := (Z * Z)%type.
Definition Contour : Type := list Point.

Record Moments : Type := mkMoments { m00 : Q; m10 : Q; m01 : Q }.

(** [x, y, w, h] of [cv2.boundingRect]. *)
Record Rect : Type := mkRect { rect_x : Z; rect_y : Z; rect_w : Z; rect_h : Z }.

(** The primitives of OpenCV and libm the scripts call, with the facts about
    them the application relies on. *)
Class External : Type := {
  (** [cv2.cvtColor(_, cv2.COLOR_BGR2HSV)] on one 8-bit pixel *)
  bgr2hsv : Pixel -> Pixel;
  (** [cv2.findContours(_, cv2.RETR_EXTERNAL, cv2.CHAIN_APPROX_SIMPLE)] *)
  findContours : Mask -> list Contour;
  (** [cv2.drawContours(mask, contours, -1, color, -1)]: all contours, filled *)
  drawContours : Mask -> list Contour -> Z -> Mask;
  dilate : Mask -> list (list Z) -> Mask;
  erode : Mask -> list (list Z) -> Mask;
  contourArea : Contour -> Q;
  (** [cv2.arcLength(_, True)] *)
  arcLength : Contour -> Q;
  moments : Contour -> Moments;
  boundingRect : Contour -> Rect;
  convexHull : Contour -> Contour;
  (** the angle, last component of [cv2.fitEllipse] *)
  fitEllipse_angle : Contour -> Py.npfloat;
  sqrt : Q -> Q;
  (** an 8-bit HSV pixel has its hue in 0..179, the rest in 0..255 *)
  bgr2hsv_range : forall p,
    let '(h, s, v) := bgr2hsv p in
    (0 <= h <= 179) /\ (0 <= s <= 255) /\ (0 <= v <= 255);
  (** the zeroth moment of a contour is an unsigned area *)
  m00_nonneg : forall c, (0 <= m00 (moments c))%Q;
  (** the square root of a positive integer is positive *)
  sqrt_pos : forall z : Z, 0 < z -> (0 < sqrt (inject_Z z))%Q
}.

(** [image.shape[0]] and [image.shape[1]] of a rectangular array. *)
Definition shape0 {A : Type} (a : list (list A)) : Z := Z.of_nat (length a).
Definition shape1 {A : Type} (a : list (list A)) : Z :=
  match a with
  | [] => 0
  | row :: _ => Z.of_nat (length row)
  end.

(** [a[y, x]] for indices already checked to be in range. *)
Definition at_yx {A : Type} (d : A) (a : list (list A)) (y x : Z) : A :=
  nth (Z.to_nat x) (nth (Z.to_nat y) a []) d.

(** [np.zeros_like] and [np.ones]. *)
Definition zeros_like (m : Mask) : Mask := map (map (fun _ => 0)) m.
Definition np_ones (rows cols : Z) : list (list Z) :=
  repeat (repeat 1 (Z.to_nat cols)) (Z.to_nat rows).

(** [saturate_cast<uchar>]. *)
Definition saturate_u8 (z : Z) : Z := Z.max 0 (Z.min 255 z).

(** [cv2.convertScaleAbs(img, alpha=contrast, beta=0)]: every channel is
    scaled, its absolute value rounded and saturated to 0..255. OpenCV
    scales in single precision: the contrast, a binary64 number, is
    converted to binary32, and so is its product with the channel. *)
Definition scale_abs (alpha : Q) (z : Z) : Z :=
  let a := Py.round_binary 24 (Py.round_binary 53 alpha) in
  saturate_u8 (Py.round_half_even (Qabs (Py.round_binary 24 (a * inject_Z z)))).
Definition convertScaleAbs (img : Image) (alpha : Q) : Image :=
  map (map (fun '(b, g, r) => (scale_abs alpha b, scale_abs alpha g, scale_abs alpha r))) img.

Definition cvtColor_BGR2HSV `{External} (img : Image) : Image :=
  map (map bgr2hsv) img.

(** [cv2.inRange(hsv, lower, upper)]: 255 where every channel lies between
    its two bounds, both included, and 0 elsewhere. *)
Definition in_bounds (lower upper p : Pixel) : bool :=
  let '(l0, l1, l2) := lower in
  let '(u0, u1, u2) := upper in
  let '(p0, p1, p2) := p in
  (l0 <=? p0) && (p0 <=? u0) && (l1 <=? p1) && (p1 <=? u1) && (l2 <=? p2) && (p2 <=? u2).
Definition inRange (img : Image) (lower upper : Pixel) : Mask :=
  map (map (fun p => if in_bounds lower upper p then 255 else 0)) img.

(** ** The calibration window: [ScaleCalibrationWindow] *)

Module ScaleCalibrationWindow.

(** The attributes the calibration depends on; [p1] and [p2] are [None]
    until clicked, [errors] logs the error boxes shown, [destroyed] is set
    by [self.destroy()]. *)
Record Window : Type := mkWindow {
  p1 : option Point;
  p2 : option Point;
  scale_factor : Q;
  scale_unit : Py.str;
  is_confirmed : bool;
  destroyed : bool;
  errors : list string
}.

(** The state [__init__] leaves. *)
Definition init : Window :=
  {| p1 := None; p2 := None; scale_factor := 1; scale_unit := Py.str_of "px";
     is_confirmed := false; destroyed := false; errors := [] |}.

(** [math.dist] of two integer points. *)
Definition math_dist `{External} (a b : Point) : Q :=
  sqrt (inject_Z ((a.1 - b.1) ^ 2 + (a.2 - b.2) ^ 2)).

(** [str.isspace] of one character: the code points Python counts as
    white space, U+0009 to U+000D, U+001C to U+0020, U+0085, U+00A0,
    U+1680, U+2000 to U+200A, U+2028, U+2029, U+202F, U+205F and U+3000. *)
Definition isspace (c : Z) : bool :=
  ((9 <=? c) && (c <=? 13)) || ((28 <=? c) && (c <=? 32))
  || (c =? 133) || (c =? 160) || (c =? 5760)
  || ((8192 <=? c) && (c <=? 8202))
  || (c =? 8232) || (c =? 8233) || (c =? 8239) || (c =? 8287) || (c =? 12288).

(** [str.strip()]: the white space is removed at both ends. *)
Fixpoint lstrip (l : Py.str) : Py.str :=
  match l with
  | [] => []
  | c :: r => if isspace c then lstrip r else l
  end.
Definition strip (s : Py.str) : Py.str :=
  rev (lstrip (rev (lstrip s))).

(** [dist_px / length_real] for a length that passed [length_real > 0]:
    the quotient by a finite length, 0.0 by an infinite one. *)
Definition per_length (dist_px : Q) (length_real : Py.npfloat) : Q :=
  match length_real with
  | Py.Num l => (dist_px / l)%Q
  | _ => 0%Q
  end.

(** [confirm_scale]. The two dialogs are inputs: [askfloat] and [askstring]
    are what they return, [None] when the dialog is cancelled; the float
    may be infinite, and the second dialog is only shown, and its
    answer only read, after a length above zero. *)
Definition confirm_scale `{External}
    (askfloat : option Py.npfloat) (askstring : option Py.str) (w : Window) : Window :=
  match p1 w, p2 w with
  | Some a, Some b =>
      let dist_px := math_dist a b in
      match askfloat with
      | Some length_real =>
          if Py.positive length_real then
            match askstring with
            | Some unit =>
                if negb (bool_decide (unit = [])) && negb (bool_decide (strip unit = [])) then
                  {| p1 := p1 w; p2 := p2 w;
                     scale_factor := per_length dist_px length_real;
                     scale_unit := strip unit;
                     is_confirmed := true; destroyed := true; errors := errors w |}
                else w
            | None => w
            end
          else w
      | None => w
      end
  | _, _ =>
      {| p1 := p1 w; p2 := p2 w; scale_factor := scale_factor w;
         scale_unit := scale_unit w; is_confirmed := is_confirmed w;
         destroyed := destroyed w;
         errors := errors w ++ ["Please draw a line first."] |}
  end.

(** [on_closing]: the window is closed without a confirmation. *)
Definition on_closing (w : Window) : Window :=
  {| p1 := p1 w; p2 := p2 w; scale_factor := scale_factor w;
     scale_unit := scale_unit w; is_confirmed := false; destroyed := true;
     errors := errors w |}.

(** The clicks, drags and arrow keys of the window only move the two
    points: any pair of points can be on the canvas when Confirm is
    pressed, the same point twice included ([on_drag] and [on_key_press]
    assign [p1] and [p2] without comparing them). *)
Definition place_points (a b : Point) (w : Window) : Window :=
  {| p1 := Some a; p2 := Some b; scale_factor := scale_factor w;
     scale_unit := scale_unit w; is_confirmed := is_confirmed w;
     destroyed := destroyed w; errors := errors w |}.

End ScaleCalibrationWindow.

(** ** The main window: [HumanInTheLoopProcessor] *)

Module HumanInTheLoopProcessor.

(** The six HSV sliders, in the order of the undo snapshot
    [(h_min, h_max, s_min, s_max, v_min, v_max)]. *)
Record HSVRange : Type := mkHSV {
  h_min : Z; h_max : Z; s_min : Z; s_max : Z; v_min : Z; v_max : Z
}.

Definition with_h_min (v : Z) (r : HSVRange) : HSVRange :=
  {| h_min := v; h_max := h_max r; s_min := s_min r; s_max := s_max r; v_min := v_min r; v_max := v_max r |}.
Definition with_h_max (v : Z) (r : HSVRange) : HSVRange :=
  {| h_min := h_min r; h_max := v; s_min := s_min r; s_max := s_max r; v_min := v_min r; v_max := v_max r |}.
Definition with_s_min (v : Z) (r : HSVRange) : HSVRange :=
  {| h_min := h_min r; h_max := h_max r; s_min := v; s_max := s_max r; v_min := v_min r; v_max := v_max r |}.
Definition with_s_max (v : Z) (r : HSVRange) : HSVRange :=
  {| h_min := h_min r; h_max := h_max r; s_min := s_min r; s_max := v; v_min := v_min r; v_max := v_max r |}.
Definition with_v_min (v : Z) (r : HSVRange) : HSVRange :=
  {| h_min := h_min r; h_max := h_max r; s_min := s_min r; s_max := s_max r; v_min := v; v_max := v_max r |}.
Definition with_v_max (v : Z) (r : HSVRange) : HSVRange :=
  {| h_min := h_min r; h_max := h_max r; s_min := s_min r; s_max := s_max r; v_min := v_min r; v_max := v |}.

(** The value of [manual_annotations[roi_id]], written by the side
    annotation window. *)
Record Annotation : Type := mkAnnotation {
  Long_Axis_Length : Q;
  Short_Axis_Length : Q;
  Long_Axis_Texture : string;
  Short_Axis_Texture : string
}.

(** One row of [results_df]. *)
Record Row : Type := mkRow {
  Session_ID : string;
  Image_Number : Z;
  Filename : string;
  ROI_ID : Z;
  Centroid_X_px : Z;
  Centroid_Y_px : Z;
  Area : Q;
  Perimeter : Q;
  Equiv_Diameter : Py.npfloat;
  Aspect_Ratio : Q;
  Circularity_Ratio : Q;
  Solidity_Ratio : Q;
  Orientation_Angle : Py.npfloat;
  Row_Annotation : option Annotation
}.

(** The attributes of the application object. [image_paths] pairs every path
    of the batch with what [cv2.imread] returns for it ([None] for a file
    that cannot be read); [skipped] lists the files copied to [skipped/];
    [closed] is set when the session is finalized and the window destroyed. *)
Record App : Type := mkApp {
  session_id : string;
  image_paths : list (string * option Image);
  current_image_index : nat;
  results_df : list Row;
  manual_annotations : gmap Z Annotation;
  scale_factor : Q;
  scale_unit : Py.str;
  original_image : option Image;
  processed_image : option Image;
  final_rois : list Contour;
  selected_roi_index : Z;
  drawing_mode : bool;
  new_roi_points : list Point;
  color_picker_active : bool;
  color_picker_history : list HSVRange;
  contrast_value : Q;
  hsv : HSVRange;
  roi_expansion : Z;
  min_area : Z;
  max_area : Z;
  undo_color_pick_btn : bool;
  messages : list string;
  skipped : list string;
  closed : bool
}.

(** Field updates, one per attribute the methods assign. *)
Definition set_current_image_index (v : nat) (st : App) : App :=
  {|
    session_id := session_id st; image_paths := image_paths st; current_image_index := v;
    results_df := results_df st; manual_annotations := manual_annotations st;
    scale_factor := scale_factor st; scale_unit := scale_unit st;
    original_image := original_image st; processed_image := processed_image st;
    final_rois := final_rois st; selected_roi_index := selected_roi_index st;
    drawing_mode := drawing_mode st; new_roi_points := new_roi_points st;
    color_picker_active := color_picker_active st; color_picker_history := color_picker_history st;
    contrast_value := contrast_value st; hsv := hsv st; roi_expansion := roi_expansion st;
    min_area := min_area st; max_area := max_area st;
    undo_color_pick_btn := undo_color_pick_btn st; messages := messages st; skipped := skipped st;
    closed := closed st
  |}.
Definition set_results_df (v : list Row) (st : App) : App :=
  {|
    session_id := session_id st; image_paths := image_paths st;
    current_image_index := current_image_index st; results_df := v;
    manual_annotations := manual_annotations st; scale_factor := scale_factor st;
    scale_unit := scale_unit st; original_image := original_image st;
    processed_image := processed_image st; final_rois := final_rois st;
    selected_roi_index := selected_roi_index st; drawing_mode := drawing_mode st;
    new_roi_points := new_roi_points st; color_picker_active := color_picker_active st;
    color_picker_history := color_picker_history st; contrast_value := contrast_value st;
    hsv := hsv st; roi_expansion := roi_expansion st; min_area := min_area st;
    max_area := max_area st; undo_color_pick_btn := undo_color_pick_btn st;
    messages := messages st; skipped := skipped st; closed := closed st
  |}.
Definition set_manual_annotations (v : gmap Z Annotation) (st : App) : App :=
  {|
    session_id := session_id st; image_paths := image_paths st;
    current_image_index := current_image_index st; results_df := results_df st;
    manual_annotations := v; scale_factor := scale_factor st; scale_unit := scale_unit st;
    original_image := original_image st; processed_image := processed_image st;
    final_rois := final_rois st; selected_roi_index := selected_roi_index st;
    drawing_mode := drawing_mode st; new_roi_points := new_roi_points st;
    color_picker_active := color_picker_active st; color_picker_history := color_picker_history st;
    contrast_value := contrast_value st; hsv := hsv st; roi_expansion := roi_expansion st;
    min_area := min_area st; max_area := max_area st;
    undo_color_pick_btn := undo_color_pick_btn st; messages := messages st; skipped := skipped st;
    closed := closed st
  |}.
Definition set_scale_factor (v : Q) (st : App) : App :=
  {|
    session_id := session_id st; image_paths := image_paths st;
    current_image_index := current_image_index st; results_df := results_df st;
    manual_annotations := manual_annotations st; scale_factor := v; scale_unit := scale_unit st;
    original_image := original_image st; processed_image := processed_image st;
    final_rois := final_rois st; selected_roi_index := selected_roi_index st;
    drawing_mode := drawing_mode st; new_roi_points := new_roi_points st;
    color_picker_active := color_picker_active st; color_picker_history := color_picker_history st;
    contrast_value := contrast_value st; hsv := hsv st; roi_expansion := roi_expansion st;
    min_area := min_area st; max_area := max_area st;
    undo_color_pick_btn := undo_color_pick_btn st; messages := messages st; skipped := skipped st;
    closed := closed st
  |}.
Definition set_scale_unit (v : Py.str) (st : App) : App :=
  {|
    session_id := session_id st; image_paths := image_paths st;
    current_image_index := current_image_index st; results_df := results_df st;
    manual_annotations := manual_annotations st; scale_factor := scale_factor st; scale_unit := v;
    original_image := original_image st; processed_image := processed_image st;
    final_rois := final_rois st; selected_roi_index := selected_roi_index st;
    drawing_mode := drawing_mode st; new_roi_points := new_roi_points st;
    color_picker_active := color_picker_active st; color_picker_history := color_picker_history st;
    contrast_value := contrast_value st; hsv := hsv st; roi_expansion := roi_expansion st;
    min_area := min_area st; max_area := max_area st;
    undo_color_pick_btn := undo_color_pick_btn st; messages := messages st; skipped := skipped st;
    closed := closed st
  |}.
Definition set_original_image (v : option Image) (st : App) : App :=
  {|
    session_id := session_id st; image_paths := image_paths st;
    current_image_index := current_image_index st; results_df := results_df st;
    manual_annotations := manual_annotations st; scale_factor := scale_factor st;
    scale_unit := scale_unit st; original_image := v; processed_image := processed_image st;
    final_rois := final_rois st; selected_roi_index := selected_roi_index st;
    drawing_mode := drawing_mode st; new_roi_points := new_roi_points st;
    color_picker_active := color_picker_active st; color_picker_history := color_picker_history st;
    contrast_value := contrast_value st; hsv := hsv st; roi_expansion := roi_expansion st;
    min_area := min_area st; max_area := max_area st;
    undo_color_pick_btn := undo_color_pick_btn st; messages := messages st; skipped := skipped st;
    closed := closed st
  |}.
Definition set_processed_image (v : option Image) (st : App) : App :=
  {|
    session_id := session_id st; image_paths := image_paths st;
    current_image_index := current_image_index st; results_df := results_df st;
    manual_annotations := manual_annotations st; scale_factor := scale_factor st;
    scale_unit := scale_unit st; original_image := original_image st; processed_image := v;
    final_rois := final_rois st; selected_roi_index := selected_roi_index st;
    drawing_mode := drawing_mode st; new_roi_points := new_roi_points st;
    color_picker_active := color_picker_active st; color_picker_history := color_picker_history st;
    contrast_value := contrast_value st; hsv := hsv st; roi_expansion := roi_expansion st;
    min_area := min_area st; max_area := max_area st;
    undo_color_pick_btn := undo_color_pick_btn st; messages := messages st; skipped := skipped st;
    closed := closed st
  |}.
Definition set_final_rois (v : list Contour) (st : App) : App :=
  {|
    session_id := session_id st; image_paths := image_paths st;
    current_image_index := current_image_index st; results_df := results_df st;
    manual_annotations := manual_annotations st; scale_factor := scale_factor st;
    scale_unit := scale_unit st; original_image := original_image st;
    processed_image := processed_image st; final_rois := v;
    selected_roi_index := selected_roi_index st; drawing_mode := drawing_mode st;
    new_roi_points := new_roi_points st; color_picker_active := color_picker_active st;
    color_picker_history := color_picker_history st; contrast_value := contrast_value st;
    hsv := hsv st; roi_expansion := roi_expansion st; min_area := min_area st;
    max_area := max_area st; undo_color_pick_btn := undo_color_pick_btn st;
    messages := messages st; skipped := skipped st; closed := closed st
  |}.
Definition set_selected_roi_index (v : Z) (st : App) : App :=
  {|
    session_id := session_id st; image_paths := image_paths st;
    current_image_index := current_image_index st; results_df := results_df st;
    manual_annotations := manual_annotations st; scale_factor := scale_factor st;
    scale_unit := scale_unit st; original_image := original_image st;
    processed_image := processed_image st; final_rois := final_rois st; selected_roi_index := v;
    drawing_mode := drawing_mode st; new_roi_points := new_roi_points st;
    color_picker_active := color_picker_active st; color_picker_history := color_picker_history st;
    contrast_value := contrast_value st; hsv := hsv st; roi_expansion := roi_expansion st;
    min_area := min_area st; max_area := max_area st;
    undo_color_pick_btn := undo_color_pick_btn st; messages := messages st; skipped := skipped st;
    closed := closed st
  |}.
Definition set_drawing_mode (v : bool) (st : App) : App :=
  {|
    session_id := session_id st; image_paths := image_paths st;
    current_image_index := current_image_index st; results_df := results_df st;
    manual_annotations := manual_annotations st; scale_factor := scale_factor st;
    scale_unit := scale_unit st; original_image := original_image st;
    processed_image := processed_image st; final_rois := final_rois st;
    selected_roi_index := selected_roi_index st; drawing_mode := v;
    new_roi_points := new_roi_points st; color_picker_active := color_picker_active st;
    color_picker_history := color_picker_history st; contrast_value := contrast_value st;
    hsv := hsv st; roi_expansion := roi_expansion st; min_area := min_area st;
    max_area := max_area st; undo_color_pick_btn := undo_color_pick_btn st;
    messages := messages st; skipped := skipped st; closed := closed st
  |}.
Definition set_new_roi_points (v : list Point) (st : App) : App :=
  {|
    session_id := session_id st; image_paths := image_paths st;
    current_image_index := current_image_index st; results_df := results_df st;
    manual_annotations := manual_annotations st; scale_factor := scale_factor st;
    scale_unit := scale_unit st; original_image := original_image st;
    processed_image := processed_image st; final_rois := final_rois st;
    selected_roi_index := selected_roi_index st; drawing_mode := drawing_mode st;
    new_roi_points := v; color_picker_active := color_picker_active st;
    color_picker_history := color_picker_history st; contrast_value := contrast_value st;
    hsv := hsv st; roi_expansion := roi_expansion st; min_area := min_area st;
    max_area := max_area st; undo_color_pick_btn := undo_color_pick_btn st;
    messages := messages st; skipped := skipped st; closed := closed st
  |}.
Definition set_color_picker_active (v : bool) (st : App) : App :=
  {|
    session_id := session_id st; image_paths := image_paths st;
    current_image_index := current_image_index st; results_df := results_df st;
    manual_annotations := manual_annotations st; scale_factor := scale_factor st;
    scale_unit := scale_unit st; original_image := original_image st;
    processed_image := processed_image st; final_rois := final_rois st;
    selected_roi_index := selected_roi_index st; drawing_mode := drawing_mode st;
    new_roi_points := new_roi_points st; color_picker_active := v;
    color_picker_history := color_picker_history st; contrast_value := contrast_value st;
    hsv := hsv st; roi_expansion := roi_expansion st; min_area := min_area st;
    max_area := max_area st; undo_color_pick_btn := undo_color_pick_btn st;
    messages := messages st; skipped := skipped st; closed := closed st
  |}.
Definition set_color_picker_history (v : list HSVRange) (st : App) : App :=
  {|
    session_id := session_id st; image_paths := image_paths st;
    current_image_index := current_image_index st; results_df := results_df st;
    manual_annotations := manual_annotations st; scale_factor := scale_factor st;
    scale_unit := scale_unit st; original_image := original_image st;
    processed_image := processed_image st; final_rois := final_rois st;
    selected_roi_index := selected_roi_index st; drawing_mode := drawing_mode st;
    new_roi_points := new_roi_points st; color_picker_active := color_picker_active st;
    color_picker_history := v; contrast_value := contrast_value st; hsv := hsv st;
    roi_expansion := roi_expansion st; min_area := min_area st; max_area := max_area st;
    undo_color_pick_btn := undo_color_pick_btn st; messages := messages st; skipped := skipped st;
    closed := closed st
  |}.
Definition set_contrast_value (v : Q) (st : App) : App :=
  {|
    session_id := session_id st; image_paths := image_paths st;
    current_image_index := current_image_index st; results_df := results_df st;
    manual_annotations := manual_annotations st; scale_factor := scale_factor st;
    scale_unit := scale_unit st; original_image := original_image st;
    processed_image := processed_image st; final_rois := final_rois st;
    selected_roi_index := selected_roi_index st; drawing_mode := drawing_mode st;
    new_roi_points := new_roi_points st; color_picker_active := color_picker_active st;
    color_picker_history := color_picker_history st; contrast_value := v; hsv := hsv st;
    roi_expansion := roi_expansion st; min_area := min_area st; max_area := max_area st;
    undo_color_pick_btn := undo_color_pick_btn st; messages := messages st; skipped := skipped st;
    closed := closed st
  |}.
Definition set_hsv (v : HSVRange) (st : App) : App :=
  {|
    session_id := session_id st; image_paths := image_paths st;
    current_image_index := current_image_index st; results_df := results_df st;
    manual_annotations := manual_annotations st; scale_factor := scale_factor st;
    scale_unit := scale_unit st; original_image := original_image st;
    processed_image := processed_image st; final_rois := final_rois st;
    selected_roi_index := selected_roi_index st; drawing_mode := drawing_mode st;
    new_roi_points := new_roi_points st; color_picker_active := color_picker_active st;
    color_picker_history := color_picker_history st; contrast_value := contrast_value st; hsv := v;
    roi_expansion := roi_expansion st; min_area := min_area st; max_area := max_area st;
    undo_color_pick_btn := undo_color_pick_btn st; messages := messages st; skipped := skipped st;
    closed := closed st
  |}.
Definition set_roi_expansion (v : Z) (st : App) : App :=
  {|
    session_id := session_id st; image_paths := image_paths st;
    current_image_index := current_image_index st; results_df := results_df st;
    manual_annotations := manual_annotations st; scale_factor := scale_factor st;
    scale_unit := scale_unit st; original_image := original_image st;
    processed_image := processed_image st; final_rois := final_rois st;
    selected_roi_index := selected_roi_index st; drawing_mode := drawing_mode st;
    new_roi_points := new_roi_points st; color_picker_active := color_picker_active st;
    color_picker_history := color_picker_history st; contrast_value := contrast_value st;
    hsv := hsv st; roi_expansion := v; min_area := min_area st; max_area := max_area st;
    undo_color_pick_btn := undo_color_pick_btn st; messages := messages st; skipped := skipped st;
    closed := closed st
  |}.
Definition set_min_area (v : Z) (st : App) : App :=
  {|
    session_id := session_id st; image_paths := image_paths st;
    current_image_index := current_image_index st; results_df := results_df st;
    manual_annotations := manual_annotations st; scale_factor := scale_factor st;
    scale_unit := scale_unit st; original_image := original_image st;
    processed_image := processed_image st; final_rois := final_rois st;
    selected_roi_index := selected_roi_index st; drawing_mode := drawing_mode st;
    new_roi_points := new_roi_points st; color_picker_active := color_picker_active st;
    color_picker_history := color_picker_history st; contrast_value := contrast_value st;
    hsv := hsv st; roi_expansion := roi_expansion st; min_area := v; max_area := max_area st;
    undo_color_pick_btn := undo_color_pick_btn st; messages := messages st; skipped := skipped st;
    closed := closed st
  |}.
Definition set_max_area (v : Z) (st : App) : App :=
  {|
    session_id := session_id st; image_paths := image_paths st;
    current_image_index := current_image_index st; results_df := results_df st;
    manual_annotations := manual_annotations st; scale_factor := scale_factor st;
    scale_unit := scale_unit st; original_image := original_image st;
    processed_image := processed_image st; final_rois := final_rois st;
    selected_roi_index := selected_roi_index st; drawing_mode := drawing_mode st;
    new_roi_points := new_roi_points st; color_picker_active := color_picker_active st;
    color_picker_history := color_picker_history st; contrast_value := contrast_value st;
    hsv := hsv st; roi_expansion := roi_expansion st; min_area := min_area st; max_area := v;
    undo_color_pick_btn := undo_color_pick_btn st; messages := messages st; skipped := skipped st;
    closed := closed st
  |}.
Definition set_undo_color_pick_btn (v : bool) (st : App) : App :=
  {|
    session_id := session_id st; image_paths := image_paths st;
    current_image_index := current_image_index st; results_df := results_df st;
    manual_annotations := manual_annotations st; scale_factor := scale_factor st;
    scale_unit := scale_unit st; original_image := original_image st;
    processed_image := processed_image st; final_rois := final_rois st;
    selected_roi_index := selected_roi_index st; drawing_mode := drawing_mode st;
    new_roi_points := new_roi_points st; color_picker_active := color_picker_active st;
    color_picker_history := color_picker_history st; contrast_value := contrast_value st;
    hsv := hsv st; roi_expansion := roi_expansion st; min_area := min_area st;
    max_area := max_area st; undo_color_pick_btn := v; messages := messages st;
    skipped := skipped st; closed := closed st
  |}.
Definition set_messages (v : list string) (st : App) : App :=
  {|
    session_id := session_id st; image_paths := image_paths st;
    current_image_index := current_image_index st; results_df := results_df st;
    manual_annotations := manual_annotations st; scale_factor := scale_factor st;
    scale_unit := scale_unit st; original_image := original_image st;
    processed_image := processed_image st; final_rois := final_rois st;
    selected_roi_index := selected_roi_index st; drawing_mode := drawing_mode st;
    new_roi_points := new_roi_points st; color_picker_active := color_picker_active st;
    color_picker_history := color_picker_history st; contrast_value := contrast_value st;
    hsv := hsv st; roi_expansion := roi_expansion st; min_area := min_area st;
    max_area := max_area st; undo_color_pick_btn := undo_color_pick_btn st; messages := v;
    skipped := skipped st; closed := closed st
  |}.
Definition set_skipped (v : list string) (st : App) : App :=
  {|
    session_id := session_id st; image_paths := image_paths st;
    current_image_index := current_image_index st; results_df := results_df st;
    manual_annotations := manual_annotations st; scale_factor := scale_factor st;
    scale_unit := scale_unit st; original_image := original_image st;
    processed_image := processed_image st; final_rois := final_rois st;
    selected_roi_index := selected_roi_index st; drawing_mode := drawing_mode st;
    new_roi_points := new_roi_points st; color_picker_active := color_picker_active st;
    color_picker_history := color_picker_history st; contrast_value := contrast_value st;
    hsv := hsv st; roi_expansion := roi_expansion st; min_area := min_area st;
    max_area := max_area st; undo_color_pick_btn := undo_color_pick_btn st;
    messages := messages st; skipped := v; closed := closed st
  |}.
Definition set_closed (v : bool) (st : App) : App :=
  {|
    session_id := session_id st; image_paths := image_paths st;
    current_image_index := current_image_index st; results_df := results_df st;
    manual_annotations := manual_annotations st; scale_factor := scale_factor st;
    scale_unit := scale_unit st; original_image := original_image st;
    processed_image := processed_image st; final_rois := final_rois st;
    selected_roi_index := selected_roi_index st; drawing_mode := drawing_mode st;
    new_roi_points := new_roi_points st; color_picker_active := color_picker_active st;
    color_picker_history := color_picker_history st; contrast_value := contrast_value st;
    hsv := hsv st; roi_expansion := roi_expansion st; min_area := min_area st;
    max_area := max_area st; undo_color_pick_btn := undo_color_pick_btn st;
    messages := messages st; skipped := skipped st; closed := v
  |}.

(** *** Methods

    A method runs on the application object: it may assign attributes and
    it may raise. What was assigned before an exception stays assigned (Tk
    reports the exception of a callback and carries on with the object). *)
Definition M (A : Type) : Type := App -> Py.result A * App.

#[global] Instance M_ret : MRet M := fun A a st => (Py.Ok a, st).
#[global] Instance M_bind : MBind M := fun A B k m st =>
  match m st with
  | (Py.Ok a, st') => k a st'
  | (Py.Raise e, st') => (Py.Raise e, st')
  end.

Definition assign (f : App -> App) : M unit := fun st => (Py.Ok tt, f st).
Definition read {A : Type} (f : App -> A) : M A := fun st => (Py.Ok (f st), st).
Definition lift {A : Type} (r : Py.result A) : M A := fun st => (r, st).
Definition pass : M unit := mret tt.
Definition exec {A : Type} (m : M A) (st : App) : App := snd (m st).
Definition outcome {A : Type} (m : M A) (st : App) : Py.result A := fst (m st).

Notation "m1 ;; m2" := (mbind (M := M) (fun _ : unit => m2) m1)
  (at level 100, m2 at level 200, right associativity).

Section Methods.
Context `{External}.

(** [math.pi] and [np.pi]: the binary64 number nearest to pi. *)
Definition math_pi : Q := 884279719003555 # 281474976710656.

(** The literal [1e-6]. *)
Definition EPS : Q := 1 # 1000000.

(** [tk.Scale.set]: the value is brought into the range of the slider. *)
Definition scale_set (from_ to v : Z) : Z := Z.max from_ (Z.min to v).

Definition h_min_set (v : Z) : M unit :=
  assign (fun st => set_hsv (with_h_min (scale_set 0 179 v) (hsv st)) st).
Definition h_max_set (v : Z) : M unit :=
  assign (fun st => set_hsv (with_h_max (scale_set 0 179 v) (hsv st)) st).
Definition s_min_set (v : Z) : M unit :=
  assign (fun st => set_hsv (with_s_min (scale_set 0 255 v) (hsv st)) st).
Definition s_max_set (v : Z) : M unit :=
  assign (fun st => set_hsv (with_s_max (scale_set 0 255 v) (hsv st)) st).
Definition v_min_set (v : Z) : M unit :=
  assign (fun st => set_hsv (with_v_min (scale_set 0 255 v) (hsv st)) st).
Definition v_max_set (v : Z) : M unit :=
  assign (fun st => set_hsv (with_v_max (scale_set 0 255 v) (hsv st)) st).

(** The texts of two boxes. A path of the batch stands for its base name. *)
Definition newline : string := String (ascii_of_nat 10) EmptyString.
Definition could_not_read (name : string) : string :=
  "Could not read image file:" +:+ newline +:+ name +:+ newline +:+ "It will be skipped.".
Definition results_saved (message : string) : string :=
  message +:+ newline +:+ newline
  +:+ "Results and summary saved to 'completed_measurements' folder.".

(** [messagebox.showwarning] and its siblings. *)
Definition messagebox (text : string) : M unit :=
  assign (fun st => set_messages (messages st ++ [text]) st).

(** [int(M['m10']/(M['m00']+1e-6)), int(M['m01']/(M['m00']+1e-6))] *)
Definition centroid (roi : Contour) : Py.result (Z * Z) :=
  let m := moments roi in
  qx ← Py.truediv (m10 m) (m00 m + EPS);
  qy ← Py.truediv (m01 m) (m00 m + EPS);
  mret (Py.int_of_float qx, Py.int_of_float qy).

(** [float(w)/h if h!=0 else 0] *)
Definition aspect_ratio_of (r : Rect) : Py.result Q :=
  if negb (rect_h r =? 0) then Py.truediv (inject_Z (rect_w r)) (inject_Z (rect_h r))
  else mret 0%Q.

(** [(4*math.pi*pixel_area)/(pixel_perimeter**2) if pixel_perimeter!=0 else 0] *)
Definition circularity_of (pixel_area pixel_perimeter : Q) : Py.result Q :=
  if negb (Qeq_bool pixel_perimeter 0)
  then Py.truediv (4 * math_pi * pixel_area) (pixel_perimeter ^ 2)
  else mret 0%Q.

(** [float(pixel_area)/hull_area if hull_area!=0 else 0] *)
Definition solidity_of (pixel_area hull_area : Q) : Py.result Q :=
  if negb (Qeq_bool hull_area 0) then Py.truediv pixel_area hull_area else mret 0%Q.

(** [cv2.fitEllipse(roi)[-1] if len(roi)>=5 else np.nan] *)
Definition orientation_of (roi : Contour) : Py.npfloat :=
  if (5 <=? length roi)%nat then fitEllipse_angle roi else Py.NaN.

(** One row of the live table of [update_live_results_table]. *)
Definition live_row (sf : Q) (roi : Contour) : Py.result (Q * Q * Q * Q) :=
  let pixel_area := contourArea roi in
  let pixel_perimeter := arcLength roi in
  let r := boundingRect roi in
  scaled_area ← Py.truediv pixel_area (sf ^ 2);
  scaled_perimeter ← Py.truediv pixel_perimeter sf;
  aspect_ratio ← aspect_ratio_of r;
  circularity ← circularity_of pixel_area pixel_perimeter;
  mret (scaled_area, scaled_perimeter, aspect_ratio, circularity).

(** [update_live_results_table]; [results_tree] is set by [setup_gui]. *)
Definition update_live_results_table : M unit :=
  rois ← read final_rois;
  sf ← read scale_factor;
  _ ← lift (mapM (live_row sf) rois);
  pass.

(** [update_image_display] draws the contours, an ID label at the centroid
    of every ROI, and refreshes the live table; it assigns nothing. The
    refresh of the mask preview, when that window is open, is not part of
    the model: it assigns nothing either, and it raises when no image is
    loaded, so that the redraw of the code can raise where this one
    completes. *)
Definition update_image_display : M unit :=
  p ← read processed_image;
  match p with
  | None => pass
  | Some _ =>
      rois ← read final_rois;
      _ ← lift (mapM centroid rois);
      update_live_results_table
  end.

(** [update_roi_action_buttons] only configures two buttons and the status
    text. *)
Definition update_roi_action_buttons : M unit := pass.

Definition deselect_roi : M unit :=
  assign (set_selected_roi_index (-1));;
  update_roi_action_buttons;;
  update_image_display.


(** [min_a <= cv2.contourArea(roi) <= max_a] *)
Definition area_in_range (min_a max_a : Z) (roi : Contour) : bool :=
  Qle_bool (inject_Z min_a) (contourArea roi) && Qle_bool (contourArea roi) (inject_Z max_a).

Definition run_detection_pipeline : M unit :=
  o ← read original_image;
  match o with
  | None => pass
  | Some img =>
      (* 1. contrast *)
      contrast ← read contrast_value;
      let processed := convertScaleAbs img contrast in
      assign (set_processed_image (Some processed));;
      (* 2. HSV thresholding *)
      let hsv_image := cvtColor_BGR2HSV processed in
      r ← read hsv;
      let lower := (h_min r, s_min r, v_min r) in
      let upper := (h_max r, s_max r, v_max r) in
      let mask := inRange hsv_image lower upper in
      (* 3. initial contours *)
      let contours := findContours mask in
      (* 4. expand or shrink *)
      expansion ← read roi_expansion;
      let contours :=
        if negb (expansion =? 0) then
          let temp_mask := drawContours (zeros_like mask) contours 255 in
          let kernel := np_ones (Z.abs expansion) (Z.abs expansion) in
          let processed_mask :=
            if 0 <? expansion then dilate temp_mask kernel else erode temp_mask kernel in
          findContours processed_mask
        else contours in
      (* 5. area filter *)
      min_a ← read min_area;
      max_a ← read max_area;
      assign (set_final_rois (List.filter (area_in_range min_a max_a) contours));;
      deselect_roi;;
      update_image_display
  end.

(** [_update_hsv_bars] moves the overlays of the three colour bars. *)
Definition _update_hsv_bars : M unit := pass.

Definition on_slider_change : M unit :=
  _update_hsv_bars;;
  d ← read drawing_mode;
  if negb d then run_detection_pipeline else pass.

Definition reset_hsv_defaults : M unit :=
  assign (set_contrast_value 1%Q);;
  h_min_set 2;; h_max_set 91;; s_min_set 43;; s_max_set 164;; v_min_set 48;; v_max_set 196;;
  on_slider_change.

Definition cancel_drawing : M unit :=
  assign (set_drawing_mode false);;
  assign (set_new_roi_points []);;
  update_roi_action_buttons;;
  update_image_display.

Definition finalize_roi : M unit :=
  pts ← read new_roi_points;
  (if (3 <=? length pts)%nat then
     (* np.array(self.new_roi_points, dtype=np.int32).reshape((-1, 1, 2)) *)
     let new_contour : Contour := pts in
     assign (fun st => set_final_rois (final_rois st ++ [new_contour]) st)
   else
     messagebox "An ROI must have at least 3 points.");;
  cancel_drawing.

Definition exit_color_picker_mode : M unit :=
  assign (set_color_picker_active false);;
  update_roi_action_buttons.

Definition enter_drawing_mode : M unit :=
  exit_color_picker_mode;;
  assign (set_drawing_mode true);;
  deselect_roi;;
  assign (set_new_roi_points []).

Definition enter_color_picker_mode : M unit :=
  cancel_drawing;;
  assign (set_color_picker_active true);;
  assign (set_color_picker_history []);;
  assign (set_undo_color_pick_btn false).

Definition H_TOL : Z := 5.
Definition SV_TOL : Z := 25.

Definition handle_color_pick (img_x img_y : Z) : M unit :=
  o ← read original_image;
  match o with
  | None => lift (Py.Raise Py.AttributeError)
  | Some img =>
      if negb ((0 <=? img_y) && (img_y <? shape0 img) && (0 <=? img_x) && (img_x <? shape1 img))
      then pass (* the click was outside the image *)
      else
        (* save the current state for undo *)
        current_state ← read hsv;
        assign (fun st => set_color_picker_history (color_picker_history st ++ [current_state]) st);;
        assign (set_undo_color_pick_btn true);;
        (* the colour of the pixel, converted to HSV *)
        let bgr_color := at_yx (0, 0, 0) img img_y img_x in
        let '(h, s, v) := bgr2hsv bgr_color in
        history ← read color_picker_history;
        (if (length history =? 1)%nat then
           (* first pick *)
           h_min_set (Z.max 0 (h - H_TOL));; h_max_set (Z.min 179 (h + H_TOL));;
           s_min_set (Z.max 0 (s - SV_TOL));; s_max_set (Z.min 255 (s + SV_TOL));;
           v_min_set (Z.max 0 (v - SV_TOL));; v_max_set (Z.min 255 (v + SV_TOL))
         else
           (* subsequent picks *)
           (x ← read (h_min ∘ hsv); h_min_set (Z.min x h));;
           (x ← read (h_max ∘ hsv); h_max_set (Z.max x h));;
           (x ← read (s_min ∘ hsv); s_min_set (Z.min x s));;
           (x ← read (s_max ∘ hsv); s_max_set (Z.max x s));;
           (x ← read (v_min ∘ hsv); v_min_set (Z.min x v));;
           (x ← read (v_max ∘ hsv); v_max_set (Z.max x v)));;
        on_slider_change
  end.

Definition undo_last_color_pick : M unit :=
  history ← read color_picker_history;
  (if negb (length history =? 0)%nat then
     '(last_state, rest) ← lift (Py.pop_last history);
     assign (set_color_picker_history rest);;
     h_min_set (h_min last_state);; h_max_set (h_max last_state);;
     s_min_set (s_min last_state);; s_max_set (s_max last_state);;
     v_min_set (v_min last_state);; v_max_set (v_max last_state);;
     on_slider_change
   else pass);;
  history ← read color_picker_history;
  if (length history =? 0)%nat then assign (set_undo_color_pick_btn false) else pass.

Definition delete_selected_roi : M unit :=
  sel ← read selected_roi_index;
  if negb (sel =? -1) then
    let index_to_delete := sel in
    rois ← read final_rois;
    '(_, rest) ← lift (Py.pop rois index_to_delete);
    assign (set_final_rois rest);;
    assign (fun st =>
      match manual_annotations st !! (index_to_delete + 1) with
      | Some _ => set_manual_annotations (delete (index_to_delete + 1) (manual_annotations st)) st
      | None => st
      end);;
    deselect_roi
  else pass.

(** The record [handle_accept] builds for the ROI at position [i]. *)
Definition measure_roi (st : App) (current_filename : string) (i : nat) (roi : Contour)
    : Py.result Row :=
  let pixel_area := contourArea roi in
  let pixel_perimeter := arcLength roi in
  '(cx, cy) ← centroid roi;
  let r := boundingRect roi in
  aspect_ratio ← aspect_ratio_of r;
  let hull := convexHull roi in
  let hull_area := contourArea hull in
  solidity ← solidity_of pixel_area hull_area;
  circularity ← circularity_of pixel_area pixel_perimeter;
  let orientation := orientation_of roi in
  scaled_area ← Py.truediv pixel_area (scale_factor st ^ 2);
  scaled_perimeter ← Py.truediv pixel_perimeter (scale_factor st);
  let scaled_equiv_diameter :=
    Py.np_truediv (sqrt (4 * pixel_area / math_pi)) (scale_factor st) in
  let roi_id := Z.of_nat i + 1 in
  let annotation := manual_annotations st !! roi_id in
  mret {| Session_ID := session_id st;
          Image_Number := Z.of_nat (current_image_index st) + 1;
          Filename := current_filename; ROI_ID := roi_id;
          Centroid_X_px := cx; Centroid_Y_px := cy;
          Area := scaled_area; Perimeter := scaled_perimeter;
          Equiv_Diameter := scaled_equiv_diameter;
          Aspect_Ratio := aspect_ratio; Circularity_Ratio := circularity;
          Solidity_Ratio := solidity; Orientation_Angle := orientation;
          Row_Annotation := annotation |}.

(** [finalize_session(is_manual_exit)] writes the final files, shows one
    message box and destroys the window; with an empty table nothing is
    written, and the box is only shown at the end of the batch. *)
Definition finalize_session (is_manual_exit : bool) : M unit :=
  df ← read results_df;
  match df with
  | [] =>
      (if is_manual_exit then pass
       else messagebox "Session closed. No measurements were saved.");;
      assign (set_closed true)
  | _ :: _ =>
      messagebox
        (results_saved
           (if is_manual_exit then "Session exited." else "Batch processing complete!"));;
      assign (set_closed true)
  end.

(** [process_next_image], by recursion on the paths from
    [current_image_index] on: an unreadable file is reported and skipped
    with [handle_skip(is_corrupt=True)], which does not copy it and calls
    [process_next_image] again. The code recurses two calls deep for each
    unreadable file in a row, and a run long enough to pass the recursion
    limit of Python raises there; the recursion here has no limit. *)
Fixpoint process_pending (pending : list (string * option Image)) : M unit :=
  match pending with
  | [] => finalize_session false
  | (image_path, file) :: rest =>
      assign (set_manual_annotations ∅);;
      cancel_drawing;;
      exit_color_picker_mode;;
      deselect_roi;;
      assign (set_original_image file);;
      match file with
      | None =>
          messagebox (could_not_read image_path);;
          assign (fun st => set_current_image_index (S (current_image_index st)) st);;
          process_pending rest
      | Some _ => reset_hsv_defaults (* resets sliders for each new image *)
      end
  end.

Definition process_next_image : M unit :=
  paths ← read image_paths;
  idx ← read current_image_index;
  process_pending (drop idx paths).

Definition handle_skip : M unit :=
  paths ← read image_paths;
  idx ← read current_image_index;
  match paths with
  | [] => pass
  | _ =>
      match paths !! idx with
      | None => lift (Py.Raise Py.IndexError)
      | Some (current_path, _) =>
          assign (fun st => set_skipped (skipped st ++ [current_path]) st);;
          assign (set_current_image_index (S idx));;
          process_next_image
      end
  end.

(** [handle_accept]; the files it writes (the CSV, the mask and the outlined
    image) are not part of the state, and a path of the batch stands for its
    base name. *)
Definition handle_accept : M unit :=
  paths ← read image_paths;
  idx ← read current_image_index;
  match paths with
  | [] => pass
  | _ =>
      match paths !! idx with
      | None => lift (Py.Raise Py.IndexError)
      | Some (current_filename, _) =>
          st ← read id;
          image_results ←
            lift (mapM (fun '(i, roi) => measure_roi st current_filename i roi)
                       (imap (fun i roi => (i, roi)) (final_rois st)));
          assign (fun st => set_results_df (results_df st ++ image_results) st);;
          o ← read original_image;
          match o with
          | None => lift (Py.Raise Py.AttributeError)
          | Some _ =>
              assign (set_current_image_index (S idx));;
              process_next_image
          end
      end
  end.

(** The end of [start_calibration_or_processing]: the scale of a confirmed
    calibration window is taken over, an unconfirmed one leaves the scale
    as it is. *)
Definition take_calibration (w : ScaleCalibrationWindow.Window) : M unit :=
  if ScaleCalibrationWindow.is_confirmed w then
    assign (set_scale_factor (ScaleCalibrationWindow.scale_factor w));;
    assign (set_scale_unit (ScaleCalibrationWindow.scale_unit w));;
    messagebox "Scale confirmed."
  else
    messagebox "No scale was set. Measurements will be in pixels.".

End Methods.

End HumanInTheLoopProcessor.

(** ** The mask colour script: [mask_color.py] *)

Module MaskColor.

(** Perceived brightness, the ITU-R BT.601 luminance. *)
Definition calculate_brightness (r g b : Q) : Q :=
  (0.299 * r + 0.587 * g + 0.114 * b)%Q.

Definition Qltb (a b : Q) : bool := negb (Qle_bool b a).

Definition get_simple_color_category (r g b : Q) : string :=
  if Qltb (Qmax r (Qmax g b)) 50 then "Dark"
  else if Qltb 200 (Qmin r (Qmin g b)) then "Light"
  else if Qltb g r && Qltb b r then "Reddish"
  else if Qltb r g && Qltb b g then "Greenish"
  else if Qltb r b && Qltb g b then "Bluish"
  else "Mixed".

(** [img[mask > 0]]: the pixels under the non-zero mask entries, row by
    row; NumPy raises [IndexError] when the two shapes differ. *)
Definition select_row (row : list Pixel) (mrow : list Z) : list Pixel :=
  map fst (List.filter (fun pm => 0 <? snd pm) (combine row mrow)).
Definition masked_pixels (img : Image) (mask : Mask) : Py.result (list Pixel) :=
  if bool_decide (map length img = map length mask)
  then Py.Ok (concat (zip_with select_row img mask))
  else Py.Raise Py.IndexError.

(** [np.mean(poop_pixels, axis=0).tolist()], in BGR order. *)
Definition channel_mean (f : Pixel -> Z) (pixels : list Pixel) : Q :=
  Qdiv (inject_Z (foldr Z.add 0 (map f pixels))) (inject_Z (Z.of_nat (length pixels))).
Definition mean_color (pixels : list Pixel) : Q * Q * Q :=
  (channel_mean (fun p => p.1.1) pixels,
   channel_mean (fun p => p.1.2) pixels,
   channel_mean (fun p => p.2) pixels).

(** The three values computed for one mask: [avg_color] (BGR),
    [brightness] and [color_category]. *)
Record Analysis : Type := mkAnalysis {
  avg_color : Q * Q * Q;
  brightness : Q;
  color_category : string
}.

Definition analyse (poop_pixels : list Pixel) : Analysis :=
  if (length poop_pixels =? 0)%nat then
    {| avg_color := (0, 0, 0)%Q; brightness := 0; color_category := "Dark" |}
  else
    let avg := mean_color poop_pixels in
    let '(b, g, r) := avg in
    {| avg_color := avg;
       brightness := calculate_brightness r g b;
       color_category := get_simple_color_category r g b |}.

(** One entry of [results]. *)
Record Result : Type := mkResult {
  session : string;
  mask_file : string;
  image_file : string;
  avg_color_b : Q;
  avg_color_g : Q;
  avg_color_r : Q;
  res_brightness : Q;
  res_color_category : string
}.

(** The body of the loop for one mask whose image and mask were read. The
    four numbers of the record are rounded as rationals (see [Py.round2]). *)
Definition process_mask (session_name mask_filename image_filename : string)
    (img : Image) (mask : Mask) : Py.result Result :=
  poop_pixels ← masked_pixels img mask;
  let a := analyse poop_pixels in
  let '(b, g, r) := avg_color a in
  mret {| session := session_name; mask_file := mask_filename;
          image_file := image_filename;
          avg_color_b := Py.round2 b; avg_color_g := Py.round2 g;
          avg_color_r := Py.round2 r;
          res_brightness := Py.round2 (brightness a);
          res_color_category := color_category a |}.

End MaskColor.

(** ** An executable instance of the primitives

    The instance runs the application on small inputs. Its components
    follow the OpenCV documentation where that is short to write: the HSV
    conversion of an 8-bit pixel, the shoelace area, the closed perimeter,
    the Green-formula moments, the upright bounding rectangle of integer
    points, and dilation and erosion with the anchor at the kernel centre.
    [findContours] and [drawContours] are exact on masks whose foreground
    pixels do not touch each other (every such pixel is a one-point
    contour), [convexHull] on convex contours; the ellipse fit is not
    computed. The square root is truncated to six decimals. *)

Module SimpleCv.

Definition clamp (lo hi z : Z) : Z := Z.max lo (Z.min hi z).

Definition bgr2hsv (p : Pixel) : Pixel :=
  let '(b, g, r) := p in
  let v := Z.max r (Z.max g b) in
  let diff := v - Z.min r (Z.min g b) in
  let s := if v =? 0 then 0 else Py.round_half_even (inject_Z (255 * diff) / inject_Z v) in
  let hdeg : Q :=
    if diff =? 0 then 0%Q
    else if v =? r then (inject_Z (60 * (g - b)) / inject_Z diff)%Q
    else if v =? g then (120 + inject_Z (60 * (b - r)) / inject_Z diff)%Q
    else (240 + inject_Z (60 * (r - g)) / inject_Z diff)%Q in
  let hdeg := if Qle_bool 0 hdeg then hdeg else (hdeg + 360)%Q in
  let h := Py.round_half_even (hdeg / 2) in
  (clamp 0 179 (if h =? 180 then 0 else h), clamp 0 255 s, clamp 0 255 v).

Definition findContours (m : Mask) : list Contour :=
  concat (imap (fun y row =>
    concat (imap (fun x v => if v =? 0 then [] else [[(Z.of_nat x, Z.of_nat y)]]) row)) m).

Definition on_contour (cs : list Contour) (x y : Z) : bool :=
  existsb (existsb (fun p => (p.1 =? x) && (p.2 =? y))) cs.
Definition drawContours (m : Mask) (cs : list Contour) (color : Z) : Mask :=
  imap (fun y row =>
    imap (fun x v => if on_contour cs (Z.of_nat x) (Z.of_nat y) then color else v) row) m.

(** The values of [m] under the kernel centred at [(x, y)]; positions
    outside the mask do not count. *)
Definition under_kernel (m : Mask) (kernel : list (list Z)) (y x : nat) : list Z :=
  let a := (length kernel / 2)%nat in
  concat (imap (fun i krow =>
    concat (imap (fun j k =>
      if k =? 0 then []
      else if (a <=? y + i)%nat && (a <=? x + j)%nat then
        match m !! (y + i - a)%nat with
        | Some row => match row !! (x + j - a)%nat with Some v => [v] | None => [] end
        | None => []
        end
      else []) krow)) kernel).
Definition morph (op : Z -> Z -> Z) (m : Mask) (kernel : list (list Z)) : Mask :=
  imap (fun y row => imap (fun x v => foldr op v (under_kernel m kernel y x)) row) m.
Definition dilate : Mask -> list (list Z) -> Mask := morph Z.max.
Definition erode : Mask -> list (list Z) -> Mask := morph Z.min.

(** Every vertex with its successor, the last with the first. *)
Definition edges (c : Contour) : list (Point * Point) :=
  match c with
  | [] => []
  | p :: r => combine c (r ++ [p])
  end.

Definition cross (e : Point * Point) : Z := e.1.1 * e.2.2 - e.2.1 * e.1.2.
Definition sumZ (l : list Z) : Z := foldr Z.add 0 l.

Definition contourArea (c : Contour) : Q := Z.abs (sumZ (map cross (edges c))) # 2.

Definition sqrt (q : Q) : Q :=
  inject_Z (Z.sqrt (Qfloor (q * inject_Z 1000000000000))) / inject_Z 1000000.

Definition edge_length (e : Point * Point) : Q :=
  sqrt (inject_Z ((e.1.1 - e.2.1) ^ 2 + (e.1.2 - e.2.2) ^ 2)).
Definition arcLength (c : Contour) : Q := foldr Qplus 0%Q (map edge_length (edges c)).

Definition moments (c : Contour) : Moments :=
  let es := edges c in
  let a00 := sumZ (map cross es) in
  let a10 := sumZ (map (fun e => cross e * (e.1.1 + e.2.1)) es) in
  let a01 := sumZ (map (fun e => cross e * (e.1.2 + e.2.2)) es) in
  let sg := Z.sgn a00 in
  {| m00 := (sg * a00) # 2; m10 := (sg * a10) # 6; m01 := (sg * a01) # 6 |}.

Definition minZ (d : Z) (l : list Z) : Z := foldr Z.min d l.
Definition maxZ (d : Z) (l : list Z) : Z := foldr Z.max d l.
Definition boundingRect (c : Contour) : Rect :=
  match c with
  | [] => mkRect 0 0 0 0
  | p :: r =>
      let x0 := minZ p.1 (map fst r) in
      let y0 := minZ p.2 (map snd r) in
      mkRect x0 y0 (maxZ p.1 (map fst r) - x0 + 1) (maxZ p.2 (map snd r) - y0 + 1)
  end.

Definition convexHull (c : Contour) : Contour := c.
Definition fitEllipse_angle (c : Contour) : Py.npfloat := Py.NaN.

Lemma simple_bgr2hsv_range p :
  let '(h, s, v) := bgr2hsv p in
  (0 <= h <= 179) /\ (0 <= s <= 255) /\ (0 <= v <= 255).
Proof.
  destruct p as [[b g] r]. unfold bgr2hsv, clamp. cbv zeta.
  repeat split; lia.
Qed.

Lemma simple_m00_nonneg c : (0 <= m00 (moments c))%Q.
Proof.
  unfold moments. cbn [m00]. unfold Qle. cbn [Qnum Qden].
  set (a := sumZ _). destruct a; cbn; lia.
Qed.

Lemma simple_sqrt_pos (z : Z) : 0 < z -> (0 < sqrt (inject_Z z))%Q.
Proof.
  intros Hz. unfold sqrt.
  assert (Hf : Qfloor (inject_Z z * inject_Z 1000000000000) = z * 1000000000000).
  { unfold Qfloor, Qmult, inject_Z. cbn [Qnum Qden]. apply Z.div_1_r. }
  rewrite Hf.
  assert (Hs : 0 < Z.sqrt (z * 1000000000000)) by (apply Z.sqrt_pos; lia).
  unfold Qlt, Qdiv, Qmult, Qinv, inject_Z. cbn. lia.
Qed.

#[export] Instance external : External :=
  Build_External bgr2hsv findContours drawContours dilate erode contourArea arcLength
    moments boundingRect convexHull fitEllipse_angle sqrt
    simple_bgr2hsv_range simple_m00_nonneg simple_sqrt_pos.

End SimpleCv.

(** ** The detection as the specification words it

    [detect image parameters]: the six steps of the specification, in its
    order, over the same primitives. It is compared below with
    [run_detection_pipeline], the code. *)

Module Spec.

Import HumanInTheLoopProcessor.

Record DetectionParameters : Type := mkParameters {
  contrast : Q;
  range : HSVRange;
  radius : Z;
  area_min : Z;
  area_max : Z
}.

Section Steps.
Context `{External}.

(** 1. every channel scaled by the contrast multiplier, clipped to 0..255 *)
Definition contrast_adjust (image : Image) (p : DetectionParameters) : Image :=
  convertScaleAbs image (contrast p).

(** 2. conversion to hue, saturation, value *)
Definition to_hsv (image : Image) : Image := cvtColor_BGR2HSV image.

(** 3. foreground iff each of the three components is within its range *)
Definition foreground (p : DetectionParameters) (px : Pixel) : bool :=
  let '(h, s, v) := px in
  let r := range p in
  (h_min r <=? h) && (h <=? h_max r) && (s_min r <=? s) && (s <=? s_max r)
  && (v_min r <=? v) && (v <=? v_max r).
Definition threshold (hsv_image : Image) (p : DetectionParameters) : Mask :=
  map (map (fun px => if foreground p px then 255 else 0)) hsv_image.

(** 4. the outer boundaries of the foreground components *)
Definition outer_contours (mask : Mask) : list Contour := findContours mask.

(** 5. for a radius other than zero: the contours rasterized into a filled
    mask, dilated (r > 0) or eroded (r < 0) with a square of side |r|, and
    the outer contours extracted again; for the radius zero: skipped *)
Definition square (side : Z) : list (list Z) := np_ones side side.
Definition expand_or_shrink (mask : Mask) (contours : list Contour) (p : DetectionParameters)
    : list Contour :=
  let r := radius p in
  if r =? 0 then contours
  else
    let filled := drawContours (zeros_like mask) contours 255 in
    if 0 <? r then outer_contours (dilate filled (square (Z.abs r)))
    else outer_contours (erode filled (square (Z.abs r))).

(** 6. the contours whose area is in [area_min, area_max], bounds included *)
Definition area_filter (contours : list Contour) (p : DetectionParameters) : list Contour :=
  List.filter (fun c => Qle_bool (inject_Z (area_min p)) (contourArea c)
                        && Qle_bool (contourArea c) (inject_Z (area_max p))) contours.

(** The contours that reach the area filter. *)
Definition before_filter (image : Image) (p : DetectionParameters) : list Contour :=
  let mask := threshold (to_hsv (contrast_adjust image p)) p in
  expand_or_shrink mask (outer_contours mask) p.

Definition detect (image : Image) (p : DetectionParameters) : list Contour :=
  area_filter (before_filter image p) p.

End Steps.

(** The detection parameters the sliders hold. *)
Definition parameters (st : App) : DetectionParameters :=
  {| contrast := contrast_value st; range := hsv st; radius := roi_expansion st;
     area_min := min_area st; area_max := max_area st |}.

End Spec.

(** ** The state at start-up, and sample inputs *)

(** The attributes as [__init__] and [setup_gui] leave them, with the paths
    [prompt_for_directories] loaded: the contrast at 1.0, the six HSV
    sliders and the three post-processing sliders at zero, where Tk creates
    them, and the undo button enabled, as Tk creates a button. *)
Definition startup (session : string) (paths : list (string * option Image))
    : HumanInTheLoopProcessor.App :=
  HumanInTheLoopProcessor.mkApp session paths 0%nat [] ∅ 1%Q (Py.str_of "px") None None
    [] (-1) false [] false [] 1%Q (HumanInTheLoopProcessor.mkHSV 0 0 0 0 0 0)
    0 0 0 true [] [] false.

(** A 1x5 image: a tan pixel inside the default range, black, blue, black,
    and a white pixel. *)
Definition sample_image : Image :=
  [[(100, 150, 180); (0, 0, 0); (255, 0, 0); (0, 0, 0); (255, 255, 255)]].

(** A batch of three files with [sample_image] loaded as the current image
    and the six HSV sliders at the values of [reset_hsv_defaults]. *)
Definition sample_app : HumanInTheLoopProcessor.App :=
  HumanInTheLoopProcessor.set_hsv (HumanInTheLoopProcessor.mkHSV 2 91 43 164 48 196)
    (HumanInTheLoopProcessor.set_original_image (Some sample_image)
       (startup "20240101_120000" [("a.jpg", Some sample_image); ("b.jpg", None);
                                   ("c.jpg", Some sample_image)])).

(** The triangle of the specification's geometry scenario. *)
Definition triangle : Contour := [(0, 0); (10, 0); (0, 10)].

(** ** The states the methods lead to *)

Import HumanInTheLoopProcessor.

(** The six values are within the ranges of their sliders. *)
Definition in_slider_range (r : HSVRange) : Prop :=
  (0 <= h_min r <= 179) /\ (0 <= h_max r <= 179)
  /\ (0 <= s_min r <= 255) /\ (0 <= s_max r <= 255)
  /\ (0 <= v_min r <= 255) /\ (0 <= v_max r <= 255).

(** The values [reset_hsv_defaults] writes. *)
Definition default_hsv : HSVRange := mkHSV 2 91 43 164 48 196.

Section States.
Context `{External}.

(** The state the pipeline leaves for the image [img]. *)
Definition detected (img : Image) (st : App) : App :=
  set_selected_roi_index (-1)
    (set_final_rois (Spec.detect img (Spec.parameters st))
       (set_processed_image (Some (convertScaleAbs img (contrast_value st))) st)).

(** The state [on_slider_change] leaves: the pipeline has run unless a
    drawing is in progress or no image is loaded. *)
Definition after_sliders (st : App) : App :=
  if drawing_mode st then st
  else match original_image st with
       | Some img => detected img st
       | None => st
       end.

(** The state of an in-bounds pick, before the sliders are redrawn. *)
Definition picked (sample : Pixel) (st : App) : App :=
  let '(h, s, v) := sample in
  let pushed :=
    set_undo_color_pick_btn true
      (set_color_picker_history (color_picker_history st ++ [hsv st]) st) in
  let r := hsv st in
  set_hsv
    (match color_picker_history st with
     | [] =>
         mkHSV (Z.max 0 (h - 5)) (Z.min 179 (h + 5))
               (Z.max 0 (s - 25)) (Z.min 255 (s + 25))
               (Z.max 0 (v - 25)) (Z.min 255 (v + 25))
     | _ :: _ =>
         mkHSV (scale_set 0 179 (Z.min (h_min r) h)) (scale_set 0 179 (Z.max (h_max r) h))
               (scale_set 0 255 (Z.min (s_min r) s)) (scale_set 0 255 (Z.max (s_max r) s))
               (scale_set 0 255 (Z.min (v_min r) v)) (scale_set 0 255 (Z.max (v_max r) v))
     end) pushed.

(** The state a readable next image [img] is processed into. *)
Definition advanced (img : Image) (st : App) : App :=
  after_sliders
    (set_hsv default_hsv
       (set_contrast_value 1%Q
          (set_original_image (Some img)
             (set_selected_roi_index (-1)
                (set_color_picker_active false
                   (set_new_roi_points []
                      (set_drawing_mode false (set_manual_annotations ∅ st)))))))).

End States.

(** ** Sample states *)

(** The sample application after "Start Color Picking". *)
Definition picking_app : App :=
  exec (enter_color_picker_mode (H := SimpleCv.external)) sample_app.

(** ... after a pick on the tan pixel and its undo. *)
Definition picked_and_undone : App :=
  exec (undo_last_color_pick (H := SimpleCv.external))
    (exec (handle_color_pick (H := SimpleCv.external) 0 0) picking_app).

(** Three one-point regions, the second selected, the second and the third
    annotated. *)
Definition three_regions_app : App :=
  set_selected_roi_index 1
    (set_manual_annotations
       (<[3 := mkAnnotation 4 2 "Rough" "N/A"]>
          (<[2 := mkAnnotation 5 1 "Smooth" "N/A"]> ∅))
       (set_final_rois [[(1, 1)]; [(2, 2)]; [(3, 3)]] sample_app)).

(** The sample application with every detection parameter moved away from
    its start-up value, and the same with other post-processing values. *)
Definition tuned_app : App :=
  set_roi_expansion 3 (set_min_area 100 (set_max_area 5000
    (set_contrast_value 2%Q (set_hsv (mkHSV 0 179 0 255 0 255) sample_app)))).
Definition retuned_app : App :=
  set_roi_expansion (-7) (set_min_area 200 (set_max_area 9000 tuned_app)).

(** A line from (0, 0) to (3, 4), confirmed as 2.5 " mm ". *)
Definition sample_calibration : ScaleCalibrationWindow.Window :=
  ScaleCalibrationWindow.place_points (0, 0) (3, 4) ScaleCalibrationWindow.init.

(** The calibration window after a line was drawn and one end dragged onto
    the other, confirmed with the length 2.0 and the unit "mm". *)
Definition degenerate_calibration : ScaleCalibrationWindow.Window :=
  ScaleCalibrationWindow.confirm_scale (H := SimpleCv.external) (Some (Py.Num 2))
    (Some (Py.str_of "mm"))
    (ScaleCalibrationWindow.place_points (5, 5) (5, 5) ScaleCalibrationWindow.init).

(** The application with that calibration taken over and the triangle as
    its one region. *)
Definition degenerate_app : App :=
  set_final_rois [triangle]
    (exec (take_calibration degenerate_calibration) sample_app).

(** ** Sequences of picks and undos *)

Section PickSequences.
Context `{External}.

(** The clicks at the image points [ps], one after the other, in the
    picking mode. *)
Definition picks (ps : list (Z * Z)) (st : App) : App :=
  fold_left (fun s p => exec (handle_color_pick p.1 p.2) s) ps st.

(** "Undo Last Pick" pressed [n] times. *)
Fixpoint undos (n : nat) (st : App) : App :=
  match n with
  | O => st
  | S k => exec undo_last_color_pick (undos k st)
  end.

End PickSequences.

(** ** Unreadable files *)

(** The state in which an unreadable file at the current index has been
    passed: the modes are left, the warning is logged and the index has
    moved on. *)
Definition passed_over (path : string) (st : App) : App :=
  set_current_image_index (S (current_image_index st))
    (set_messages (messages st ++ [could_not_read path])
       (set_original_image None
          (set_selected_roi_index (-1)
             (set_color_picker_active false
                (set_new_roi_points []
                   (set_drawing_mode false (set_manual_annotations ∅ st))))))).

(** The box [finalize_session] shows at the end of a batch. *)
Definition end_of_batch_message (st : App) : string :=
  match results_df st with
  | [] => "Session closed. No measurements were saved."
  | _ :: _ => results_saved "Batch processing complete!"
  end.

(** ** Clicks on the image and settings presets *)

(** [try: body except Exception: handler]: the handler runs in the state the
    body left when it raised. *)
Definition try_except {A : Type} (body : M A) (handler : Py.exn -> M A) : M A :=
  fun st =>
    match body st with
    | (Py.Ok a, s) => (Py.Ok a, s)
    | (Py.Raise e, s) => handler e s
    end.


(** The content of a settings file, for the entries [load_settings] reads
    and with the types [save_settings] writes them with; an entry that is
    missing is [None]. *)
Record Settings : Type := mkSettings {
  preset_contrast : option Q;
  preset_h_min : option Z;
  preset_h_max : option Z;
  preset_s_min : option Z;
  preset_s_max : option Z;
  preset_v_min : option Z;
  preset_v_max : option Z;
  preset_roi_expansion : option Z;
  preset_min_area : option Z;
  preset_max_area : option Z
}.

Section Callbacks.
Context `{External}.

(** [cv2.pointPolygonTest(roi, pt, False)]: positive inside the contour,
    zero on it, negative outside. *)
Variable pointPolygonTest : Contour -> Z * Z -> Q.

(** What the contrast slider leaves in its variable when a value is
    written to it. *)
Variable contrast_slider : Q -> Q.

(** [Scale.set] of the three post-processing sliders. *)
Definition roi_expansion_set (v : Z) : M unit :=
  assign (set_roi_expansion (scale_set (-50) 50 v)).
Definition min_area_set (v : Z) : M unit :=
  assign (set_min_area (scale_set 0 50000 v)).
Definition max_area_set (v : Z) : M unit :=
  assign (set_max_area (scale_set 0 500000 v)).



(** The dictionary [save_settings] builds. *)
Definition current_settings (st : App) : Settings :=
  {| preset_contrast := Some (contrast_value st);
     preset_h_min := Some (h_min (hsv st)); preset_h_max := Some (h_max (hsv st));
     preset_s_min := Some (s_min (hsv st)); preset_s_max := Some (s_max (hsv st));
     preset_v_min := Some (v_min (hsv st)); preset_v_max := Some (v_max (hsv st));
     preset_roi_expansion := Some (roi_expansion st);
     preset_min_area := Some (min_area st);
     preset_max_area := Some (max_area st) |}.

(** [save_settings]: [written] is [None] when the dialog is cancelled, else
    whether the file could be written; the state keeps the message shown. *)
Definition save_settings (written : option bool) : M unit :=
  match written with
  | None => pass
  | Some true => messagebox "Settings saved."
  | Some false => messagebox "Failed to save settings file."
  end.

(** [load_settings]: [chosen] is [None] when the dialog is cancelled, else
    what [json.load] returned, [None] when the file could not be read. *)
Definition load_settings (chosen : option (option Settings)) : M unit :=
  match chosen with
  | None => pass
  | Some None => messagebox "Failed to load settings file."
  | Some (Some settings) =>
      try_except
        (assign (set_contrast_value
                   (contrast_slider (default 1%Q (preset_contrast settings))));;
         h_min_set (default 0 (preset_h_min settings));;
         h_max_set (default 179 (preset_h_max settings));;
         s_min_set (default 0 (preset_s_min settings));;
         s_max_set (default 255 (preset_s_max settings));;
         v_min_set (default 0 (preset_v_min settings));;
         v_max_set (default 255 (preset_v_max settings));;
         roi_expansion_set (default 0 (preset_roi_expansion settings));;
         min_area_set (default 1000 (preset_min_area settings));;
         max_area_set (default 40000 (preset_max_area settings));;
         on_slider_change;;
         messagebox "Settings loaded and applied.")
        (fun _ => messagebox "Failed to load settings file.")
  end.

End Callbacks.

(** ** [mask_color.py]: the colour similarity analysis *)

Module ColorSimilarity.

(** A row of [df[['avg_color_r', 'avg_color_g', 'avg_color_b']].values]. *)
Definition Color : Type := (Q * Q * Q)%type.

(** [np.sqrt(sum((a - b) ** 2 for a, b in zip(color1, color2)))] *)
Definition calculate_color_distance `{External} (color1 color2 : Color) : Q :=
  let '(a1, a2, a3) := color1 in
  let '(b1, b2, b3) := color2 in
  sqrt (0 + (a1 - b1) ^ 2 + (a2 - b2) ^ 2 + (a3 - b3) ^ 2)%Q.

(** The four variables of the scan; [min_distance] is [None] while it is
    [float('inf')]. *)
Record Scan : Type := mkScan {
  min_distance : option Q;
  max_distance : Q;
  most_similar_pair : option (nat * nat);
  most_different_pair : option (nat * nat)
}.

Definition scan_init : Scan :=
  {| min_distance := None; max_distance := 0; most_similar_pair := None;
     most_different_pair := None |}.

(** [distance < min_distance] *)
Definition below (distance : Q) (bound : option Q) : bool :=
  match bound with
  | None => true
  | Some m => MaskColor.Qltb distance m
  end.

(** The body of the inner loop for the pair [(i, j)]. *)
Definition compare_pair (distance : Q) (i j : nat) (s : Scan) : Scan :=
  let s1 :=
    if below distance (min_distance s) then
      {| min_distance := Some distance; max_distance := max_distance s;
         most_similar_pair := Some (i, j);
         most_different_pair := most_different_pair s |}
    else s in
  if MaskColor.Qltb (max_distance s1) distance then
    {| min_distance := min_distance s1; max_distance := distance;
       most_similar_pair := most_similar_pair s1;
       most_different_pair := Some (i, j) |}
  else s1.

(** [calculate_color_distance(colors[i], colors[j])]; both indices are
    below [len(colors)] in the loops. *)
Definition distance_at `{External} (colors : list Color) (p : nat * nat) : Q :=
  calculate_color_distance (nth p.1 colors (0, 0, 0)%Q) (nth p.2 colors (0, 0, 0)%Q).

(** [for j in range(i+1, len(colors))] *)
Definition scan_row `{External} (colors : list Color) (i : nat) (s : Scan) : Scan :=
  fold_left (fun s j => compare_pair (distance_at colors (i, j)) i j s)
    (seq (S i) (length colors - S i)) s.

(** [for i in range(len(colors))] *)
Definition scan_pairs `{External} (colors : list Color) : Scan :=
  fold_left (fun s i => scan_row colors i s) (seq 0 (length colors)) scan_init.

(** The analysis is run [if len(results) > 1]. *)
Definition similarity_analysis `{External} (colors : list Color) : option Scan :=
  if (1 <? length colors)%nat then Some (scan_pairs colors) else None.

(** The order in which the loops visit the pairs. *)
Definition before (q p : nat * nat) : Prop :=
  (q.1 < p.1 \/ (q.1 = p.1 /\ q.2 < p.2))%nat.

(** The pairs of [n] rows visited before [(i, j)]. *)
Definition visited (n i j : nat) (q : nat * nat) : Prop :=
  (q.1 < q.2 < n)%nat /\ before q (i, j).

(** What the scan knows about the pairs [P] it has visited. *)
Definition similar_ok (d : nat * nat -> Q) (P : nat * nat -> Prop) (s : Scan) : Prop :=
  match most_similar_pair s with
  | None => min_distance s = None /\ forall q, ~ P q
  | Some p =>
      P p /\ min_distance s = Some (d p)
      /\ forall q, P q -> (d p <= d q)%Q /\ (before q p -> (d p < d q)%Q)
  end.

Definition different_ok (d : nat * nat -> Q) (P : nat * nat -> Prop) (s : Scan) : Prop :=
  match most_different_pair s with
  | None => max_distance s = 0%Q /\ forall q, P q -> (d q <= 0)%Q
  | Some p =>
      P p /\ max_distance s = d p /\ (0 < d p)%Q
      /\ forall q, P q -> (d q <= d p)%Q /\ (before q p -> (d q < d p)%Q)
  end.

End ColorSimilarity.
(** * Properties *)

(** ** How the methods run *)

Ltac unfold_M :=
  unfold exec, outcome, assign, read, lift, pass, messagebox,
    mbind, M_bind, mret, M_ret in *.

Section Runs.
Context `{External}.

(** The redraw assigns nothing, whatever its outcome. *)
Lemma update_image_display_state st :
  exists r, update_image_display st = (r, st).
Proof.
  unfold update_image_display, update_live_results_table. unfold_M.
  destruct (processed_image st); [|eauto].
  destruct (mapM centroid (final_rois st)); [|eauto].
  destruct (mapM _ (final_rois st)); eauto.
Qed.

Lemma deselect_roi_state st :
  exists r, deselect_roi st = (r, set_selected_roi_index (-1) st).
Proof.
  unfold deselect_roi, update_roi_action_buttons. unfold_M.
  destruct (update_image_display_state (set_selected_roi_index (-1) st)) as [r ->].
  eauto.
Qed.

Lemma cancel_drawing_state st :
  exists r, cancel_drawing st = (r, set_new_roi_points [] (set_drawing_mode false st)).
Proof.
  unfold cancel_drawing, update_roi_action_buttons. unfold_M.
  destruct (update_image_display_state (set_new_roi_points [] (set_drawing_mode false st)))
    as [r ->].
  eauto.
Qed.


Lemma in_bounds_foreground st px :
  in_bounds (h_min (hsv st), s_min (hsv st), v_min (hsv st))
            (h_max (hsv st), s_max (hsv st), v_max (hsv st)) px
  = Spec.foreground (Spec.parameters st) px.
Proof. destruct px as [[h s] v]. reflexivity. Qed.

Lemma run_detection_pipeline_state st img :
  original_image st = Some img ->
  exists r, run_detection_pipeline st = (r, detected img st).
Proof.
  intros Himg. unfold run_detection_pipeline. unfold_M. rewrite Himg. cbn.
  match goal with |- context [deselect_roi ?s] =>
    destruct (deselect_roi_state s) as [r Hr]; rewrite Hr; clear Hr end.
  set (final := List.filter _ _).
  assert (Hf : final = Spec.detect img (Spec.parameters st)).
  { subst final. unfold Spec.detect, Spec.area_filter, Spec.before_filter,
      Spec.expand_or_shrink, Spec.outer_contours, Spec.threshold, Spec.to_hsv,
      Spec.contrast_adjust, Spec.square, inRange. cbn.
    destruct (roi_expansion st =? 0), (0 <? roi_expansion st); reflexivity. }
  rewrite Hf.
  destruct r as [[]|e].
  - match goal with |- context [update_image_display ?s] =>
      destruct (update_image_display_state s) as [r' ->] end.
    eexists. reflexivity.
  - eexists. reflexivity.
Qed.

End Runs.

(** ** The Python and OpenCV helpers on small inputs *)

Example int_of_float_neg : Py.int_of_float (-(7 # 2)) = -3.
Proof. reflexivity. Qed.

(** Ties that a binary64 value can be at: 0.125 and 0.375. *)
Example round2_half : Py.round2 (125 # 1000) = (12 # 100)%Q /\ Py.round2 (375 # 1000) = (38 # 100)%Q.
Proof. vm_compute. split; reflexivity. Qed.

Example pop_last_3 : Py.pop_last [1; 2; 3] = Py.Ok (3, [1; 2]).
Proof. reflexivity. Qed.

Example pop_out_of_range : Py.pop [1; 2; 3] 3 = Py.Raise Py.IndexError.
Proof. reflexivity. Qed.

Example scale_abs_saturates : scale_abs (3 # 1) 100 = 255.
Proof. vm_compute. reflexivity. Qed.

Example scale_abs_rounds : scale_abs (15 # 10) 101 = 152.
Proof. vm_compute. reflexivity. Qed.

(** In single precision 1.3 is a little below 1.3, and 95 times it a
    little below 123.5. *)
Example scale_abs_single_precision : scale_abs (13 # 10) 95 = 123.
Proof. vm_compute. reflexivity. Qed.

Example inRange_inclusive :
  inRange [[(2, 43, 48); (91, 164, 196); (92, 164, 196); (1, 43, 48)]] (2, 43, 48) (91, 164, 196)
  = [[255; 255; 0; 0]].
Proof. reflexivity. Qed.

(** ** The detection pipeline *)

(** The threshold is inclusive in every channel. *)
Lemma in_bounds_inclusive (l0 l1 l2 u0 u1 u2 p0 p1 p2 : Z) :
  in_bounds (l0, l1, l2) (u0, u1, u2) (p0, p1, p2) = true
  <-> (l0 <= p0 <= u0) /\ (l1 <= p1 <= u1) /\ (l2 <= p2 <= u2).
Proof.
  unfold in_bounds. rewrite !andb_true_iff, !Z.leb_le. tauto.
Qed.

Section Pipeline.
Context `{External}.

(** C1. With an image loaded, [run_detection_pipeline] computes its region
    list by the six steps in their fixed order: contrast, HSV conversion,
    inclusive thresholding, external contours, then for a radius other than
    zero the filled mask dilated (r > 0) or eroded (r < 0) with the square of
    side |r| and its external contours, and last the area filter, applied to
    the contours after the morphology; for the radius zero the contours of
    the threshold mask are filtered directly. *)
Theorem pipeline_fixed_order (st : App) (img : Image) :
  original_image st = Some img ->
  let p := Spec.parameters st in
  let mask := inRange (cvtColor_BGR2HSV (convertScaleAbs img (contrast_value st)))
                (h_min (hsv st), s_min (hsv st), v_min (hsv st))
                (h_max (hsv st), s_max (hsv st), v_max (hsv st)) in
  let filled := drawContours (zeros_like mask) (findContours mask) 255 in
  let r := roi_expansion st in
  let out := final_rois (exec run_detection_pipeline st) in
  out = Spec.detect img p
  /\ processed_image (exec run_detection_pipeline st) = Some (Spec.contrast_adjust img p)
  /\ (r = 0 -> out = Spec.area_filter (findContours mask) p)
  /\ (0 < r -> out = Spec.area_filter (findContours (dilate filled (np_ones r r))) p)
  /\ (r < 0 -> out = Spec.area_filter (findContours (erode filled (np_ones (- r) (- r)))) p).
Proof.
  intros Himg p mask filled r out.
  destruct (run_detection_pipeline_state st img Himg) as [res Hrun].
  assert (Hout : out = Spec.detect img p).
  { subst out. unfold exec. rewrite Hrun. reflexivity. }
  split; [exact Hout|]. split.
  { unfold exec. rewrite Hrun. reflexivity. }
  rewrite Hout. unfold Spec.detect, Spec.before_filter, Spec.expand_or_shrink.
  change (Spec.radius p) with r.
  change (Spec.threshold (Spec.to_hsv (Spec.contrast_adjust img p)) p) with mask.
  repeat split; intros Hr.
  - rewrite Hr. reflexivity.
  - destruct (Z.eqb_spec r 0) as [|_]; [lia|].
    destruct (Z.ltb_spec 0 r); [|lia].
    rewrite Z.abs_eq by lia. reflexivity.
  - destruct (Z.eqb_spec r 0) as [|_]; [lia|].
    destruct (Z.ltb_spec 0 r); [lia|].
    rewrite Z.abs_neq by lia. reflexivity.
Qed.

(** C2. The area filter is exact: the regions the pipeline leaves are the
    contours that reach the filter whose area lies in [min_area, max_area],
    both bounds included, in their order; with both bounds zero only
    contours of area zero are left. *)
Theorem area_filter_exact (st : App) (img : Image) :
  original_image st = Some img ->
  let before := Spec.before_filter img (Spec.parameters st) in
  let out := final_rois (exec run_detection_pipeline st) in
  out = List.filter (area_in_range (min_area st) (max_area st)) before
  /\ (forall roi, In roi out <->
        In roi before
        /\ (inject_Z (min_area st) <= contourArea roi)%Q
        /\ (contourArea roi <= inject_Z (max_area st))%Q)
  /\ (min_area st = 0 -> max_area st = 0 ->
      forall roi, In roi out -> (contourArea roi == 0)%Q).
Proof.
  intros Himg before out.
  destruct (run_detection_pipeline_state st img Himg) as [res Hrun].
  assert (Hout : out = List.filter (area_in_range (min_area st) (max_area st)) before).
  { subst out. unfold exec. rewrite Hrun. reflexivity. }
  assert (Hiff : forall roi, In roi out <->
            In roi before
            /\ (inject_Z (min_area st) <= contourArea roi)%Q
            /\ (contourArea roi <= inject_Z (max_area st))%Q).
  { intros roi. rewrite Hout, filter_In. unfold area_in_range.
    rewrite andb_true_iff, !Qle_bool_iff. tauto. }
  split; [exact Hout|]. split; [exact Hiff|].
  intros Hmin Hmax roi Hin. apply Hiff in Hin as (_ & Hlo & Hhi).
  rewrite Hmin in Hlo. rewrite Hmax in Hhi. apply Qle_antisym; assumption.
Qed.

End Pipeline.

Lemma pipeline_fixed_order_witness :
  final_rois (exec (run_detection_pipeline (H := SimpleCv.external)) sample_app)
  = Spec.detect (H := SimpleCv.external) sample_image (Spec.parameters sample_app).
Proof.
  exact (proj1 (pipeline_fixed_order (H := SimpleCv.external) sample_app sample_image eq_refl)).
Defined.

Lemma area_filter_exact_witness :
  final_rois (exec (run_detection_pipeline (H := SimpleCv.external)) sample_app)
  = List.filter (area_in_range (H := SimpleCv.external) 0 0)
      (Spec.before_filter (H := SimpleCv.external) sample_image (Spec.parameters sample_app)).
Proof.
  exact (proj1 (area_filter_exact (H := SimpleCv.external) sample_app sample_image eq_refl)).
Defined.

(** With both area bounds at zero the result need not be empty: a
    one-pixel component has a contour of area zero, and it is kept. *)
Example zero_bounds_keep_zero_area :
  min_area sample_app = 0 /\ max_area sample_app = 0
  /\ final_rois (exec (run_detection_pipeline (H := SimpleCv.external)) sample_app) = [[(0, 0)]].
Proof. vm_compute. auto. Qed.

(** ** Divisions that cannot fail, and the one that can *)

Ltac unfold_result := unfold mbind, result_bind, mret, result_ret, Py.bind in *.

Lemma truediv_nonzero (a b : Q) :
  ~ (b == 0)%Q -> Py.truediv a b = Py.Ok (a / b)%Q.
Proof.
  intros Hb. unfold Py.truediv.
  destruct (Qeq_bool b 0) eqn:E; [|reflexivity].
  apply Qeq_bool_iff in E. contradiction.
Qed.

Lemma truediv_zero (a b : Q) :
  (b == 0)%Q -> Py.truediv a b = Py.Raise Py.ZeroDivisionError.
Proof.
  intros Hb. unfold Py.truediv. apply Qeq_bool_iff in Hb. rewrite Hb. reflexivity.
Qed.

Lemma Qsquare_nonzero (q : Q) : ~ (q == 0)%Q -> ~ (q ^ 2 == 0)%Q.
Proof.
  intros Hq Hsq. apply Hq. change (q ^ 2)%Q with (q * q)%Q in Hsq.
  apply Qmult_integral in Hsq. tauto.
Qed.

Lemma mapM_total {A B : Type} (f : A -> Py.result B) (l : list A) :
  (forall a, In a l -> exists b, f a = Py.Ok b) ->
  exists bs, mapM f l = Py.Ok bs /\ length bs = length l.
Proof.
  induction l as [|a l IH]; intros Hf; cbn.
  - exists []. split; reflexivity.
  - destruct (Hf a) as [b Hb]; [left; reflexivity|].
    destruct IH as (bs & Hbs & Hlen); [intros x Hx; apply Hf; right; exact Hx|].
    exists (b :: bs). unfold_result. rewrite Hb, Hbs. cbn. split; [reflexivity|lia].
Qed.

Section Divisions.
Context `{External}.

(** The centroid division: the denominator is at least [1e-6]. *)
Lemma centroid_total (roi : Contour) :
  centroid roi
  = Py.Ok (Py.int_of_float (m10 (moments roi) / (m00 (moments roi) + EPS)),
           Py.int_of_float (m01 (moments roi) / (m00 (moments roi) + EPS))).
Proof.
  unfold centroid. unfold_result.
  assert (Hd : ~ (m00 (moments roi) + EPS == 0)%Q).
  { pose proof (m00_nonneg roi) as Hm. unfold EPS. intros He.
    assert (Hpos : (0 < m00 (moments roi) + (1 # 1000000))%Q).
    { apply Qlt_le_trans with (0 + (1 # 1000000))%Q; [reflexivity|].
      apply Qplus_le_l. exact Hm. }
    rewrite He in Hpos. revert Hpos. apply Qlt_irrefl. }
  rewrite !truediv_nonzero by exact Hd. reflexivity.
Qed.

Lemma aspect_ratio_of_total (r : Rect) :
  aspect_ratio_of r
  = Py.Ok (if rect_h r =? 0 then 0 else inject_Z (rect_w r) / inject_Z (rect_h r))%Q.
Proof.
  unfold aspect_ratio_of. destruct (Z.eqb_spec (rect_h r) 0) as [E|E]; cbn; [reflexivity|].
  apply truediv_nonzero. unfold Qeq. cbn. lia.
Qed.

Lemma circularity_of_total (a p : Q) :
  circularity_of a p
  = Py.Ok (if Qeq_bool p 0 then 0 else 4 * math_pi * a / p ^ 2)%Q.
Proof.
  unfold circularity_of. destruct (Qeq_bool p 0) eqn:E; cbn; [reflexivity|].
  apply truediv_nonzero, Qsquare_nonzero. intros Hp. apply Qeq_bool_iff in Hp. congruence.
Qed.

Lemma solidity_of_total (a hull_area : Q) :
  solidity_of a hull_area
  = Py.Ok (if Qeq_bool hull_area 0 then 0 else a / hull_area)%Q.
Proof.
  unfold solidity_of. destruct (Qeq_bool hull_area 0) eqn:E; cbn; [reflexivity|].
  apply truediv_nonzero. intros Hp. apply Qeq_bool_iff in Hp. congruence.
Qed.

Lemma live_row_total (sf : Q) (roi : Contour) :
  ~ (sf == 0)%Q -> exists row, live_row sf roi = Py.Ok row.
Proof.
  intros Hsf. unfold live_row. unfold_result.
  rewrite truediv_nonzero by (apply Qsquare_nonzero; exact Hsf).
  rewrite truediv_nonzero by exact Hsf.
  rewrite aspect_ratio_of_total, circularity_of_total. eauto.
Qed.

(** With a scale factor other than zero the redraw completes. *)
Lemma update_image_display_ok (st : App) :
  ~ (scale_factor st == 0)%Q -> update_image_display st = (Py.Ok tt, st).
Proof.
  intros Hsf. unfold update_image_display, update_live_results_table. unfold_M.
  destruct (processed_image st); [|reflexivity].
  destruct (mapM_total centroid (final_rois st)) as (cs & -> & _).
  { intros roi _. rewrite centroid_total. eauto. }
  destruct (mapM_total (live_row (scale_factor st)) (final_rois st)) as (rows & -> & _).
  { intros roi _. apply live_row_total. exact Hsf. }
  reflexivity.
Qed.

Lemma deselect_roi_ok (st : App) :
  ~ (scale_factor st == 0)%Q ->
  deselect_roi st = (Py.Ok tt, set_selected_roi_index (-1) st).
Proof.
  intros Hsf. unfold deselect_roi, update_roi_action_buttons. unfold_M.
  rewrite update_image_display_ok by exact Hsf. reflexivity.
Qed.

Lemma run_detection_pipeline_ok (st : App) (img : Image) :
  ~ (scale_factor st == 0)%Q -> original_image st = Some img ->
  run_detection_pipeline st = (Py.Ok tt, detected img st).
Proof.
  intros Hsf Himg.
  destruct (run_detection_pipeline_state st img Himg) as [r Hr]. rewrite Hr.
  f_equal. revert Hr. unfold run_detection_pipeline. unfold_M. rewrite Himg. cbn.
  rewrite deselect_roi_ok by exact Hsf.
  rewrite update_image_display_ok by exact Hsf.
  congruence.
Qed.

End Divisions.

(** ** The measurements of [handle_accept] *)

Section Measurements.
Context `{External}.

(** In a record that is built the degenerate cases have their sentinels:
    perimeter zero gives circularity 0, hull area zero gives solidity 0,
    height zero gives aspect ratio 0, fewer than five vertices give the
    orientation NaN. *)
Lemma measure_roi_guarded (st : App) (filename : string) (i : nat) (roi : Contour)
    (row : Row) :
  measure_roi st filename i roi = Py.Ok row ->
  ((arcLength roi == 0)%Q -> Circularity_Ratio row = 0%Q)
  /\ ((contourArea (convexHull roi) == 0)%Q -> Solidity_Ratio row = 0%Q)
  /\ (rect_h (boundingRect roi) = 0 -> Aspect_Ratio row = 0%Q)
  /\ ((length roi < 5)%nat -> Orientation_Angle row = Py.NaN).
Proof.
  unfold measure_roi.
  rewrite centroid_total, aspect_ratio_of_total, solidity_of_total, circularity_of_total.
  unfold_result.
  destruct (Py.truediv (contourArea roi) (scale_factor st ^ 2)); [|discriminate].
  destruct (Py.truediv (arcLength roi) (scale_factor st)); [|discriminate].
  intros [= <-]. cbn. repeat split.
  - intros Hp. apply Qeq_bool_iff in Hp. rewrite Hp. reflexivity.
  - intros Hp. apply Qeq_bool_iff in Hp. rewrite Hp. reflexivity.
  - intros Hh. rewrite Hh. reflexivity.
  - intros Hn. unfold orientation_of.
    destruct (Nat.leb_spec 5 (length roi)); [lia|reflexivity].
Qed.

(** With the scale factor zero the scaled area cannot be computed: the
    guarded divisions pass, [pixel_area/(self.scale_factor**2)] raises. *)
Lemma measure_roi_zero_scale (st : App) (filename : string) (i : nat) (roi : Contour) :
  (scale_factor st == 0)%Q ->
  measure_roi st filename i roi = Py.Raise Py.ZeroDivisionError.
Proof.
  intros Hsf. unfold measure_roi.
  rewrite centroid_total, aspect_ratio_of_total, solidity_of_total, circularity_of_total.
  unfold_result.
  rewrite truediv_zero; [reflexivity|].
  rewrite Hsf. reflexivity.
Qed.

End Measurements.



(** C3 (the code departs from the claim). The calibration accepts a line of
    length zero, the scale factor becomes zero, and accepting an image with
    a region then raises [ZeroDivisionError] in the measurement: the scaled
    area divides by the squared scale factor without a guard. *)
Theorem accept_raises_after_degenerate_calibration :
  ScaleCalibrationWindow.is_confirmed degenerate_calibration = true
  /\ Qeq_bool (scale_factor degenerate_app) 0 = true
  /\ measure_roi (H := SimpleCv.external) degenerate_app "a.jpg" 0 triangle
     = Py.Raise Py.ZeroDivisionError
  /\ outcome (handle_accept (H := SimpleCv.external)) degenerate_app
     = Py.Raise Py.ZeroDivisionError.
Proof. vm_compute. repeat split; reflexivity. Qed.

(** The same triangle with the default scale: area 50, aspect ratio 1, and
    no orientation for its three vertices. *)
Example triangle_measured :
  exists row,
    measure_roi (H := SimpleCv.external) sample_app "a.jpg" 0 triangle = Py.Ok row
    /\ (Area row == 50)%Q /\ (Aspect_Ratio row == 1)%Q
    /\ Orientation_Angle row = Py.NaN.
Proof. eexists. split; [vm_compute; reflexivity|]. cbn. repeat split. Qed.

(** Two coinciding points: perimeter 0 and circularity 0, no exception. *)
Example degenerate_region_measured :
  exists row,
    measure_roi (H := SimpleCv.external) sample_app "a.jpg" 0 [(3, 3); (3, 3)] = Py.Ok row
    /\ (Perimeter row == 0)%Q /\ Circularity_Ratio row = 0%Q.
Proof. eexists. split; [vm_compute; reflexivity|]. cbn. repeat split. Qed.

(** ** The ROI list: manual regions and deletion *)

Lemma pop_in_range {A : Type} (l : list A) (i : nat) (a : A) :
  l !! i = Some a -> Py.pop l (Z.of_nat i) = Py.Ok (a, delete i l).
Proof.
  intros Hi. pose proof (lookup_lt_Some _ _ _ Hi) as Hlt. unfold Py.pop.
  destruct (Z.ltb_spec (Z.of_nat i) 0); [lia|].
  destruct (Z.leb_spec 0 (Z.of_nat i)); [|lia].
  destruct (Z.ltb_spec (Z.of_nat i) (Z.of_nat (length l))); [|lia].
  cbn. rewrite Nat2Z.id, Hi. reflexivity.
Qed.

Lemma pop_last_snoc {A : Type} (l : list A) (a : A) :
  Py.pop_last (l ++ [a]) = Py.Ok (a, l).
Proof.
  unfold Py.pop_last, Py.pop. rewrite length_app. cbn [length].
  change (-1 <? 0) with true. cbv iota.
  destruct (Z.leb_spec 0 (-1 + Z.of_nat (length l + 1))); [|lia].
  destruct (Z.ltb_spec (-1 + Z.of_nat (length l + 1)) (Z.of_nat (length l + 1))); [|lia].
  cbn [andb].
  replace (Z.to_nat (-1 + Z.of_nat (length l + 1))) with (length l + 0)%nat by lia.
  rewrite lookup_app_r by lia.
  replace (length l + 0 - length l)%nat with 0%nat by lia. cbn.
  f_equal. f_equal. clear.
  induction l as [|x l IH]; [reflexivity|]. cbn. f_equal. exact IH.
Qed.

Section RoiList.
Context `{External}.

(** C7. Finishing a drawing of at least three points appends one region,
    made of those points, at the end of the list, so that its display ID
    (index + 1) is the new length; with fewer than three points a warning
    is shown and the list is left as it was; the regions already in the
    list stay where they are in both cases. *)
Theorem finalize_roi_commits (st : App) :
  ((3 <= length (new_roi_points st))%nat ->
     final_rois (exec finalize_roi st) = final_rois st ++ [new_roi_points st]
     /\ final_rois (exec finalize_roi st) !! length (final_rois st)
        = Some (new_roi_points st)
     /\ Z.of_nat (length (final_rois st)) + 1
        = Z.of_nat (length (final_rois (exec finalize_roi st)))
     /\ messages (exec finalize_roi st) = messages st)
  /\ ((length (new_roi_points st) < 3)%nat ->
     final_rois (exec finalize_roi st) = final_rois st
     /\ messages (exec finalize_roi st)
        = messages st ++ ["An ROI must have at least 3 points."])
  /\ (forall i roi, final_rois st !! i = Some roi ->
        final_rois (exec finalize_roi st) !! i = Some roi)
  /\ drawing_mode (exec finalize_roi st) = false
  /\ new_roi_points (exec finalize_roi st) = [].
Proof.
  unfold finalize_roi. unfold_M.
  destruct (Nat.leb_spec 3 (length (new_roi_points st))) as [Hn|Hn]; cbn;
    match goal with |- context [cancel_drawing ?s] =>
      destruct (cancel_drawing_state s) as [r ->] end; cbn.
  - repeat split; try lia.
    + apply list_lookup_middle. reflexivity.
    + rewrite length_app. cbn. lia.
    + intros i roi Hi. apply lookup_app_l_Some. exact Hi.
  - repeat split; try lia. intros i roi Hi. exact Hi.
Qed.

(** C8. With a region selected, [delete_selected_roi] removes the region at
    the selected index and the annotation keyed by its display ID, and
    leaves every other annotation under its key, the higher ones included;
    with no selection it changes nothing and raises nothing. *)
Theorem delete_selected_roi_effect (st : App) :
  (selected_roi_index st = -1 -> delete_selected_roi st = (Py.Ok tt, st))
  /\ (forall i : nat,
        selected_roi_index st = Z.of_nat i -> (i < length (final_rois st))%nat ->
        final_rois (exec delete_selected_roi st) = delete i (final_rois st)
        /\ manual_annotations (exec delete_selected_roi st)
           = delete (Z.of_nat i + 1) (manual_annotations st)
        /\ manual_annotations (exec delete_selected_roi st) !! (Z.of_nat i + 1) = None
        /\ (forall k, k <> Z.of_nat i + 1 ->
              manual_annotations (exec delete_selected_roi st) !! k
              = manual_annotations st !! k)
        /\ selected_roi_index (exec delete_selected_roi st) = -1).
Proof.
  split.
  - intros Hsel. unfold delete_selected_roi. unfold_M. rewrite Hsel. reflexivity.
  - intros i Hsel Hi. unfold delete_selected_roi. unfold_M. rewrite Hsel.
    destruct (Z.eqb_spec (Z.of_nat i) (-1)); [lia|]. cbn.
    destruct (lookup_lt_is_Some_2 _ _ Hi) as [roi Hroi].
    rewrite (pop_in_range _ _ _ Hroi). cbn.
    assert (Hann : manual_annotations
              match manual_annotations st !! (Z.of_nat i + 1) with
              | Some _ =>
                  set_manual_annotations
                    (delete (Z.of_nat i + 1) (manual_annotations st))
                    (set_final_rois (delete i (final_rois st)) st)
              | None => set_final_rois (delete i (final_rois st)) st
              end = delete (Z.of_nat i + 1) (manual_annotations st)).
    { destruct (manual_annotations st !! (Z.of_nat i + 1)) eqn:E; cbn; [reflexivity|].
      symmetry. apply delete_id. exact E. }
    match goal with |- context [deselect_roi ?s] =>
      destruct (deselect_roi_state s) as [r ->] end.
    cbn. rewrite Hann. repeat split.
    + destruct (manual_annotations st !! (Z.of_nat i + 1)); reflexivity.
    + apply lookup_delete_eq.
    + intros k Hk. apply lookup_delete_ne. congruence.
Qed.

End RoiList.

Example finalize_three_points :
  final_rois (exec (finalize_roi (H := SimpleCv.external))
                (set_new_roi_points triangle (set_final_rois [[(7, 7)]] sample_app)))
  = [[(7, 7)]; triangle].
Proof. vm_compute. reflexivity. Qed.

Example finalize_two_points :
  final_rois (exec (finalize_roi (H := SimpleCv.external))
                (set_new_roi_points [(0, 0); (1, 1)] (set_final_rois [[(7, 7)]] sample_app)))
  = [[(7, 7)]]
  /\ messages (exec (finalize_roi (H := SimpleCv.external))
                (set_new_roi_points [(0, 0); (1, 1)] (set_final_rois [[(7, 7)]] sample_app)))
     = ["An ROI must have at least 3 points."].
Proof. vm_compute. split; reflexivity. Qed.

(** Three regions, the second and the third annotated; deleting the second
    removes its annotation and leaves the other under the key 3, which no
    region of the two left has as its display ID. *)
Example delete_leaves_higher_annotation :
  final_rois (exec (delete_selected_roi (H := SimpleCv.external)) three_regions_app)
  = [[(1, 1)]; [(3, 3)]]
  /\ manual_annotations
       (exec (delete_selected_roi (H := SimpleCv.external)) three_regions_app) !! 2 = None
  /\ manual_annotations
       (exec (delete_selected_roi (H := SimpleCv.external)) three_regions_app) !! 3
     = Some (mkAnnotation 4 2 "Rough" "N/A").
Proof. vm_compute. repeat split; reflexivity. Qed.

(** ** The colour-range picker *)



Section Picker.
Context `{External}.

Lemma on_slider_change_state (st : App) :
  exists r, on_slider_change st = (r, after_sliders st).
Proof.
  unfold on_slider_change, _update_hsv_bars, after_sliders. unfold_M.
  destruct (drawing_mode st); cbn; [eauto|].
  destruct (original_image st) as [img|] eqn:E.
  - apply run_detection_pipeline_state. exact E.
  - unfold run_detection_pipeline. unfold_M. rewrite E. eauto.
Qed.

Lemma on_slider_change_ok (st : App) :
  ~ (scale_factor st == 0)%Q -> on_slider_change st = (Py.Ok tt, after_sliders st).
Proof.
  intros Hsf. unfold on_slider_change, _update_hsv_bars, after_sliders. unfold_M.
  destruct (drawing_mode st); cbn; [reflexivity|].
  destruct (original_image st) as [img|] eqn:E.
  - apply run_detection_pipeline_ok; assumption.
  - unfold run_detection_pipeline. unfold_M. rewrite E. reflexivity.
Qed.

(** The pipeline touches neither the sliders nor the picker. *)
Lemma after_sliders_keeps (st : App) :
  hsv (after_sliders st) = hsv st
  /\ color_picker_history (after_sliders st) = color_picker_history st
  /\ undo_color_pick_btn (after_sliders st) = undo_color_pick_btn st
  /\ scale_factor (after_sliders st) = scale_factor st.
Proof.
  unfold after_sliders.
  destruct (drawing_mode st); [auto|]. destruct (original_image st); cbn; auto.
Qed.

Lemma scale_set_id (lo hi v : Z) : lo <= v <= hi -> scale_set lo hi v = v.
Proof. unfold scale_set. lia. Qed.


Lemma handle_color_pick_state (st : App) (img : Image) (x y : Z) :
  original_image st = Some img ->
  0 <= y < shape0 img -> 0 <= x < shape1 img ->
  exists r, handle_color_pick x y st
            = (r, after_sliders (picked (bgr2hsv (at_yx (0, 0, 0) img y x)) st)).
Proof.
  intros Himg Hy Hx. unfold Pixel in *.
  unfold handle_color_pick. unfold_M. cbv beta iota. rewrite Himg. cbv beta iota.
  match goal with |- context [negb ?b] =>
    replace b with true
      by (symmetry; rewrite !andb_true_iff, !Z.leb_le, !Z.ltb_lt; lia) end.
  cbn [negb].
  unfold picked.
  pose proof (bgr2hsv_range (at_yx (0, 0, 0) img y x)) as Hrange.
  destruct (bgr2hsv (at_yx (0, 0, 0) img y x)) as [[h s] v].
  destruct Hrange as (Hh & Hs & Hv).
  unfold h_min_set, h_max_set, s_min_set, s_max_set, v_min_set, v_max_set, H_TOL, SV_TOL.
  unfold_M. cbn.
  destruct (color_picker_history st) as [|a l] eqn:Ehist; cbn.
  - rewrite !scale_set_id by lia.
    match goal with |- context [on_slider_change ?s] =>
      destruct (on_slider_change_state s) as [r ->] end.
    eexists. reflexivity.
  - rewrite length_app. cbn [length].
    replace (length l + 1 =? 0)%nat with false by (symmetry; apply Nat.eqb_neq; lia).
    cbn.
    match goal with |- context [on_slider_change ?s] =>
      destruct (on_slider_change_state s) as [r ->] end.
    eexists. reflexivity.
Qed.

End Picker.

Section Undo.
Context `{External}.

Lemma undo_empty (st : App) :
  color_picker_history st = [] ->
  undo_last_color_pick st = (Py.Ok tt, set_undo_color_pick_btn false st).
Proof.
  intros Hh. unfold undo_last_color_pick. unfold_M. cbv beta iota.
  rewrite Hh. cbn [length Nat.eqb negb]. cbv beta iota. rewrite Hh. reflexivity.
Qed.

Lemma undo_snoc (st : App) (l : list HSVRange) (snap : HSVRange) :
  color_picker_history st = l ++ [snap] ->
  in_slider_range snap ->
  hsv (exec undo_last_color_pick st) = snap
  /\ color_picker_history (exec undo_last_color_pick st) = l
  /\ (outcome undo_last_color_pick st = Py.Ok tt ->
      undo_color_pick_btn (exec undo_last_color_pick st)
      = match l with [] => false | _ :: _ => undo_color_pick_btn st end)
  /\ (~ (scale_factor st == 0)%Q -> outcome undo_last_color_pick st = Py.Ok tt).
Proof.
  intros Hh (Hhm & HhM & Hsm & HsM & Hvm & HvM).
  unfold undo_last_color_pick. unfold_M. cbv beta iota. rewrite Hh.
  rewrite length_app. cbn [length].
  replace (length l + 1 =? 0)%nat with false by (symmetry; apply Nat.eqb_neq; lia).
  cbn [negb]. rewrite pop_last_snoc.
  unfold h_min_set, h_max_set, s_min_set, s_max_set, v_min_set, v_max_set.
  unfold_M. cbv beta iota.
  rewrite !scale_set_id by (cbn [hsv set_hsv set_color_picker_history h_min h_max s_min
                                  s_max v_min v_max]; lia).
  match goal with |- context [on_slider_change ?s] => set (s1 := s) end.
  assert (Hs1h : hsv s1 = snap) by (destruct snap; reflexivity).
  assert (Hs1c : color_picker_history s1 = l) by reflexivity.
  assert (Hs1b : undo_color_pick_btn s1 = undo_color_pick_btn st) by reflexivity.
  assert (Hs1f : scale_factor s1 = scale_factor st) by reflexivity.
  clearbody s1.
  destruct (on_slider_change_state s1) as [r Hr].
  pose proof (on_slider_change_ok s1) as Hok.
  pose proof (after_sliders_keeps s1) as (Kh & Kc & Kb & _).
  rewrite Hs1f in Hok.
  rewrite Hr. rewrite Hs1h in Kh. rewrite Hs1c in Kc. rewrite Hs1b in Kb.
  destruct r as [[]|e]; cbv beta iota.
  - rewrite Kc. destruct l as [|a l']; cbn [length Nat.eqb fst snd].
    + cbn. rewrite Kh, Kc. auto.
    + rewrite Kh, Kc, Kb. auto.
  - cbn [fst snd]. split; [exact Kh|]. split; [exact Kc|]. split; [discriminate|].
    intros Hsf. specialize (Hok Hsf). rewrite Hok in Hr. discriminate.
Qed.

End Undo.

Section SliderRange.
Context `{External}.

Lemma scale_set_in_range (lo hi v : Z) : lo <= hi -> lo <= scale_set lo hi v <= hi.
Proof. unfold scale_set. lia. Qed.

(** The values an in-bounds pick leaves are within the sliders' ranges. *)
Lemma handle_color_pick_in_slider_range (st : App) (img : Image) (x y : Z) :
  original_image st = Some img ->
  0 <= y < shape0 img -> 0 <= x < shape1 img ->
  in_slider_range (hsv (exec (handle_color_pick x y) st)).
Proof.
  intros Himg Hy Hx.
  destruct (handle_color_pick_state st img x y Himg Hy Hx) as [r Hrun].
  unfold exec. rewrite Hrun. cbn [snd].
  destruct (after_sliders_keeps (picked (bgr2hsv (at_yx (0, 0, 0) img y x)) st))
    as (-> & _).
  pose proof (bgr2hsv_range (at_yx (0, 0, 0) img y x)) as Hrange.
  destruct (bgr2hsv (at_yx (0, 0, 0) img y x)) as [[h s] v].
  destruct Hrange as (Hh & Hs & Hv). unfold in_slider_range. cbn.
  destruct (color_picker_history st); cbn.
  - lia.
  - repeat split; apply scale_set_in_range; lia.
Qed.

End SliderRange.

Section PickerClaims.
Context `{External}.

Lemma picked_keeps (sample : Pixel) (st : App) :
  color_picker_history (picked sample st) = color_picker_history st ++ [hsv st]
  /\ undo_color_pick_btn (picked sample st) = true
  /\ scale_factor (picked sample st) = scale_factor st.
Proof. destruct sample as [[h s] v]. cbn. auto. Qed.

(** C4 (amended). For an in-bounds pick with the sampled pixel (h, s, v): a
    pick made while the undo history is empty (the first pick after
    entering the picking mode, or the first after every earlier pick was
    undone) sets the range to [h-5, h+5] clamped to [0, 179] and to
    [s-25, s+25], [v-25, v+25] clamped to [0, 255]; a pick made while the
    history is not empty only widens each channel, to
    min(old min, sample) and max(old max, sample), so that the range does
    not shrink and covers the sample. *)
Theorem handle_color_pick_range (st : App) (img : Image) (x y h s v : Z) :
  original_image st = Some img ->
  0 <= y < shape0 img -> 0 <= x < shape1 img ->
  bgr2hsv (at_yx (0, 0, 0) img y x) = (h, s, v) ->
  (color_picker_history st = [] ->
     hsv (exec (handle_color_pick x y) st)
     = mkHSV (Z.max 0 (h - 5)) (Z.min 179 (h + 5))
             (Z.max 0 (s - 25)) (Z.min 255 (s + 25))
             (Z.max 0 (v - 25)) (Z.min 255 (v + 25)))
  /\ (color_picker_history st <> [] -> in_slider_range (hsv st) ->
      hsv (exec (handle_color_pick x y) st)
      = mkHSV (Z.min (h_min (hsv st)) h) (Z.max (h_max (hsv st)) h)
              (Z.min (s_min (hsv st)) s) (Z.max (s_max (hsv st)) s)
              (Z.min (v_min (hsv st)) v) (Z.max (v_max (hsv st)) v)
      /\ h_min (hsv (exec (handle_color_pick x y) st)) <= h_min (hsv st)
      /\ h_max (hsv st) <= h_max (hsv (exec (handle_color_pick x y) st))
      /\ s_min (hsv (exec (handle_color_pick x y) st)) <= s_min (hsv st)
      /\ s_max (hsv st) <= s_max (hsv (exec (handle_color_pick x y) st))
      /\ v_min (hsv (exec (handle_color_pick x y) st)) <= v_min (hsv st)
      /\ v_max (hsv st) <= v_max (hsv (exec (handle_color_pick x y) st))).
Proof.
  intros Himg Hy Hx Hsample.
  destruct (handle_color_pick_state st img x y Himg Hy Hx) as [r Hrun].
  unfold exec. rewrite Hrun. cbn [snd].
  destruct (after_sliders_keeps (picked (bgr2hsv (at_yx (0, 0, 0) img y x)) st))
    as (-> & _).
  pose proof (bgr2hsv_range (at_yx (0, 0, 0) img y x)) as Hrange.
  rewrite Hsample in *. destruct Hrange as (Hh & Hs & Hv).
  split.
  - intros Hhist. cbn. rewrite Hhist. reflexivity.
  - intros Hhist (Hhm & HhM & Hsm & HsM & Hvm & HvM). cbn.
    destruct (color_picker_history st); [congruence|].
    rewrite !scale_set_id by lia. cbn. repeat split; lia.
Qed.

(** C5. An in-bounds pick pushes the six values the sliders held before it
    and enables the undo button; undoing it gives back those six values,
    equal as integers, and the history it had; undo takes the most recent
    snapshot; an undo that completes and empties the history disables the
    button, and an undo on the empty history only disables the button. *)
Theorem pick_undo_restores (st : App) (img : Image) (x y : Z) :
  original_image st = Some img ->
  0 <= y < shape0 img -> 0 <= x < shape1 img ->
  in_slider_range (hsv st) ->
  color_picker_history (exec (handle_color_pick x y) st)
  = color_picker_history st ++ [hsv st]
  /\ undo_color_pick_btn (exec (handle_color_pick x y) st) = true
  /\ hsv (exec undo_last_color_pick (exec (handle_color_pick x y) st)) = hsv st
  /\ color_picker_history (exec undo_last_color_pick (exec (handle_color_pick x y) st))
     = color_picker_history st
  /\ (outcome undo_last_color_pick (exec (handle_color_pick x y) st) = Py.Ok tt ->
      color_picker_history st = [] ->
      undo_color_pick_btn (exec undo_last_color_pick (exec (handle_color_pick x y) st))
      = false)
  /\ (forall (s : App) (l : list HSVRange) (snap : HSVRange),
        color_picker_history s = l ++ [snap] -> in_slider_range snap ->
        hsv (exec undo_last_color_pick s) = snap
        /\ color_picker_history (exec undo_last_color_pick s) = l)
  /\ (forall s : App, color_picker_history s = [] ->
        undo_last_color_pick s = (Py.Ok tt, set_undo_color_pick_btn false s)).
Proof.
  intros Himg Hy Hx Hrange.
  destruct (handle_color_pick_state st img x y Himg Hy Hx) as [r Hrun].
  set (sample := bgr2hsv (at_yx (0, 0, 0) img y x)) in *.
  assert (Hst : exec (handle_color_pick x y) st = after_sliders (picked sample st))
    by (unfold exec; rewrite Hrun; reflexivity).
  rewrite Hst.
  destruct (after_sliders_keeps (picked sample st)) as (Kh & Kc & Kb & Kf).
  destruct (picked_keeps sample st) as (Pc & Pb & Pf).
  rewrite Pc in Kc. rewrite Pb in Kb. rewrite Pf in Kf.
  destruct (undo_snoc _ _ _ Kc Hrange) as (Uh & Uc & Ub & _).
  repeat split; try assumption.
  - intros Hdone Hhist. rewrite (Ub Hdone), Hhist. reflexivity.
  - apply (undo_snoc s l snap); assumption.
  - apply (undo_snoc s l snap); assumption.
  - intros s Hs. apply undo_empty. exact Hs.
Qed.

End PickerClaims.


Lemma handle_color_pick_range_witness :
  hsv (exec (handle_color_pick (H := SimpleCv.external) 0 0) picking_app)
  = mkHSV 14 24 88 138 155 205.
Proof.
  refine (proj1 (handle_color_pick_range (H := SimpleCv.external) picking_app sample_image
                   0 0 19 113 180 _ _ _ _) _).
  - reflexivity.
  - split; [vm_compute; discriminate | vm_compute; reflexivity].
  - split; [vm_compute; discriminate | vm_compute; reflexivity].
  - reflexivity.
  - reflexivity.
Defined.

(** C4, as it was stated, fails on a pick that follows an undo: the pick on
    the blue pixel is the second pick since the picking mode was entered,
    the history is empty again, and the range is set around the sample
    instead of widened: the hue range [2, 91] becomes [115, 125]. *)
Lemma second_pick_after_undo_resets_range :
  hsv picked_and_undone = mkHSV 2 91 43 164 48 196
  /\ SimpleCv.bgr2hsv (at_yx (0, 0, 0) sample_image 0 2) = (120, 255, 255)
  /\ hsv (exec (handle_color_pick (H := SimpleCv.external) 2 0) picked_and_undone)
     = mkHSV 115 125 230 255 230 255
  /\ h_min (hsv (exec (handle_color_pick (H := SimpleCv.external) 2 0) picked_and_undone))
     <> Z.min (h_min (hsv picked_and_undone)) 120.
Proof. vm_compute. repeat split; congruence. Qed.

Lemma pick_undo_restores_witness :
  hsv (exec (undo_last_color_pick (H := SimpleCv.external))
         (exec (handle_color_pick (H := SimpleCv.external) 0 0) picking_app))
  = hsv picking_app.
Proof.
  refine (proj1 (proj2 (proj2 (pick_undo_restores (H := SimpleCv.external) picking_app
                                  sample_image 0 0 _ _ _ _)))).
  - reflexivity.
  - split; [vm_compute; discriminate | vm_compute; reflexivity].
  - split; [vm_compute; discriminate | vm_compute; reflexivity].
  - vm_compute. repeat split; discriminate.
Defined.

(** ** Advancing to the next image *)


Section NextImage.
Context `{External}.

Lemma reset_hsv_defaults_state (st : App) :
  exists r, reset_hsv_defaults st
            = (r, after_sliders (set_hsv default_hsv (set_contrast_value 1%Q st))).
Proof.
  unfold reset_hsv_defaults.
  unfold h_min_set, h_max_set, s_min_set, s_max_set, v_min_set, v_max_set.
  unfold_M. cbv beta iota.
  match goal with |- context [on_slider_change ?s] =>
    destruct (on_slider_change_state s) as [r ->] end.
  exists r. reflexivity.
Qed.

(** When the method completes on a readable next image, it leaves
    [advanced img st]. *)
Lemma process_pending_completes (st : App) (path : string) (img : Image)
    (rest : list (string * option Image)) :
  outcome (process_pending ((path, Some img) :: rest)) st = Py.Ok tt ->
  exec (process_pending ((path, Some img) :: rest)) st = advanced img st.
Proof.
  unfold exec, outcome. cbn [process_pending].
  unfold exit_color_picker_mode, update_roi_action_buttons.
  unfold_M. cbv beta iota.
  match goal with |- context [cancel_drawing ?s] =>
    destruct (cancel_drawing_state s) as [r1 ->] end.
  destruct r1 as [[]|e]; cbv beta iota; [|discriminate].
  match goal with |- context [deselect_roi ?s] =>
    destruct (deselect_roi_state s) as [r2 ->] end.
  destruct r2 as [[]|e]; cbv beta iota; [|discriminate].
  match goal with |- context [reset_hsv_defaults ?s] =>
    destruct (reset_hsv_defaults_state s) as [r3 ->] end.
  intros _. unfold advanced. reflexivity.
Qed.

Lemma process_next_image_at (st : App) (path : string) (file : option Image) :
  image_paths st !! current_image_index st = Some (path, file) ->
  exists rest,
    process_next_image st = process_pending ((path, file) :: rest) st.
Proof.
  intros Hpath. unfold process_next_image. unfold_M. cbv beta iota.
  destruct (drop (current_image_index st) (image_paths st)) as [|p rest] eqn:Hdrop;
    apply (f_equal (fun l => l !! 0%nat)) in Hdrop; rewrite lookup_drop in Hdrop;
    rewrite Nat.add_0_r, Hpath in Hdrop; [discriminate|].
  cbn in Hdrop. injection Hdrop as <-. exists rest. reflexivity.
Qed.

(** C9 (amended). When the next image of the batch is readable and
    [process_next_image] completes, it has cleared the annotations and the
    selection, left the drawing and the picking mode, loaded the image, set
    the contrast to 1.0 and the six HSV sliders to 2, 91, 43, 164, 48, 196,
    and run the detection on the new image with them; the expansion radius
    and the two area bounds keep the values they had, as do the measurement
    table, the scale and the session id. *)
Theorem process_next_image_resets (st : App) (path : string) (img : Image) :
  image_paths st !! current_image_index st = Some (path, Some img) ->
  outcome process_next_image st = Py.Ok tt ->
  manual_annotations (exec process_next_image st) = ∅
  /\ selected_roi_index (exec process_next_image st) = -1
  /\ drawing_mode (exec process_next_image st) = false
  /\ color_picker_active (exec process_next_image st) = false
  /\ new_roi_points (exec process_next_image st) = []
  /\ original_image (exec process_next_image st) = Some img
  /\ contrast_value (exec process_next_image st) = 1%Q
  /\ hsv (exec process_next_image st) = default_hsv
  /\ final_rois (exec process_next_image st)
     = Spec.detect img (Spec.parameters (exec process_next_image st))
  /\ roi_expansion (exec process_next_image st) = roi_expansion st
  /\ min_area (exec process_next_image st) = min_area st
  /\ max_area (exec process_next_image st) = max_area st
  /\ results_df (exec process_next_image st) = results_df st
  /\ scale_factor (exec process_next_image st) = scale_factor st
  /\ scale_unit (exec process_next_image st) = scale_unit st
  /\ session_id (exec process_next_image st) = session_id st
  /\ current_image_index (exec process_next_image st) = current_image_index st.
Proof.
  intros Hpath Hdone.
  destruct (process_next_image_at st path (Some img) Hpath) as [rest Hrun].
  assert (Hst : exec process_next_image st = advanced img st).
  { unfold exec. rewrite Hrun. apply process_pending_completes.
    unfold outcome in *. rewrite <- Hrun. exact Hdone. }
  rewrite Hst. unfold advanced, after_sliders.
  cbn -[Spec.detect convertScaleAbs]. repeat split.
Qed.

End NextImage.


Lemma process_next_image_resets_witness :
  hsv (exec (process_next_image (H := SimpleCv.external)) tuned_app) = default_hsv
  /\ roi_expansion (exec (process_next_image (H := SimpleCv.external)) tuned_app) = 3.
Proof.
  pose proof (process_next_image_resets (H := SimpleCv.external) tuned_app "a.jpg"
                sample_image ltac:(reflexivity) ltac:(vm_compute; reflexivity)) as P.
  split; [apply P | apply P].
Defined.

(** C9, as it was stated, fails on the three post-processing sliders:
    skipping to the next image resets the contrast and the HSV sliders and
    leaves the expansion radius and the area bounds where the user put
    them, whatever their values, so there is no value they are reset to. *)
Lemma post_processing_sliders_survive_next_image :
  current_image_index (exec (handle_skip (H := SimpleCv.external)) tuned_app) = 2%nat
  /\ contrast_value (exec (handle_skip (H := SimpleCv.external)) tuned_app) = 1%Q
  /\ hsv (exec (handle_skip (H := SimpleCv.external)) tuned_app) = default_hsv
  /\ roi_expansion (exec (handle_skip (H := SimpleCv.external)) tuned_app) = 3
  /\ min_area (exec (handle_skip (H := SimpleCv.external)) tuned_app) = 100
  /\ max_area (exec (handle_skip (H := SimpleCv.external)) tuned_app) = 5000
  /\ roi_expansion (exec (handle_skip (H := SimpleCv.external)) retuned_app) = -7
  /\ min_area (exec (handle_skip (H := SimpleCv.external)) retuned_app) = 200
  /\ max_area (exec (handle_skip (H := SimpleCv.external)) retuned_app) = 9000.
Proof. vm_compute. repeat split; reflexivity. Qed.

(** ** The scale calibration *)

Section Calibration.
Context `{External}.

Lemma math_dist_nonzero (a b : Point) :
  a <> b -> ~ (ScaleCalibrationWindow.math_dist a b == 0)%Q.
Proof.
  intros Hab Hd. unfold ScaleCalibrationWindow.math_dist in Hd.
  assert (Hpos : 0 < (a.1 - b.1) ^ 2 + (a.2 - b.2) ^ 2).
  { destruct a as [ax ay], b as [bx by']. cbn.
    assert (ax <> bx \/ ay <> by') as [Hx|Hy]
      by (destruct (Z.eq_dec ax bx); [right; congruence | left; assumption]).
    - rewrite !Z.pow_2_r.
      pose proof (Z.square_nonneg (ax - bx)). pose proof (Z.square_nonneg (ay - by')).
      assert ((ax - bx) * (ax - bx) <> 0) by (intros E; apply Z.mul_eq_0 in E; lia). lia.
    - rewrite !Z.pow_2_r.
      pose proof (Z.square_nonneg (ax - bx)). pose proof (Z.square_nonneg (ay - by')).
      assert ((ay - by') * (ay - by') <> 0) by (intros E; apply Z.mul_eq_0 in E; lia). lia. }
  apply sqrt_pos in Hpos. rewrite Hd in Hpos. revert Hpos. apply Qlt_irrefl.
Qed.

(** C6 (amended). A confirmation succeeds exactly when both points are
    set, the length entered is above zero (an infinite length included) and
    the unit is not empty once stripped of the white space Python strips.
    For a finite length and a line, both far from the ends of the range of
    a float, the scale factor is then the distance of the points divided by
    the length, and for two distinct points the distance divided by the
    scale factor gives the length back; for an infinite length the scale
    factor is zero. The unit kept is the stripped one. Any other input
    leaves the window unconfirmed with the scale it had, and an unconfirmed
    or closed window leaves the scale of the application as it was, with no
    exception. *)
Theorem confirm_scale_outcome (w : ScaleCalibrationWindow.Window)
    (askfloat : option Py.npfloat) (askstring : option Py.str) (st : App) :
  ScaleCalibrationWindow.is_confirmed w = false ->
  (ScaleCalibrationWindow.is_confirmed
     (ScaleCalibrationWindow.confirm_scale askfloat askstring w) = true
   <-> exists a b L u,
         ScaleCalibrationWindow.p1 w = Some a /\ ScaleCalibrationWindow.p2 w = Some b
         /\ askfloat = Some L
         /\ ((exists l, L = Py.Num l /\ (0 < l)%Q) \/ L = Py.PosInf)
         /\ askstring = Some u /\ ScaleCalibrationWindow.strip u <> [])
  /\ (forall a b l u,
        ScaleCalibrationWindow.p1 w = Some a -> ScaleCalibrationWindow.p2 w = Some b ->
        askfloat = Some (Py.Num l) -> (0 < l)%Q -> Py.moderate l ->
        (a = b \/ Py.moderate (ScaleCalibrationWindow.math_dist a b)) ->
        askstring = Some u -> ScaleCalibrationWindow.strip u <> [] ->
        ScaleCalibrationWindow.scale_factor
          (ScaleCalibrationWindow.confirm_scale askfloat askstring w)
        = (ScaleCalibrationWindow.math_dist a b / l)%Q
        /\ ScaleCalibrationWindow.scale_unit
             (ScaleCalibrationWindow.confirm_scale askfloat askstring w)
           = ScaleCalibrationWindow.strip u
        /\ (a <> b ->
            (ScaleCalibrationWindow.math_dist a b
             / ScaleCalibrationWindow.scale_factor
                 (ScaleCalibrationWindow.confirm_scale askfloat askstring w) == l)%Q))
  /\ (forall a b u,
        ScaleCalibrationWindow.p1 w = Some a -> ScaleCalibrationWindow.p2 w = Some b ->
        askfloat = Some Py.PosInf ->
        askstring = Some u -> ScaleCalibrationWindow.strip u <> [] ->
        ScaleCalibrationWindow.scale_factor
          (ScaleCalibrationWindow.confirm_scale askfloat askstring w) = 0%Q
        /\ ScaleCalibrationWindow.scale_unit
             (ScaleCalibrationWindow.confirm_scale askfloat askstring w)
           = ScaleCalibrationWindow.strip u)
  /\ (ScaleCalibrationWindow.is_confirmed
        (ScaleCalibrationWindow.confirm_scale askfloat askstring w) = false ->
      ScaleCalibrationWindow.scale_factor
        (ScaleCalibrationWindow.confirm_scale askfloat askstring w)
      = ScaleCalibrationWindow.scale_factor w
      /\ ScaleCalibrationWindow.scale_unit
           (ScaleCalibrationWindow.confirm_scale askfloat askstring w)
         = ScaleCalibrationWindow.scale_unit w
      /\ outcome (take_calibration
                    (ScaleCalibrationWindow.confirm_scale askfloat askstring w)) st
         = Py.Ok tt
      /\ scale_factor
           (exec (take_calibration
                    (ScaleCalibrationWindow.confirm_scale askfloat askstring w)) st)
         = scale_factor st
      /\ scale_unit
           (exec (take_calibration
                    (ScaleCalibrationWindow.confirm_scale askfloat askstring w)) st)
         = scale_unit st)
  /\ (outcome (take_calibration (ScaleCalibrationWindow.on_closing w)) st = Py.Ok tt
      /\ scale_factor (exec (take_calibration (ScaleCalibrationWindow.on_closing w)) st)
         = scale_factor st
      /\ scale_unit (exec (take_calibration (ScaleCalibrationWindow.on_closing w)) st)
         = scale_unit st).
Proof.
  intros Hw.
  assert (Hstrip : forall u : Py.str, ScaleCalibrationWindow.strip u <> [] ->
            negb (bool_decide (u = []))
            && negb (bool_decide (ScaleCalibrationWindow.strip u = [])) = true).
  { intros u Hu. apply andb_true_iff. split; apply negb_true_iff, bool_decide_eq_false_2.
    - intros ->. apply Hu. reflexivity.
    - exact Hu. }
  assert (Hpos : forall l, (0 < l)%Q -> Py.positive (Py.Num l) = true).
  { intros l Hl. cbn. apply negb_true_iff. destruct (Qle_bool l 0) eqn:E; [|reflexivity].
    apply Qle_bool_iff in E. exfalso. apply (Qlt_not_le _ _ Hl E). }
  assert (Hgood : forall a b L u,
            ScaleCalibrationWindow.p1 w = Some a -> ScaleCalibrationWindow.p2 w = Some b ->
            askfloat = Some L -> Py.positive L = true ->
            askstring = Some u -> ScaleCalibrationWindow.strip u <> [] ->
            ScaleCalibrationWindow.confirm_scale askfloat askstring w
            = ScaleCalibrationWindow.mkWindow (Some a) (Some b)
                (ScaleCalibrationWindow.per_length (ScaleCalibrationWindow.math_dist a b) L)
                (ScaleCalibrationWindow.strip u) true true
                (ScaleCalibrationWindow.errors w)).
  { intros a b L u Ha Hb -> HL -> Hu. unfold ScaleCalibrationWindow.confirm_scale.
    rewrite Ha, Hb, HL, (Hstrip u Hu). reflexivity. }
  split; [|split; [|split; [|split]]].
  - split.
    + unfold ScaleCalibrationWindow.confirm_scale.
      destruct (ScaleCalibrationWindow.p1 w) as [a|];
        [destruct (ScaleCalibrationWindow.p2 w) as [b|]|]; cbn; try congruence.
      destruct askfloat as [L|]; [|congruence].
      destruct (Py.positive L) eqn:EL; cbn; [|congruence].
      destruct askstring as [u|]; [|congruence].
      destruct (bool_decide (u = [])) eqn:Eu; cbn; [congruence|].
      destruct (bool_decide (ScaleCalibrationWindow.strip u = [])) eqn:Es; cbn; [congruence|].
      intros _. exists a, b, L, u. repeat split; try reflexivity.
      * destruct L as [l| | |]; cbn in EL; try discriminate; [left|right; reflexivity].
        exists l. split; [reflexivity|]. apply Qnot_le_lt. intros HL.
        apply Qle_bool_iff in HL. rewrite HL in EL. discriminate.
      * intros Hs. apply bool_decide_eq_false_1 in Es. contradiction.
    + intros (a & b & L & u & Ha & Hb & HL & HLpos & Hu & Hs).
      rewrite (Hgood a b L u Ha Hb HL); [reflexivity| |exact Hu|exact Hs].
      destruct HLpos as [(l & -> & Hl)| ->]; [apply Hpos; exact Hl|reflexivity].
  - intros a b l u Ha Hb HL HLpos _ _ Hu Hs.
    rewrite (Hgood a b (Py.Num l) u Ha Hb HL (Hpos l HLpos) Hu Hs). cbn.
    split; [reflexivity|]. split; [reflexivity|].
    intros Hab. pose proof (math_dist_nonzero a b Hab) as Hd.
    assert (HL0 : ~ (l == 0)%Q)
      by (intros HL0; rewrite HL0 in HLpos; revert HLpos; apply Qlt_irrefl).
    field. split; assumption.
  - intros a b u Ha Hb HL Hu Hs.
    rewrite (Hgood a b Py.PosInf u Ha Hb HL eq_refl Hu Hs). cbn. split; reflexivity.
  - intros Hconf. unfold take_calibration. rewrite Hconf. unfold_M. cbn.
    revert Hconf. unfold ScaleCalibrationWindow.confirm_scale.
    destruct (ScaleCalibrationWindow.p1 w) as [a|];
      [destruct (ScaleCalibrationWindow.p2 w) as [b|]|]; cbn; auto.
    destruct askfloat as [L|]; auto.
    destruct (Py.positive L); auto.
    destruct askstring as [u|]; auto.
    destruct (negb (bool_decide (u = []))
              && negb (bool_decide (ScaleCalibrationWindow.strip u = [])));
      cbn; [congruence|auto].
  - unfold take_calibration. cbn. unfold_M. cbn. auto.
Qed.

End Calibration.


Lemma confirm_scale_outcome_witness :
  ScaleCalibrationWindow.is_confirmed
    (ScaleCalibrationWindow.confirm_scale (H := SimpleCv.external)
       (Some (Py.Num (5 # 2))) (Some (Py.str_of " mm ")) sample_calibration) = true.
Proof.
  apply (proj1 (confirm_scale_outcome (H := SimpleCv.external) sample_calibration
                  (Some (Py.Num (5 # 2))) (Some (Py.str_of " mm ")) sample_app eq_refl)).
  exists (0, 0), (3, 4), (Py.Num (5 # 2)), (Py.str_of " mm ").
  repeat split; try reflexivity.
  - left. exists (5 # 2). split; reflexivity.
  - vm_compute. discriminate.
Defined.

(** C6, as it was stated, fails on the unit: the unit " mm " is accepted and
    "mm" is stored, not the string that was given. It fails on the round
    trip as well when the line has no length or the length entered is
    infinite: the window confirms, the scale factor is zero, and dividing
    the distance by it raises instead of giving the length back. *)
Lemma confirm_scale_stores_stripped_unit :
  ScaleCalibrationWindow.is_confirmed
    (ScaleCalibrationWindow.confirm_scale (H := SimpleCv.external)
       (Some (Py.Num (5 # 2))) (Some (Py.str_of " mm ")) sample_calibration) = true
  /\ ScaleCalibrationWindow.scale_unit
       (ScaleCalibrationWindow.confirm_scale (H := SimpleCv.external)
          (Some (Py.Num (5 # 2))) (Some (Py.str_of " mm ")) sample_calibration)
     = Py.str_of "mm"
  /\ Py.str_of "mm" <> Py.str_of " mm "
  /\ ScaleCalibrationWindow.is_confirmed degenerate_calibration = true
  /\ Py.truediv (ScaleCalibrationWindow.math_dist (H := SimpleCv.external) (5, 5) (5, 5))
       (ScaleCalibrationWindow.scale_factor degenerate_calibration)
     = Py.Raise Py.ZeroDivisionError
  /\ ScaleCalibrationWindow.is_confirmed
       (ScaleCalibrationWindow.confirm_scale (H := SimpleCv.external)
          (Some Py.PosInf) (Some (Py.str_of "mm")) sample_calibration) = true
  /\ Py.truediv (ScaleCalibrationWindow.math_dist (H := SimpleCv.external) (0, 0) (3, 4))
       (ScaleCalibrationWindow.scale_factor
          (ScaleCalibrationWindow.confirm_scale (H := SimpleCv.external)
             (Some Py.PosInf) (Some (Py.str_of "mm")) sample_calibration))
     = Py.Raise Py.ZeroDivisionError.
Proof. vm_compute. repeat split; congruence. Qed.

(** The round trip on the sample line: 5 pixels for 2.5 units. *)
Example sample_calibration_round_trip :
  Qeq (Qdiv (ScaleCalibrationWindow.math_dist (H := SimpleCv.external) (0, 0) (3, 4))
            (ScaleCalibrationWindow.scale_factor
               (ScaleCalibrationWindow.confirm_scale (H := SimpleCv.external)
                  (Some (Py.Num (5 # 2))) (Some (Py.str_of " mm ")) sample_calibration)))
      (5 # 2).
Proof. vm_compute. reflexivity. Qed.

(** White space beyond ASCII is stripped as well: a unit between two
    no-break spaces (U+00A0) is stored without them, and a unit made of an
    ideographic space (U+3000) only is refused. *)
Example confirm_scale_unicode_space :
  ScaleCalibrationWindow.scale_unit
    (ScaleCalibrationWindow.confirm_scale (H := SimpleCv.external)
       (Some (Py.Num (5 # 2))) (Some ([160] ++ Py.str_of "mm" ++ [160])) sample_calibration)
  = Py.str_of "mm"
  /\ ScaleCalibrationWindow.is_confirmed
       (ScaleCalibrationWindow.confirm_scale (H := SimpleCv.external)
          (Some (Py.Num (5 # 2))) (Some [12288]) sample_calibration) = false.
Proof. vm_compute. split; reflexivity. Qed.

(** ** The mask colour summary *)

Lemma select_row_zero (row : list Pixel) (mrow : list Z) :
  Forall (fun m => m = 0) mrow -> MaskColor.select_row row mrow = [].
Proof.
  intros Hz. unfold MaskColor.select_row. revert row.
  induction Hz as [|m mrow Hm _ IH]; intros [|p row]; cbn; try reflexivity.
  rewrite Hm. cbn. apply IH.
Qed.

(** A mask without a non-zero entry selects no pixel. *)
Lemma masked_pixels_zero_mask (img : Image) (mask : Mask) :
  map length img = map length mask ->
  Forall (Forall (fun m => m = 0)) mask ->
  MaskColor.masked_pixels img mask = Py.Ok [].
Proof.
  intros Hshape Hz. unfold MaskColor.masked_pixels.
  rewrite bool_decide_eq_true_2 by exact Hshape. f_equal. clear Hshape. revert img.
  induction Hz as [|mrow mask Hm _ IH]; intros [|row img]; cbn; try reflexivity.
  rewrite select_row_zero by exact Hm. apply IH.
Qed.

(** Rounding moves a number by half a unit at most. *)
Lemma round_half_even_close (q : Q) :
  (Qabs (inject_Z (Py.round_half_even q) - q) <= 1 # 2)%Q.
Proof.
  unfold Py.round_half_even.
  pose proof (Qfloor_le q) as Hlo. pose proof (Qlt_floor q) as Hhi.
  rewrite inject_Z_plus in Hhi. change (inject_Z 1) with 1%Q in Hhi.
  apply Qabs_Qle_condition.
  destruct (Qcompare (q - inject_Z (Qfloor q)) (1 # 2)) eqn:E.
  - apply Qeq_alt in E.
    destruct (Z.even (Qfloor q));
      [|rewrite inject_Z_plus; change (inject_Z 1) with 1%Q]; split; lra.
  - apply Qlt_alt in E. split; lra.
  - apply Qgt_alt in E. rewrite inject_Z_plus. change (inject_Z 1) with 1%Q. split; lra.
Qed.

Lemma round2_close (q : Q) : (Qabs (Py.round2 q - q) <= 1 # 200)%Q.
Proof.
  unfold Py.round2. pose proof (round_half_even_close (q * 100)) as Hc.
  apply Qabs_Qle_condition in Hc. apply Qabs_Qle_condition.
  set (n := inject_Z (Py.round_half_even (q * 100))) in *. clearbody n.
  assert (E : (n / 100 == n * (1 # 100))%Q) by (field).
  rewrite E. split; lra.
Qed.

(** C10. For an image and a mask of its shape: when the mask selects no
    pixel a record is still produced, with the average colour (0, 0, 0),
    the brightness 0 and the category "Dark"; when it selects at least one
    pixel the brightness computed is 0.299 r + 0.587 g + 0.114 b of the
    mean colour of the selected pixels, and the record holds it to two
    decimals: the brightness stored is less than 0.01 away from it. *)
Theorem mask_color_brightness (session_name mask_filename image_filename : string)
    (img : Image) (mask : Mask) (pixels : list Pixel) :
  MaskColor.masked_pixels img mask = Py.Ok pixels ->
  (pixels = [] ->
     exists rec,
       MaskColor.process_mask session_name mask_filename image_filename img mask = Py.Ok rec
       /\ (MaskColor.avg_color_b rec == 0)%Q /\ (MaskColor.avg_color_g rec == 0)%Q
       /\ (MaskColor.avg_color_r rec == 0)%Q /\ (MaskColor.res_brightness rec == 0)%Q
       /\ MaskColor.res_color_category rec = "Dark"
       /\ MaskColor.mask_file rec = mask_filename)
  /\ (pixels <> [] ->
      forall b g r, MaskColor.mean_color pixels = (b, g, r) ->
        MaskColor.brightness (MaskColor.analyse pixels)
        = (0.299 * r + 0.587 * g + 0.114 * b)%Q
        /\ MaskColor.avg_color (MaskColor.analyse pixels) = (b, g, r)
        /\ exists rec,
             MaskColor.process_mask session_name mask_filename image_filename img mask
             = Py.Ok rec
             /\ (Qabs (MaskColor.res_brightness rec
                       - (0.299 * r + 0.587 * g + 0.114 * b)) < 1 # 100)%Q).
Proof.
  intros Hsel. split.
  - intros ->. unfold MaskColor.process_mask. rewrite Hsel. unfold_result. cbn.
    eexists. split; [reflexivity|]. cbn. repeat split; reflexivity.
  - intros Hne b g r Hmean.
    assert (Ha : MaskColor.analyse pixels
                 = MaskColor.mkAnalysis (b, g, r) (MaskColor.calculate_brightness r g b)
                     (MaskColor.get_simple_color_category r g b)).
    { unfold MaskColor.analyse. destruct pixels as [|p l]; [congruence|].
      cbn [length Nat.eqb]. rewrite Hmean. reflexivity. }
    rewrite Ha. cbn [MaskColor.brightness MaskColor.avg_color].
    split; [reflexivity|]. split; [reflexivity|].
    unfold MaskColor.process_mask. rewrite Hsel. unfold_result. rewrite Ha.
    cbn [MaskColor.brightness MaskColor.avg_color MaskColor.color_category].
    eexists. split; [reflexivity|].
    cbn [MaskColor.res_brightness]. unfold MaskColor.calculate_brightness.
    eapply Qle_lt_trans; [apply round2_close|]. reflexivity.
Qed.

Lemma mask_color_brightness_witness :
  exists rec,
    MaskColor.process_mask "session_1" "a_mask.png" "a.JPG" sample_image [[0; 0; 0; 0; 0]]
    = Py.Ok rec
    /\ (MaskColor.avg_color_b rec == 0)%Q /\ (MaskColor.avg_color_g rec == 0)%Q
    /\ (MaskColor.avg_color_r rec == 0)%Q /\ (MaskColor.res_brightness rec == 0)%Q
    /\ MaskColor.res_color_category rec = "Dark"
    /\ MaskColor.mask_file rec = "a_mask.png".
Proof.
  exact (proj1 (mask_color_brightness "session_1" "a_mask.png" "a.JPG" sample_image
                  [[0; 0; 0; 0; 0]] [] eq_refl) eq_refl).
Defined.

(** The mask of the tan and the white pixel: mean colour (177.5, 202.5,
    217.5) in BGR, brightness 204.135, stored to two decimals. *)
Example two_pixels_under_the_mask :
  exists rec,
    MaskColor.process_mask "session_1" "a_mask.png" "a.JPG" sample_image
      [[255; 0; 0; 0; 255]] = Py.Ok rec
    /\ (MaskColor.avg_color_b rec == 177.5)%Q
    /\ (MaskColor.avg_color_r rec == 217.5)%Q
    /\ (Qabs (MaskColor.res_brightness rec - 204.135) <= 0.005)%Q
    /\ MaskColor.res_color_category rec = "Reddish".
Proof.
  eexists. split; [vm_compute; reflexivity|]. cbn.
  repeat split; vm_compute; congruence.
Qed.

(** The mask of the tan pixel alone: brightness 153.27. *)
Example one_pixel_under_the_mask :
  exists rec,
    MaskColor.process_mask "session_1" "a_mask.png" "a.JPG" sample_image
      [[255; 0; 0; 0; 0]] = Py.Ok rec
    /\ (MaskColor.avg_color_b rec == 100)%Q
    /\ (MaskColor.avg_color_r rec == 180)%Q
    /\ (MaskColor.res_brightness rec == 153.27)%Q
    /\ MaskColor.res_color_category rec = "Reddish".
Proof.
  eexists. split; [vm_compute; reflexivity|]. cbn.
  repeat split; vm_compute; congruence.
Qed.

(** * Further properties of the code *)

(** ** Slider changes and manual edits *)

Section Rederive.
Context `{External}.

(** Outside the drawing mode a slider change replaces the whole region list
    by the detection on the current image and sliders, whatever regions
    were drawn or deleted by hand before, and clears the selection; in the
    drawing mode it recomputes nothing. *)
Theorem slider_change_rederives (st : App) (img : Image) :
  original_image st = Some img ->
  (drawing_mode st = false ->
     final_rois (exec on_slider_change st) = Spec.detect img (Spec.parameters st)
     /\ selected_roi_index (exec on_slider_change st) = -1
     /\ manual_annotations (exec on_slider_change st) = manual_annotations st)
  /\ (drawing_mode st = true -> on_slider_change st = (Py.Ok tt, st))
  /\ final_rois (exec on_slider_change (exec finalize_roi st))
     = Spec.detect img (Spec.parameters st).
Proof.
  intros Himg.
  assert (Hgen : forall s, original_image s = Some img -> drawing_mode s = false ->
            exec on_slider_change s = detected img s).
  { intros s Hs Hd. destruct (on_slider_change_state s) as [r Hr].
    unfold exec. rewrite Hr. unfold after_sliders. rewrite Hd, Hs. reflexivity. }
  split; [|split].
  - intros Hd. rewrite (Hgen st Himg Hd). cbn. auto.
  - intros Hd. unfold on_slider_change, _update_hsv_bars. unfold_M. cbv beta iota.
    rewrite Hd. reflexivity.
  - assert (Hfin : exists s, exec finalize_roi st = s /\ original_image s = Some img
                 /\ drawing_mode s = false /\ Spec.parameters s = Spec.parameters st).
    { unfold finalize_roi. unfold_M. cbv beta iota.
      destruct (3 <=? length (new_roi_points st))%nat; cbn;
        match goal with |- context [cancel_drawing ?s] =>
          destruct (cancel_drawing_state s) as [r ->] end;
        eexists; (split; [reflexivity|]); cbn; auto. }
    destruct Hfin as (s & -> & Hs & Hd & Hp).
    rewrite (Hgen s Hs Hd). cbn. rewrite Hp. reflexivity.
Qed.

End Rederive.

Lemma slider_change_rederives_witness :
  final_rois (exec (on_slider_change (H := SimpleCv.external))
                (exec (finalize_roi (H := SimpleCv.external))
                   (set_new_roi_points triangle sample_app)))
  = Spec.detect (H := SimpleCv.external) sample_image (Spec.parameters sample_app).
Proof.
  exact (proj2 (proj2 (slider_change_rederives (H := SimpleCv.external)
                         (set_new_roi_points triangle sample_app) sample_image eq_refl))).
Defined.

(** ** Sequences of picks and undos *)

Section PickSequencesProps.
Context `{External}.

Lemma after_sliders_keeps_image (st : App) :
  original_image (after_sliders st) = original_image st.
Proof.
  unfold after_sliders. destruct (drawing_mode st); [reflexivity|].
  destruct (original_image st) eqn:E; cbn; auto.
Qed.

Lemma handle_color_pick_keeps_image (st : App) (img : Image) (x y : Z) :
  original_image st = Some img ->
  original_image (exec (handle_color_pick x y) st) = Some img.
Proof.
  intros Himg.
  destruct (Z_le_dec 0 y), (Z_lt_dec y (shape0 img)), (Z_le_dec 0 x), (Z_lt_dec x (shape1 img));
    try (destruct (handle_color_pick_state st img x y Himg ltac:(lia) ltac:(lia)) as [r Hr];
         unfold exec; rewrite Hr; cbn [snd]; rewrite after_sliders_keeps_image;
         destruct (bgr2hsv _) as [[h s] v]; exact Himg);
    unfold Pixel in *; unfold handle_color_pick; unfold_M; cbv beta iota; rewrite Himg;
    cbv beta iota;
    match goal with |- context [negb ?b] =>
      replace b with false
        by (symmetry; rewrite !andb_false_iff, !Z.leb_gt, !Z.ltb_ge; lia) end;
    exact Himg.
Qed.

Lemma undo_keeps_image (st : App) :
  original_image (exec undo_last_color_pick st) = original_image st.
Proof.
  unfold undo_last_color_pick. unfold_M. cbv beta iota.
  destruct (color_picker_history st) as [|a l] eqn:Eh using rev_ind.
  - cbn [length Nat.eqb negb]. cbv beta iota. rewrite Eh. reflexivity.
  - clear IHl. rewrite length_app. cbn [length].
    replace (length l + 1 =? 0)%nat with false by (symmetry; apply Nat.eqb_neq; lia).
    cbn [negb]. rewrite pop_last_snoc.
    unfold h_min_set, h_max_set, s_min_set, s_max_set, v_min_set, v_max_set.
    unfold_M. cbv beta iota.
    match goal with |- context [on_slider_change ?s] => set (s1 := s) end.
    assert (Hs1 : original_image s1 = original_image st) by reflexivity.
    clearbody s1.
    destruct (on_slider_change_state s1) as [r ->].
    pose proof (after_sliders_keeps_image s1) as Hk. rewrite Hs1 in Hk.
    destruct r as [[]|e]; cbv beta iota; [|exact Hk].
    destruct (length (color_picker_history (after_sliders s1)) =? 0)%nat; exact Hk.
Qed.

Lemma pick_undo_pushes (st : App) (img : Image) (x y : Z) :
  original_image st = Some img ->
  0 <= y < shape0 img -> 0 <= x < shape1 img ->
  color_picker_history (exec (handle_color_pick x y) st)
  = color_picker_history st ++ [hsv st]
  /\ original_image (exec (handle_color_pick x y) st) = Some img
  /\ in_slider_range (hsv (exec (handle_color_pick x y) st)).
Proof.
  intros Himg Hy Hx. split; [|split].
  - destruct (handle_color_pick_state st img x y Himg Hy Hx) as [r Hr].
    unfold exec. rewrite Hr. cbn [snd].
    destruct (after_sliders_keeps (picked (bgr2hsv (at_yx (0, 0, 0) img y x)) st))
      as (_ & -> & _).
    apply picked_keeps.
  - apply handle_color_pick_keeps_image. exact Himg.
  - apply (handle_color_pick_in_slider_range st img); assumption.
Qed.

(** As many undos as there were picks give back the six slider values and
    the undo history the picking started from. *)
Theorem picks_then_undos_restore (ps : list (Z * Z)) (st : App) (img : Image) :
  original_image st = Some img ->
  Forall (fun p => (0 <= p.2 < shape0 img) /\ (0 <= p.1 < shape1 img)) ps ->
  in_slider_range (hsv st) ->
  hsv (undos (length ps) (picks ps st)) = hsv st
  /\ color_picker_history (undos (length ps) (picks ps st)) = color_picker_history st.
Proof.
  intros Himg Hps. revert st Himg.
  induction Hps as [|p ps [Hy Hx] _ IH]; intros st Himg Hrange.
  - split; reflexivity.
  - cbn [length undos]. unfold picks. cbn [fold_left]. fold (picks ps).
    set (s1 := exec (handle_color_pick p.1 p.2) st).
    destruct (pick_undo_pushes st img p.1 p.2 Himg Hy Hx) as (Hpush & Himg1 & Hrange1).
    fold s1 in Hpush, Himg1, Hrange1.
    destruct (IH s1 Himg1 Hrange1) as (IHh & IHc).
    rewrite Hpush in IHc.
    destruct (undo_snoc _ _ _ IHc Hrange) as (Uh & Uc & _).
    split; assumption.
Qed.

End PickSequencesProps.

Lemma picks_then_undos_restore_witness :
  hsv (undos (H := SimpleCv.external) 2
         (picks (H := SimpleCv.external) [(0, 0); (2, 0)] picking_app))
  = hsv picking_app
  /\ color_picker_history (undos (H := SimpleCv.external) 2
         (picks (H := SimpleCv.external) [(0, 0); (2, 0)] picking_app))
     = color_picker_history picking_app.
Proof.
  apply (picks_then_undos_restore (H := SimpleCv.external) [(0, 0); (2, 0)]
           picking_app sample_image).
  - reflexivity.
  - repeat constructor; vm_compute; congruence.
  - vm_compute. intuition congruence.
Defined.
(** ** Unreadable files in the batch *)

Section Batch.
Context `{External}.

(** When the method gets past an unreadable file, it goes on with the rest
    of the batch from [passed_over]. *)
Lemma process_pending_passes (st s' : App) (path : string)
    (rest : list (string * option Image)) :
  process_pending ((path, None) :: rest) st = (Py.Ok tt, s') ->
  process_pending rest (passed_over path st) = (Py.Ok tt, s').
Proof.
  cbn [process_pending]. unfold exit_color_picker_mode, update_roi_action_buttons.
  unfold_M. cbv beta iota.
  match goal with |- context [cancel_drawing ?s] =>
    destruct (cancel_drawing_state s) as [r1 ->] end.
  destruct r1 as [[]|e]; cbv beta iota; [|discriminate].
  match goal with |- context [deselect_roi ?s] =>
    destruct (deselect_roi_state s) as [r2 ->] end.
  destruct r2 as [[]|e]; cbv beta iota; [|discriminate].
  intros Hrun. exact Hrun.
Qed.

Lemma process_pending_skips (bad : list string) (tail : list (string * option Image))
    (st s' : App) :
  process_pending (map (fun p => (p, None)) bad ++ tail) st = (Py.Ok tt, s') ->
  exists s,
    process_pending tail s = (Py.Ok tt, s')
    /\ current_image_index s = (current_image_index st + length bad)%nat
    /\ messages s = messages st ++ map could_not_read bad
    /\ skipped s = skipped st
    /\ results_df s = results_df st
    /\ closed s = closed st.
Proof.
  revert st. induction bad as [|p bad IH]; intros st Hrun.
  - exists st. cbn [map app length] in *. rewrite Nat.add_0_r, app_nil_r.
    repeat split. exact Hrun.
  - cbn [map app] in Hrun. apply process_pending_passes in Hrun.
    destruct (IH _ Hrun) as (s & Hs & Hidx & Hmsg & Hskip & Hres & Hcl).
    exists s. split; [exact Hs|].
    rewrite Hidx, Hmsg, Hskip, Hres, Hcl. unfold passed_over.
    cbn [length map]. cbn. rewrite <- app_assoc. repeat split. lia.
Qed.

(** When [process_next_image] completes, it has passed every unreadable
    file up to the first readable one: each got one warning and moved the
    index by one, none was copied to the folder of skipped images, and the
    detection has run on the first readable image. *)
Theorem process_next_image_skips_unreadable (st : App) (bad : list string)
    (path : string) (img : Image) (rest : list (string * option Image)) :
  drop (current_image_index st) (image_paths st)
  = map (fun p => (p, None)) bad ++ (path, Some img) :: rest ->
  outcome process_next_image st = Py.Ok tt ->
  current_image_index (exec process_next_image st)
  = (current_image_index st + length bad)%nat
  /\ original_image (exec process_next_image st) = Some img
  /\ final_rois (exec process_next_image st)
     = Spec.detect img (Spec.parameters (exec process_next_image st))
  /\ messages (exec process_next_image st) = messages st ++ map could_not_read bad
  /\ skipped (exec process_next_image st) = skipped st
  /\ results_df (exec process_next_image st) = results_df st
  /\ closed (exec process_next_image st) = closed st.
Proof.
  intros Hdrop Hdone.
  assert (Hrun : process_next_image st
                 = process_pending (map (fun p => (p, None)) bad ++ (path, Some img) :: rest) st).
  { unfold process_next_image. unfold_M. cbv beta iota. rewrite Hdrop. reflexivity. }
  unfold outcome, exec in *. rewrite Hrun in *.
  destruct (process_pending _ st) as [r s'] eqn:E. cbn [fst snd] in *. subst r.
  destruct (process_pending_skips bad ((path, Some img) :: rest) st s' E)
    as (s & Hs & Hidx & Hmsg & Hskip & Hres & Hcl).
  pose proof (process_pending_completes s path img rest) as Hadv.
  unfold outcome, exec in Hadv. rewrite Hs in Hadv. cbn [fst snd] in Hadv.
  rewrite (Hadv eq_refl).
  rewrite <- Hidx, <- Hmsg, <- Hskip, <- Hres, <- Hcl.
  unfold advanced, after_sliders. cbn -[Spec.detect convertScaleAbs]. repeat split.
Qed.

(** When no readable file is left from the current index on and
    [process_next_image] completes, the session is finalized: after one
    warning for each of the remaining files the closing box is shown, the
    one for an empty table when nothing was measured, and the window is
    closed; the table of measurements is as it was. *)
Theorem process_next_image_finalizes (st : App) (bad : list string) :
  drop (current_image_index st) (image_paths st) = map (fun p => (p, None)) bad ->
  outcome process_next_image st = Py.Ok tt ->
  closed (exec process_next_image st) = true
  /\ current_image_index (exec process_next_image st)
     = (current_image_index st + length bad)%nat
  /\ messages (exec process_next_image st)
     = messages st ++ map could_not_read bad ++ [end_of_batch_message st]
  /\ skipped (exec process_next_image st) = skipped st
  /\ results_df (exec process_next_image st) = results_df st.
Proof.
  intros Hdrop Hdone.
  assert (Hrun : process_next_image st
                 = process_pending (map (fun p => (p, None)) bad ++ []) st).
  { unfold process_next_image. unfold_M. cbv beta iota. rewrite Hdrop, app_nil_r.
    reflexivity. }
  unfold outcome, exec in *. rewrite Hrun in *.
  destruct (process_pending _ st) as [r s'] eqn:E. cbn [fst snd] in *. subst r.
  destruct (process_pending_skips bad [] st s' E)
    as (s & Hs & Hidx & Hmsg & Hskip & Hres & Hcl).
  assert (Hs' : s' = set_closed true
                       (set_messages (messages s ++ [end_of_batch_message st]) s)).
  { revert Hs. cbn [process_pending]. unfold finalize_session, end_of_batch_message.
    unfold_M. cbv beta iota. rewrite <- Hres.
    destruct (results_df s); cbn; intros [= <-]; reflexivity. }
  rewrite Hs'. cbn [closed current_image_index messages skipped results_df
                    set_closed set_messages].
  rewrite Hidx, Hmsg, Hskip, Hres, <- app_assoc. repeat split.
Qed.

End Batch.

Lemma process_next_image_skips_unreadable_witness :
  current_image_index
    (exec (process_next_image (H := SimpleCv.external))
       (set_current_image_index 1 sample_app)) = 2%nat
  /\ messages
       (exec (process_next_image (H := SimpleCv.external))
          (set_current_image_index 1 sample_app))
     = [could_not_read "b.jpg"].
Proof.
  pose proof (process_next_image_skips_unreadable (H := SimpleCv.external)
                (set_current_image_index 1 sample_app) ["b.jpg"%string] "c.jpg"
                sample_image [] eq_refl ltac:(vm_compute; reflexivity)) as P.
  split; [apply P | apply P].
Defined.

Lemma process_next_image_finalizes_witness :
  closed (exec (process_next_image (H := SimpleCv.external))
            (set_current_image_index 3 sample_app)) = true
  /\ messages (exec (process_next_image (H := SimpleCv.external))
                 (set_current_image_index 3 sample_app))
     = ["Session closed. No measurements were saved."%string].
Proof.
  pose proof (process_next_image_finalizes (H := SimpleCv.external)
                (set_current_image_index 3 sample_app) [] eq_refl
                ltac:(vm_compute; reflexivity)) as P.
  split; [apply P | apply P].
Defined.
(** ** Accepting an image *)

Lemma mapM_Ok_Forall2 {A B : Type} (f : A -> Py.result B) (l : list A) (bs : list B) :
  mapM f l = Py.Ok bs -> Forall2 (fun a b => f a = Py.Ok b) l bs.
Proof.
  revert bs. induction l as [|a l IH]; intros bs; cbn; unfold_result.
  - intros [= <-]. constructor.
  - destruct (f a) as [b|e] eqn:Ea; [|discriminate].
    destruct (mapM f l) as [bs'|e] eqn:El; [|discriminate].
    intros [= <-]. constructor; [exact Ea|]. apply IH. reflexivity.
Qed.

Section Accept.
Context `{External}.

(** Whatever files the rest of a batch holds, and whether the method
    completes or not, going through it leaves the table alone and moves the
    index forward only. *)
Lemma process_pending_frame (l : list (string * option Image)) (st : App) :
  results_df (exec (process_pending l) st) = results_df st
  /\ (current_image_index st <= current_image_index (exec (process_pending l) st))%nat.
Proof.
  revert st. induction l as [|[path [img|]] l IH]; intros st.
  - unfold exec. cbn [process_pending]. unfold finalize_session. unfold_M. cbv beta iota.
    destruct (results_df st) eqn:E; cbn; rewrite ?E; split; reflexivity || lia.
  - unfold exec. cbn [process_pending].
    unfold exit_color_picker_mode, update_roi_action_buttons. unfold_M. cbv beta iota.
    match goal with |- context [cancel_drawing ?s] =>
      destruct (cancel_drawing_state s) as [r1 ->] end.
    destruct r1 as [[]|e]; cbv beta iota; [|cbn; split; reflexivity || lia].
    match goal with |- context [deselect_roi ?s] =>
      destruct (deselect_roi_state s) as [r2 ->] end.
    destruct r2 as [[]|e]; cbv beta iota; [|cbn; split; reflexivity || lia].
    match goal with |- context [reset_hsv_defaults ?s] =>
      destruct (reset_hsv_defaults_state s) as [r3 ->] end.
    unfold after_sliders. cbn -[Spec.detect convertScaleAbs]. split; reflexivity || lia.
  - unfold exec. cbn [process_pending].
    unfold exit_color_picker_mode, update_roi_action_buttons. unfold_M. cbv beta iota.
    match goal with |- context [cancel_drawing ?s] =>
      destruct (cancel_drawing_state s) as [r1 ->] end.
    destruct r1 as [[]|e]; cbv beta iota; [|cbn; split; reflexivity || lia].
    match goal with |- context [deselect_roi ?s] =>
      destruct (deselect_roi_state s) as [r2 ->] end.
    destruct r2 as [[]|e]; cbv beta iota; [|cbn; split; reflexivity || lia].
    unfold assign. cbv beta iota.
    match goal with |- context [process_pending l ?s] =>
      destruct (IH s) as [Hres Hidx]; unfold exec in Hres, Hidx;
      rewrite Hres; cbn in Hidx |- *; split; [reflexivity|lia] end.
Qed.

Lemma measure_roi_fields (st : App) (filename : string) (i : nat) (roi : Contour)
    (row : Row) :
  measure_roi st filename i roi = Py.Ok row ->
  Session_ID row = session_id st
  /\ Image_Number row = Z.of_nat (current_image_index st) + 1
  /\ Filename row = filename
  /\ ROI_ID row = Z.of_nat i + 1
  /\ Row_Annotation row = manual_annotations st !! (Z.of_nat i + 1).
Proof.
  unfold measure_roi.
  rewrite centroid_total, aspect_ratio_of_total, solidity_of_total, circularity_of_total.
  unfold_result.
  destruct (Py.truediv (contourArea roi) (scale_factor st ^ 2)); [|discriminate].
  destruct (Py.truediv (arcLength roi) (scale_factor st)); [|discriminate].
  intros [= <-]. cbn. repeat split.
Qed.

(** An "Accept" that completes has added to the table exactly one row for
    each region of the list, in the order of the list: the row at position
    [i] is the measurement of the region at index [i], carries the ID
    [i + 1], the number of the image, its file name and the session, and
    the annotation stored under its ID; the rows of the images before are
    kept, and the batch has moved on. *)
Theorem handle_accept_appends_rows (st : App) (path : string) (file : option Image) :
  image_paths st !! current_image_index st = Some (path, file) ->
  outcome handle_accept st = Py.Ok tt ->
  exists rows,
    results_df (exec handle_accept st) = results_df st ++ rows
    /\ length rows = length (final_rois st)
    /\ (forall (i : nat) (roi : Contour), final_rois st !! i = Some roi ->
          exists row, rows !! i = Some row
            /\ measure_roi st path i roi = Py.Ok row
            /\ ROI_ID row = Z.of_nat i + 1
            /\ Image_Number row = Z.of_nat (current_image_index st) + 1
            /\ Filename row = path
            /\ Session_ID row = session_id st
            /\ Row_Annotation row = manual_annotations st !! (Z.of_nat i + 1))
    /\ (current_image_index st < current_image_index (exec handle_accept st))%nat.
Proof.
  intros Hpath Hdone.
  destruct (mapM (fun '(i, roi) => measure_roi st path i roi)
              (imap (fun i roi => (i, roi)) (final_rois st))) as [rows|e] eqn:Hrows.
  2:{ exfalso. revert Hdone. unfold outcome, handle_accept. unfold_M. cbv beta iota.
      rewrite Hpath. destruct (image_paths st) eqn:E; [rewrite lookup_nil in Hpath; discriminate|].
      clear E. unfold id. rewrite Hrows. cbn. discriminate. }
  exists rows.
  set (st1 := set_current_image_index (S (current_image_index st))
                (set_results_df (results_df st ++ rows) st)).
  assert (Hrun : handle_accept st = process_next_image st1).
  { revert Hdone. unfold outcome, handle_accept. unfold_M. cbv beta iota. rewrite Hpath.
    destruct (image_paths st) eqn:E; [rewrite lookup_nil in Hpath; discriminate|].
    clear E. unfold id. rewrite Hrows. cbv beta iota. cbn [original_image set_results_df].
    destruct (original_image st); [reflexivity|]. cbn. discriminate. }
  assert (Hnext : process_next_image st1
                  = process_pending (drop (current_image_index st1) (image_paths st1)) st1).
  { unfold process_next_image. unfold_M. reflexivity. }
  destruct (process_pending_frame (drop (current_image_index st1) (image_paths st1)) st1)
    as [Hres Hidx].
  unfold exec in *. rewrite Hrun, Hnext.
  split; [exact Hres|]. split.
  { apply mapM_Ok_Forall2 in Hrows. apply Forall2_length in Hrows.
    rewrite length_imap in Hrows. symmetry. exact Hrows. }
  split.
  - intros i roi Hroi.
    apply mapM_Ok_Forall2 in Hrows.
    assert (Hi : imap (fun i roi => (i, roi)) (final_rois st) !! i = Some (i, roi)).
    { rewrite list_lookup_imap, Hroi. reflexivity. }
    destruct (Forall2_lookup_l _ _ _ _ _ Hrows Hi) as (row & Hrow & Hm).
    exists row. split; [exact Hrow|]. split; [exact Hm|].
    destruct (measure_roi_fields _ _ _ _ _ Hm) as (? & ? & ? & ? & ?). auto.
  - set (n := current_image_index (process_pending _ st1).2) in *. clearbody n.
    change (S (current_image_index st) <= n)%nat in Hidx. lia.
Qed.

End Accept.

Lemma handle_accept_appends_rows_witness :
  exists rows,
    results_df (exec (handle_accept (H := SimpleCv.external))
                  (set_final_rois [triangle] sample_app)) = rows
    /\ length rows = 1%nat.
Proof.
  destruct (handle_accept_appends_rows (H := SimpleCv.external)
              (set_final_rois [triangle] sample_app) "a.jpg" (Some sample_image)
              eq_refl ltac:(vm_compute; reflexivity))
    as (rows & Hres & Hlen & _).
  exists rows. split; [exact Hres|exact Hlen].
Defined.

(** ** The live table, the scale and the record *)

Section TableAndRecord.
Context `{External}.

(** The live table and the record of "Accept" are computed alike: the four
    numbers of a line of the table are the area, the perimeter, the aspect
    ratio and the circularity of the record the region would get, and the
    line fails with the exception the record fails with. *)
Theorem live_row_matches_record (st : App) (filename : string) (i : nat) (roi : Contour) :
  live_row (scale_factor st) roi
  = (row ← measure_roi st filename i roi;
     mret (Area row, Perimeter row, Aspect_Ratio row, Circularity_Ratio row)).
Proof.
  unfold live_row, measure_roi.
  rewrite centroid_total, aspect_ratio_of_total, solidity_of_total, circularity_of_total.
  unfold_result.
  destruct (Py.truediv (contourArea roi) (scale_factor st ^ 2)); [|reflexivity].
  destruct (Py.truediv (arcLength roi) (scale_factor st)); reflexivity.
Qed.

(** The scale enters three columns only: the area, the perimeter and the
    equivalent diameter. Two records built for a region under two scale
    factors agree on everything else: the session, the image number, the
    file name, the ID, the centroid, the aspect ratio, the circularity, the
    solidity, the orientation and the annotation. *)
Theorem scale_enters_three_columns (st : App) (q : Q) (filename : string) (i : nat)
    (roi : Contour) (row row' : Row) :
  measure_roi st filename i roi = Py.Ok row ->
  measure_roi (set_scale_factor q st) filename i roi = Py.Ok row' ->
  Session_ID row' = Session_ID row
  /\ Image_Number row' = Image_Number row
  /\ Filename row' = Filename row
  /\ ROI_ID row' = ROI_ID row
  /\ (Centroid_X_px row', Centroid_Y_px row') = (Centroid_X_px row, Centroid_Y_px row)
  /\ Aspect_Ratio row' = Aspect_Ratio row
  /\ Circularity_Ratio row' = Circularity_Ratio row
  /\ Solidity_Ratio row' = Solidity_Ratio row
  /\ Orientation_Angle row' = Orientation_Angle row
  /\ Row_Annotation row' = Row_Annotation row.
Proof.
  unfold measure_roi.
  rewrite centroid_total, aspect_ratio_of_total, solidity_of_total, circularity_of_total.
  unfold_result. cbn [scale_factor set_scale_factor].
  destruct (Py.truediv (contourArea roi) (scale_factor st ^ 2)); [|discriminate].
  destruct (Py.truediv (arcLength roi) (scale_factor st)); [|discriminate].
  destruct (Py.truediv (contourArea roi) (q ^ 2)); [|discriminate].
  destruct (Py.truediv (arcLength roi) q); [|discriminate].
  intros [= <-] [= <-]. cbn. repeat split.
Qed.

End TableAndRecord.

Lemma scale_enters_three_columns_witness :
  exists row row',
    measure_roi (H := SimpleCv.external) sample_app "a.jpg" 0 triangle = Py.Ok row
    /\ measure_roi (H := SimpleCv.external) (set_scale_factor 2 sample_app) "a.jpg" 0 triangle
       = Py.Ok row'
    /\ Aspect_Ratio row' = Aspect_Ratio row
    /\ Solidity_Ratio row' = Solidity_Ratio row.
Proof.
  destruct (measure_roi (H := SimpleCv.external) sample_app "a.jpg" 0 triangle)
    as [row|e] eqn:E1; [|vm_compute in E1; discriminate].
  destruct (measure_roi (H := SimpleCv.external) (set_scale_factor 2 sample_app) "a.jpg" 0
              triangle) as [row'|e] eqn:E2; [|vm_compute in E2; discriminate].
  exists row, row'. split; [reflexivity|]. split; [reflexivity|].
  pose proof (scale_enters_three_columns (H := SimpleCv.external) sample_app 2 "a.jpg" 0
                triangle row row' E1 E2) as P.
  split; apply P.
Defined.

(** ** Deleting a region, then accepting *)

Section DeleteThenAccept.
Context `{External}.

Lemma delete_selected_roi_at (st : App) (i : nat) :
  selected_roi_index st = Z.of_nat i -> (i < length (final_rois st))%nat ->
  final_rois (exec delete_selected_roi st) = delete i (final_rois st)
  /\ manual_annotations (exec delete_selected_roi st)
     = delete (Z.of_nat i + 1) (manual_annotations st)
  /\ scale_factor (exec delete_selected_roi st) = scale_factor st
  /\ selected_roi_index (exec delete_selected_roi st) = -1.
Proof.
  intros Hsel Hi. unfold delete_selected_roi. unfold_M. rewrite Hsel.
  destruct (Z.eqb_spec (Z.of_nat i) (-1)); [lia|]. cbn.
  destruct (lookup_lt_is_Some_2 _ _ Hi) as [roi Hroi].
  rewrite (pop_in_range _ _ _ Hroi). cbn.
  match goal with |- context [deselect_roi ?s] =>
    destruct (deselect_roi_state s) as [r ->] end.
  cbn. destruct (manual_annotations st !! (Z.of_nat i + 1)) eqn:E; cbn; repeat split.
  symmetry. apply delete_id. exact E.
Qed.

(** Deleting a region moves the regions after it one place down, and with
    their place their ID, while the annotations stay under the IDs they were
    entered for. In a record built for it afterwards, a region that came
    after the deleted one therefore carries the annotation of the region
    that was just before it in the list (none when that was the deleted
    region), and not its own; the regions before the deleted one keep place
    and annotation. *)
Theorem deletion_moves_ids_not_annotations (st : App) (i j : nat) (roi : Contour)
    (filename : string) :
  selected_roi_index st = Z.of_nat i -> (i < length (final_rois st))%nat ->
  ((i <= j)%nat -> final_rois st !! S j = Some roi ->
     final_rois (exec delete_selected_roi st) !! j = Some roi
     /\ forall row,
          measure_roi (exec delete_selected_roi st) filename j roi = Py.Ok row ->
          ROI_ID row = Z.of_nat j + 1
          /\ Row_Annotation row
             = if decide (j = i) then None else manual_annotations st !! (Z.of_nat j + 1))
  /\ ((j < i)%nat -> final_rois st !! j = Some roi ->
     final_rois (exec delete_selected_roi st) !! j = Some roi
     /\ forall row,
          measure_roi (exec delete_selected_roi st) filename j roi = Py.Ok row ->
          ROI_ID row = Z.of_nat j + 1
          /\ Row_Annotation row = manual_annotations st !! (Z.of_nat j + 1)).
Proof.
  intros Hsel Hi.
  destruct (delete_selected_roi_at st i Hsel Hi) as (Hrois & Hann & _ & _).
  split; intros Hj Hroi.
  - split; [rewrite Hrois, list_lookup_delete_ge by exact Hj; exact Hroi|].
    intros row Hrow.
    destruct (measure_roi_fields _ _ _ _ _ Hrow) as (_ & _ & _ & Hid & Hra).
    split; [exact Hid|]. rewrite Hra, Hann.
    destruct (decide (j = i)) as [->|Hne].
    + apply lookup_delete_eq.
    + apply lookup_delete_ne. lia.
  - split; [rewrite Hrois, list_lookup_delete_lt by exact Hj; exact Hroi|].
    intros row Hrow.
    destruct (measure_roi_fields _ _ _ _ _ Hrow) as (_ & _ & _ & Hid & Hra).
    split; [exact Hid|]. rewrite Hra, Hann. apply lookup_delete_ne. lia.
Qed.

End DeleteThenAccept.

(** Three regions, the second and the third annotated, the first selected
    and deleted: the region that was third is now second and gets the
    annotation entered for the region that was second. *)
Lemma deletion_moves_ids_not_annotations_witness :
  exists row,
    measure_roi (H := SimpleCv.external)
      (exec (delete_selected_roi (H := SimpleCv.external))
         (set_selected_roi_index 0 three_regions_app)) "a.jpg" 1 [(3, 3)] = Py.Ok row
    /\ ROI_ID row = 2
    /\ Row_Annotation row = Some (mkAnnotation 5 1 "Smooth" "N/A").
Proof.
  destruct (deletion_moves_ids_not_annotations (H := SimpleCv.external)
              (set_selected_roi_index 0 three_regions_app) 0 1 [(3, 3)] "a.jpg"
              eq_refl ltac:(vm_compute; lia))
    as [Hafter _].
  destruct (Hafter ltac:(lia) eq_refl) as (_ & Hrow).
  destruct (measure_roi (H := SimpleCv.external)
              (exec (delete_selected_roi (H := SimpleCv.external))
                 (set_selected_roi_index 0 three_regions_app)) "a.jpg" 1 [(3, 3)])
    as [row|e] eqn:E; [|vm_compute in E; discriminate].
  exists row. split; [reflexivity|].
  destruct (Hrow row eq_refl) as [Hid Hann].
  split; [exact Hid|]. rewrite Hann. reflexivity.
Defined.

(** ** The scale factor zero *)

Section ZeroScale.
Context `{External}.

(** With the scale factor zero and at least one region in the list, "Accept"
    raises [ZeroDivisionError] before anything is stored: no row is added,
    the index is not advanced, the state is as it was. *)
Theorem handle_accept_zero_scale (st : App) (path : string) (file : option Image)
    (roi : Contour) (rois : list Contour) :
  (scale_factor st == 0)%Q ->
  image_paths st !! current_image_index st = Some (path, file) ->
  final_rois st = roi :: rois ->
  handle_accept st = (Py.Raise Py.ZeroDivisionError, st).
Proof.
  intros Hsf Hpath Hrois. unfold handle_accept. unfold_M. cbv beta iota. rewrite Hpath.
  destruct (image_paths st) eqn:E; [rewrite lookup_nil in Hpath; discriminate|].
  clear E. unfold id. rewrite Hrois. cbn [imap mapM].
  unfold_result. rewrite measure_roi_zero_scale by exact Hsf. reflexivity.
Qed.

End ZeroScale.

Lemma handle_accept_zero_scale_witness :
  handle_accept (H := SimpleCv.external) degenerate_app
  = (Py.Raise Py.ZeroDivisionError, degenerate_app).
Proof.
  apply (handle_accept_zero_scale (H := SimpleCv.external) degenerate_app "a.jpg"
           (Some sample_image) triangle []); reflexivity.
Defined.

Lemma measure_roi_guarded_witness :
  exists row,
    measure_roi (H := SimpleCv.external) sample_app "a.jpg" 0 [(3, 3); (3, 3)] = Py.Ok row
    /\ Circularity_Ratio row = 0%Q /\ Orientation_Angle row = Py.NaN.
Proof.
  destruct (measure_roi (H := SimpleCv.external) sample_app "a.jpg" 0 [(3, 3); (3, 3)])
    as [row|e] eqn:E; [|vm_compute in E; discriminate].
  destruct (measure_roi_guarded (H := SimpleCv.external) sample_app "a.jpg" 0
              [(3, 3); (3, 3)] row E) as (Hc & _ & _ & Ho).
  exists row. split; [reflexivity|]. split.
  - apply Hc. vm_compute. reflexivity.
  - apply Ho. vm_compute. lia.
Defined.

(** ** The mask colour summary: ranges and the role of the mask *)

Lemma select_row_support (row : list Pixel) (mrow mrow' : list Z) :
  Forall2 (fun a b => (0 <? a) = (0 <? b)) mrow mrow' ->
  MaskColor.select_row row mrow = MaskColor.select_row row mrow'.
Proof.
  intros Hs. unfold MaskColor.select_row. revert row.
  induction Hs as [|a b mrow mrow' Hab _ IH]; intros [|p row]; cbn; try reflexivity.
  rewrite <- Hab. destruct (0 <? a); cbn; rewrite IH; reflexivity.
Qed.

(** Only the support of the mask counts: two masks that are positive at the
    same places give the same record (or the same exception), whatever grey
    levels they hold there. *)
Theorem process_mask_support (session_name mask_filename image_filename : string)
    (img : Image) (mask mask' : Mask) :
  Forall2 (Forall2 (fun a b => (0 <? a) = (0 <? b))) mask mask' ->
  MaskColor.process_mask session_name mask_filename image_filename img mask
  = MaskColor.process_mask session_name mask_filename image_filename img mask'.
Proof.
  intros Hs. unfold MaskColor.process_mask.
  assert (Hsel : MaskColor.masked_pixels img mask = MaskColor.masked_pixels img mask').
  { unfold MaskColor.masked_pixels.
    assert (Hlen : map length mask = map length mask').
    { clear img. induction Hs as [|r r' m m' Hr _ IH]; cbn; [reflexivity|].
      rewrite IH. f_equal. eapply Forall2_length. exact Hr. }
    rewrite Hlen. destruct (bool_decide _); [|reflexivity]. f_equal. f_equal.
    clear Hlen. revert img.
    induction Hs as [|r r' m m' Hr _ IH]; intros [|row img]; cbn; try reflexivity.
    rewrite (select_row_support row r r' Hr). f_equal. apply IH. }
  rewrite Hsel. reflexivity.
Qed.

Lemma process_mask_support_witness :
  MaskColor.process_mask "session_1" "a_mask.png" "a.JPG" sample_image [[255; 0; 0; 0; 255]]
  = MaskColor.process_mask "session_1" "a_mask.png" "a.JPG" sample_image [[1; 0; -3; 0; 7]].
Proof.
  apply process_mask_support. repeat constructor.
Defined.

Lemma sum_bounds (f : Pixel -> Z) (lo hi : Z) (pixels : list Pixel) :
  Forall (fun p => lo <= f p <= hi) pixels ->
  lo * Z.of_nat (length pixels) <= foldr Z.add 0 (map f pixels) <= hi * Z.of_nat (length pixels).
Proof.
  induction 1 as [|p l Hp _ IH]; cbn [map foldr length]; [lia|].
  rewrite Nat2Z.inj_succ. lia.
Qed.

Lemma channel_mean_bounds (f : Pixel -> Z) (lo hi : Z) (pixels : list Pixel) :
  pixels <> [] ->
  Forall (fun p => lo <= f p <= hi) pixels ->
  (inject_Z lo <= MaskColor.channel_mean f pixels <= inject_Z hi)%Q.
Proof.
  intros Hne Hb. pose proof (sum_bounds f lo hi pixels Hb) as [Hlo Hhi].
  unfold MaskColor.channel_mean.
  assert (Hn : (0 < inject_Z (Z.of_nat (length pixels)))%Q).
  { change 0%Q with (inject_Z 0). rewrite <- Zlt_Qlt.
    destruct pixels; [congruence|]. cbn [length]. lia. }
  split.
  - apply Qle_shift_div_l; [exact Hn|]. rewrite <- inject_Z_mult, <- Zle_Qle. exact Hlo.
  - apply Qle_shift_div_r; [exact Hn|]. rewrite <- inject_Z_mult, <- Zle_Qle. exact Hhi.
Qed.

Lemma Qltb_lt (a b : Q) : MaskColor.Qltb a b = true <-> (a < b)%Q.
Proof.
  unfold MaskColor.Qltb. rewrite negb_true_iff. split.
  - intros Hf. apply Qnot_le_lt. intros Hle. apply Qle_bool_iff in Hle. congruence.
  - intros Hlt. destruct (Qle_bool b a) eqn:E; [|reflexivity].
    apply Qle_bool_iff in E. exfalso. revert Hlt. apply Qle_not_lt. exact E.
Qed.

Lemma category_dark (r g b : Q) :
  MaskColor.get_simple_color_category r g b = "Dark"%string -> (Qmax r (Qmax g b) < 50)%Q.
Proof.
  unfold MaskColor.get_simple_color_category.
  destruct (MaskColor.Qltb (Qmax r (Qmax g b)) 50) eqn:E; [intros _; apply Qltb_lt; exact E|].
  repeat match goal with |- context [if ?c then _ else _] => destruct c end; discriminate.
Qed.

Lemma category_light (r g b : Q) :
  MaskColor.get_simple_color_category r g b = "Light"%string -> (200 < Qmin r (Qmin g b))%Q.
Proof.
  unfold MaskColor.get_simple_color_category.
  destruct (MaskColor.Qltb (Qmax r (Qmax g b)) 50); [discriminate|].
  destruct (MaskColor.Qltb 200 (Qmin r (Qmin g b))) eqn:E; [intros _; apply Qltb_lt; exact E|].
  repeat match goal with |- context [if ?c then _ else _] => destruct c end; discriminate.
Qed.

(** For a selection of 8-bit pixels that is not empty, the three mean
    channels and the brightness lie between 0 and 255, and the two outputs
    agree: a colour classified "Dark" has a brightness below 50, one
    classified "Light" a brightness above 200. *)
Theorem analyse_consistent (pixels : list Pixel) :
  pixels <> [] ->
  Forall (fun p => (0 <= p.1.1 <= 255) /\ (0 <= p.1.2 <= 255) /\ (0 <= p.2 <= 255)) pixels ->
  (0 <= MaskColor.brightness (MaskColor.analyse pixels) <= 255)%Q
  /\ (0 <= (MaskColor.avg_color (MaskColor.analyse pixels)).1.1 <= 255)%Q
  /\ (0 <= (MaskColor.avg_color (MaskColor.analyse pixels)).1.2 <= 255)%Q
  /\ (0 <= (MaskColor.avg_color (MaskColor.analyse pixels)).2 <= 255)%Q
  /\ (MaskColor.color_category (MaskColor.analyse pixels) = "Dark"%string ->
      (MaskColor.brightness (MaskColor.analyse pixels) < 50)%Q)
  /\ (MaskColor.color_category (MaskColor.analyse pixels) = "Light"%string ->
      (200 < MaskColor.brightness (MaskColor.analyse pixels))%Q).
Proof.
  intros Hne Hu8.
  pose proof (channel_mean_bounds (fun p => p.1.1) 0 255 pixels Hne
                ltac:(eapply Forall_impl; [exact Hu8 | cbn; tauto])) as Hb.
  pose proof (channel_mean_bounds (fun p => p.1.2) 0 255 pixels Hne
                ltac:(eapply Forall_impl; [exact Hu8 | cbn; tauto])) as Hg.
  pose proof (channel_mean_bounds (fun p => p.2) 0 255 pixels Hne
                ltac:(eapply Forall_impl; [exact Hu8 | cbn; tauto])) as Hr.
  unfold MaskColor.analyse, MaskColor.mean_color.
  destruct pixels as [|p0 l]; [congruence|]. cbn [length Nat.eqb].
  set (b := MaskColor.channel_mean (fun p => p.1.1) (p0 :: l)) in *.
  set (g := MaskColor.channel_mean (fun p => p.1.2) (p0 :: l)) in *.
  set (r := MaskColor.channel_mean (fun p => p.2) (p0 :: l)) in *.
  clearbody b g r.
  cbn [MaskColor.brightness MaskColor.avg_color MaskColor.color_category fst snd].
  change (inject_Z 0) with 0%Q in *. change (inject_Z 255) with 255%Q in *.
  unfold MaskColor.calculate_brightness.
  split; [split; lra|]. do 3 (split; [assumption|]).
  split.
  - intros Hd. apply category_dark in Hd.
    pose proof (Q.le_max_l r (Qmax g b)). pose proof (Q.le_max_r r (Qmax g b)).
    pose proof (Q.le_max_l g b). pose proof (Q.le_max_r g b). lra.
  - intros Hl. apply category_light in Hl.
    pose proof (Q.le_min_l r (Qmin g b)). pose proof (Q.le_min_r r (Qmin g b)).
    pose proof (Q.le_min_l g b). pose proof (Q.le_min_r g b). lra.
Qed.

Lemma analyse_consistent_witness :
  Qle 0 (MaskColor.brightness (MaskColor.analyse [(100, 150, 180); (255, 255, 255)]))
  /\ Qle (MaskColor.brightness (MaskColor.analyse [(100, 150, 180); (255, 255, 255)])) 255.
Proof.
  apply (analyse_consistent [(100, 150, 180); (255, 255, 255)]).
  - discriminate.
  - repeat constructor; cbn; lia.
Defined.

(** ** The left click on the image *)

Section LeftClicks.
Context `{External}.
Variable pointPolygonTest : Contour -> Z * Z -> Q.






End LeftClicks.


(** ** Settings presets *)

Section SettingsFiles.
Context `{External}.
Variable contrast_slider : Q -> Q.

Lemma seq_assign (f : App -> App) (m : M unit) (st : App) :
  (assign f ;; m) st = m (f st).
Proof. reflexivity. Qed.

Lemma seq_run (m1 m2 : M unit) (st s1 : App) (r : Py.result unit) :
  m1 st = (r, s1) ->
  (m1 ;; m2) st = match r with Py.Ok _ => m2 s1 | Py.Raise e => (Py.Raise e, s1) end.
Proof. intros E. unfold_M. rewrite E. destruct r as [[]|e]; reflexivity. Qed.

Lemma after_sliders_frame (s : App) :
  messages (after_sliders s) = messages s
  /\ Spec.parameters (after_sliders s) = Spec.parameters s
  /\ results_df (after_sliders s) = results_df s
  /\ color_picker_history (after_sliders s) = color_picker_history s
  /\ (drawing_mode s = true ->
      final_rois (after_sliders s) = final_rois s
      /\ selected_roi_index (after_sliders s) = selected_roi_index s)
  /\ (forall img, drawing_mode s = false -> original_image s = Some img ->
      final_rois (after_sliders s) = Spec.detect img (Spec.parameters s)
      /\ selected_roi_index (after_sliders s) = -1).
Proof.
  unfold after_sliders.
  destruct (drawing_mode s); [|destruct (original_image s) as [img0|]].
  - do 4 (split; [reflexivity|]). split; [intros _; split; reflexivity|]. intros img Hf. discriminate Hf.
  - do 4 (split; [reflexivity|]). split; [intros Hf; discriminate Hf|].
    intros img _ Himg. injection Himg as <-. split; reflexivity.
  - do 4 (split; [reflexivity|]). split; [intros Hf; discriminate Hf|].
    intros img _ Himg. discriminate Himg.
Qed.

Lemma load_settings_state (settings : Settings) (st : App) :
  exists s' text,
    load_settings contrast_slider (Some (Some settings)) st = (Py.Ok tt, s')
    /\ messages s' = messages st ++ [text]
    /\ (~ (scale_factor st == 0)%Q -> text = "Settings loaded and applied."%string)
    /\ Spec.parameters s'
       = Spec.mkParameters
           (contrast_slider (default 1%Q (preset_contrast settings)))
           (mkHSV (scale_set 0 179 (default 0 (preset_h_min settings)))
                  (scale_set 0 179 (default 179 (preset_h_max settings)))
                  (scale_set 0 255 (default 0 (preset_s_min settings)))
                  (scale_set 0 255 (default 255 (preset_s_max settings)))
                  (scale_set 0 255 (default 0 (preset_v_min settings)))
                  (scale_set 0 255 (default 255 (preset_v_max settings))))
           (scale_set (-50) 50 (default 0 (preset_roi_expansion settings)))
           (scale_set 0 50000 (default 1000 (preset_min_area settings)))
           (scale_set 0 500000 (default 40000 (preset_max_area settings)))
    /\ (drawing_mode st = true ->
        final_rois s' = final_rois st /\ selected_roi_index s' = selected_roi_index st)
    /\ (forall img, drawing_mode st = false -> original_image st = Some img ->
        final_rois s' = Spec.detect img (Spec.parameters s') /\ selected_roi_index s' = -1)
    /\ results_df s' = results_df st
    /\ color_picker_history s' = color_picker_history st.
Proof.
  unfold load_settings, try_except, h_min_set, h_max_set, s_min_set, s_max_set,
    v_min_set, v_max_set, roi_expansion_set, min_area_set, max_area_set.
  rewrite !seq_assign.
  match goal with |- context [(on_slider_change ;; ?m) ?x] => set (s1 := x) end.
  assert (Hp : Spec.parameters s1
       = Spec.mkParameters
           (contrast_slider (default 1%Q (preset_contrast settings)))
           (mkHSV (scale_set 0 179 (default 0 (preset_h_min settings)))
                  (scale_set 0 179 (default 179 (preset_h_max settings)))
                  (scale_set 0 255 (default 0 (preset_s_min settings)))
                  (scale_set 0 255 (default 255 (preset_s_max settings)))
                  (scale_set 0 255 (default 0 (preset_v_min settings)))
                  (scale_set 0 255 (default 255 (preset_v_max settings))))
           (scale_set (-50) 50 (default 0 (preset_roi_expansion settings)))
           (scale_set 0 50000 (default 1000 (preset_min_area settings)))
           (scale_set 0 500000 (default 40000 (preset_max_area settings)))) by reflexivity.
  assert (Hd : drawing_mode s1 = drawing_mode st) by reflexivity.
  assert (Hi : original_image s1 = original_image st) by reflexivity.
  assert (Hf : final_rois s1 = final_rois st) by reflexivity.
  assert (Hsel : selected_roi_index s1 = selected_roi_index st) by reflexivity.
  assert (Hm : messages s1 = messages st) by reflexivity.
  assert (Hr : results_df s1 = results_df st) by reflexivity.
  assert (Hh : color_picker_history s1 = color_picker_history st) by reflexivity.
  assert (Hsf : scale_factor s1 = scale_factor st) by reflexivity.
  clearbody s1.
  destruct (after_sliders_frame s1) as (Am & Ap & Ar & Ah & Ad & Ai).
  rewrite Hm in Am. rewrite Hr in Ar. rewrite Hh in Ah.
  rewrite Hd, Hf, Hsel in Ad. rewrite Hd, Hi in Ai.
  destruct (on_slider_change_state s1) as [r Hr1].
  pose proof (on_slider_change_ok s1) as Hok. rewrite Hsf, Hr1 in Hok.
  rewrite (seq_run _ _ _ _ _ Hr1).
  destruct r as [[]|e]; unfold messagebox, assign; cbv beta iota.
  - eexists _, _. split; [reflexivity|].
    match goal with |- context [Spec.parameters (set_messages ?m ?s)] =>
      change (Spec.parameters (set_messages m s)) with (Spec.parameters s) end.
    cbn [set_messages messages final_rois selected_roi_index results_df color_picker_history].
    rewrite Am. split; [reflexivity|]. split; [reflexivity|].
    split; [rewrite Ap; exact Hp|].
    split; [exact Ad|]. split; [|split; [exact Ar|exact Ah]].
    intros img Hdm Him. destruct (Ai img Hdm Him) as [Af As].
    split; [|exact As]. rewrite Af, Ap. reflexivity.
  - eexists _, _. split; [reflexivity|].
    match goal with |- context [Spec.parameters (set_messages ?m ?s)] =>
      change (Spec.parameters (set_messages m s)) with (Spec.parameters s) end.
    cbn [set_messages messages final_rois selected_roi_index results_df color_picker_history].
    rewrite Am. split; [reflexivity|].
    split; [intros Hnz; specialize (Hok Hnz); discriminate|].
    split; [rewrite Ap; exact Hp|].
    split; [exact Ad|]. split; [|split; [exact Ar|exact Ah]].
    intros img Hdm Him. destruct (Ai img Hdm Him) as [Af As].
    split; [|exact As]. rewrite Af, Ap. reflexivity.
Qed.


(** A preset is a round trip: the settings [save_settings] writes from a
    window whose sliders are within their ranges, loaded in any window,
    give the detection parameters of the window they were saved from, and
    on a loaded image, outside the drawing mode, the regions detection
    gives with them. *)
Theorem saved_settings_round_trip (saved st : App) :
  contrast_slider (contrast_value saved) = contrast_value saved ->
  in_slider_range (hsv saved) ->
  -50 <= roi_expansion saved <= 50 ->
  0 <= min_area saved <= 50000 ->
  0 <= max_area saved <= 500000 ->
  let st' := exec (load_settings contrast_slider (Some (Some (current_settings saved)))) st in
  Spec.parameters st' = Spec.parameters saved
  /\ (forall img, drawing_mode st = false -> original_image st = Some img ->
      final_rois st' = Spec.detect img (Spec.parameters saved)).
Proof.
  intros Hc (Hh1 & Hh2 & Hs1 & Hs2 & Hv1 & Hv2) Hre Hmin Hmax.
  destruct (load_settings_state (current_settings saved) st)
    as (s' & text & E & _ & _ & Ep & _ & Ei & _).
  unfold exec. rewrite E. cbn [snd].
  assert (Hsame : Spec.parameters s' = Spec.parameters saved).
  { rewrite Ep. cbn [current_settings preset_contrast preset_h_min preset_h_max
      preset_s_min preset_s_max preset_v_min preset_v_max preset_roi_expansion
      preset_min_area preset_max_area default from_option id].
    rewrite Hc, !scale_set_id by assumption.
    unfold Spec.parameters. destruct (hsv saved). reflexivity. }
  split; [exact Hsame|].
  intros img Hdm Him. rewrite <- Hsame. exact (proj1 (Ei img Hdm Him)).
Qed.

End SettingsFiles.

Lemma saved_settings_round_trip_witness :
  Spec.parameters
    (exec (load_settings (H := SimpleCv.external) (fun q => q)
             (Some (Some (current_settings
                            (set_min_area 7 (set_hsv default_hsv (startup "s" [])))))))
          (startup "20240101_120000" [("a.jpg"%string, Some sample_image)]))
  = Spec.parameters (set_min_area 7 (set_hsv default_hsv (startup "s" []))).
Proof.
  exact (proj1 (saved_settings_round_trip (H := SimpleCv.external) (fun q => q)
    (set_min_area 7 (set_hsv default_hsv (startup "s" [])))
    (startup "20240101_120000" [("a.jpg"%string, Some sample_image)])
    ltac:(reflexivity)
    ltac:(vm_compute; intuition discriminate)
    ltac:(vm_compute; intuition discriminate)
    ltac:(vm_compute; intuition discriminate)
    ltac:(vm_compute; intuition discriminate))).
Defined.

(** ** The colour similarity analysis of [mask_color.py] *)

Section Similarity.
Context `{External}.
Import ColorSimilarity.

Lemma Qltb_ge (a b : Q) : MaskColor.Qltb a b = false <-> (b <= a)%Q.
Proof.
  unfold MaskColor.Qltb. rewrite negb_false_iff. apply Qle_bool_iff.
Qed.

(** One pair more: the pair [p0] comes after all the pairs visited. *)
Lemma compare_pair_similar (d : nat * nat -> Q) (P P' : nat * nat -> Prop)
    (p0 : nat * nat) (s : Scan) :
  (forall q, P' q <-> P q \/ q = p0) -> (forall q, P q -> before q p0) ->
  similar_ok d P s -> similar_ok d P' (compare_pair (d p0) p0.1 p0.2 s).
Proof.
  intros HP' Hlast Hs. destruct p0 as [i j]. unfold before in *. cbn [fst snd] in *.
  assert (Hkeep : forall s1 : Scan,
    most_similar_pair
      (if MaskColor.Qltb (max_distance s1) (d (i, j)) then
         {| min_distance := min_distance s1; max_distance := d (i, j);
            most_similar_pair := most_similar_pair s1;
            most_different_pair := Some (i, j) |}
       else s1) = most_similar_pair s1
    /\ min_distance
      (if MaskColor.Qltb (max_distance s1) (d (i, j)) then
         {| min_distance := min_distance s1; max_distance := d (i, j);
            most_similar_pair := most_similar_pair s1;
            most_different_pair := Some (i, j) |}
       else s1) = min_distance s1).
  { intros s1. destruct (MaskColor.Qltb _ _); split; reflexivity. }
  unfold similar_ok, before in *. unfold compare_pair. cbv zeta.
  match goal with |- context [MaskColor.Qltb (max_distance ?x) _] =>
    destruct (Hkeep x) as [-> ->] end.
  clear Hkeep.
  destruct (most_similar_pair s) as [p|] eqn:Ep.
  - destruct Hs as (Pp & Em & Hmin). rewrite Em. cbn [below].
    destruct (MaskColor.Qltb (d (i, j)) (d p)) eqn:Elt.
    + apply Qltb_lt in Elt. cbn [most_similar_pair min_distance].
      split; [apply HP'; right; reflexivity|]. split; [reflexivity|].
      intros q Hq. apply HP' in Hq. destruct Hq as [Hq| ->].
      * destruct (Hmin q Hq) as [Hle _]. split; [lra|]. intros _. lra.
      * split; [lra|]. cbn [fst snd]. intros Hb. exfalso. lia.
    + apply Qltb_ge in Elt. rewrite Ep.
      split; [apply HP'; left; exact Pp|]. split; [exact Em|].
      intros q Hq. apply HP' in Hq. destruct Hq as [Hq| ->].
      * exact (Hmin q Hq).
      * split; [exact Elt|]. cbn [fst snd]. intros Hb. exfalso.
        pose proof (Hlast p Pp). lia.
  - destruct Hs as (Em & Hnone). rewrite Em. cbn [below most_similar_pair min_distance].
    split; [apply HP'; right; reflexivity|]. split; [reflexivity|].
    intros q Hq. apply HP' in Hq. destruct Hq as [Hq| ->].
    + exfalso. exact (Hnone q Hq).
    + split; [lra|]. cbn [fst snd]. intros Hb. exfalso. lia.
Qed.

Lemma compare_pair_different (d : nat * nat -> Q) (P P' : nat * nat -> Prop)
    (p0 : nat * nat) (s : Scan) :
  (forall q, P' q <-> P q \/ q = p0) -> (forall q, P q -> before q p0) ->
  different_ok d P s -> different_ok d P' (compare_pair (d p0) p0.1 p0.2 s).
Proof.
  intros HP' Hlast Hs. destruct p0 as [i j].
  unfold different_ok, before in *. cbn [fst snd] in *. unfold compare_pair. cbv zeta.
  set (s1 := if below (d (i, j)) (min_distance s) then _ else s).
  assert (Kd : most_different_pair s1 = most_different_pair s)
    by (subst s1; destruct (below _ _); reflexivity).
  assert (Km : max_distance s1 = max_distance s)
    by (subst s1; destruct (below _ _); reflexivity).
  clearbody s1. rewrite Km.
  destruct (MaskColor.Qltb (max_distance s) (d (i, j))) eqn:Elt.
  - apply Qltb_lt in Elt. cbn [most_different_pair max_distance].
    split; [apply HP'; right; reflexivity|]. split; [reflexivity|].
    destruct (most_different_pair s) as [p|].
    + destruct Hs as (Pp & Em & Hpos & Hmax). rewrite Em in Elt. split; [lra|].
      intros q Hq. apply HP' in Hq. destruct Hq as [Hq| ->].
      * destruct (Hmax q Hq) as [Hle _]. split; [lra|]. intros _. lra.
      * split; [lra|]. cbn [fst snd]. intros Hb. exfalso. lia.
    + destruct Hs as (Em & Hnone). rewrite Em in Elt. split; [exact Elt|].
      intros q Hq. apply HP' in Hq. destruct Hq as [Hq| ->].
      * pose proof (Hnone q Hq). split; [lra|]. intros _. lra.
      * split; [lra|]. cbn [fst snd]. intros Hb. exfalso. lia.
  - apply Qltb_ge in Elt. rewrite Kd, Km.
    destruct (most_different_pair s) as [p|].
    + destruct Hs as (Pp & Em & Hpos & Hmax). rewrite Em in Elt.
      split; [apply HP'; left; exact Pp|]. split; [exact Em|]. split; [exact Hpos|].
      intros q Hq. apply HP' in Hq. destruct Hq as [Hq| ->].
      * exact (Hmax q Hq).
      * split; [exact Elt|]. cbn [fst snd]. intros Hb. exfalso.
        pose proof (Hlast p Pp). lia.
    + destruct Hs as (Em & Hnone). rewrite Em in Elt. split; [exact Em|].
      intros q Hq. apply HP' in Hq. destruct Hq as [Hq| ->].
      * exact (Hnone q Hq).
      * exact Elt.
Qed.

Lemma similar_ok_ext (d : nat * nat -> Q) (P P' : nat * nat -> Prop) (s : Scan) :
  (forall q, P q <-> P' q) -> similar_ok d P s -> similar_ok d P' s.
Proof.
  intros HP. unfold similar_ok. destruct (most_similar_pair s) as [p|].
  - intros (Pp & Em & Hmin). split; [apply HP; exact Pp|]. split; [exact Em|].
    intros q Hq. apply Hmin. apply HP. exact Hq.
  - intros (Em & Hnone). split; [exact Em|]. intros q Hq. apply (Hnone q). apply HP. exact Hq.
Qed.

Lemma different_ok_ext (d : nat * nat -> Q) (P P' : nat * nat -> Prop) (s : Scan) :
  (forall q, P q <-> P' q) -> different_ok d P s -> different_ok d P' s.
Proof.
  intros HP. unfold different_ok. destruct (most_different_pair s) as [p|].
  - intros (Pp & Em & Hpos & Hmax). split; [apply HP; exact Pp|]. split; [exact Em|].
    split; [exact Hpos|]. intros q Hq. apply Hmax. apply HP. exact Hq.
  - intros (Em & Hnone). split; [exact Em|]. intros q Hq. apply Hnone. apply HP. exact Hq.
Qed.

(** The inner loop, from column [j] on. *)
Lemma scan_row_from (colors : list Color) (i : nat) (len j : nat) (s : Scan) :
  (i < j)%nat -> (j + len = length colors)%nat ->
  similar_ok (distance_at colors) (visited (length colors) i j) s ->
  different_ok (distance_at colors) (visited (length colors) i j) s ->
  let s' := fold_left (fun s j => compare_pair (distance_at colors (i, j)) i j s) (seq j len) s in
  similar_ok (distance_at colors) (visited (length colors) i (length colors)) s'
  /\ different_ok (distance_at colors) (visited (length colors) i (length colors)) s'.
Proof.
  revert j s. induction len as [|len IH]; intros j s Hij Hn Hs Hd; cbn [seq fold_left].
  - replace (length colors) with j at 2 4 by lia. split; assumption.
  - assert (Hstep : forall q, visited (length colors) i (S j) q
                              <-> visited (length colors) i j q \/ q = (i, j)).
    { intros [a b]. unfold visited, before. cbn [fst snd]. split.
      - intros (Hr & Hb).
        destruct (Nat.eq_dec a i) as [->|Ha]; [destruct (Nat.eq_dec b j) as [->|Hbj]|].
        + right. reflexivity.
        + left. split; [exact Hr|]. lia.
        + left. split; [exact Hr|]. lia.
      - intros [(Hr & Hb)|[= -> ->]]; [split; [exact Hr|lia]|]. split; lia. }
    assert (Hlast : forall q, visited (length colors) i j q -> before q (i, j)).
    { intros q Hq. exact (proj2 Hq). }
    apply (IH (S j)); [lia|lia| |].
    + exact (compare_pair_similar _ _ _ (i, j) s Hstep Hlast Hs).
    + exact (compare_pair_different _ _ _ (i, j) s Hstep Hlast Hd).
Qed.

(** The outer loop, from row [i] on. *)
Lemma scan_rows_from (colors : list Color) (len i : nat) (s : Scan) :
  (i + len = length colors)%nat ->
  similar_ok (distance_at colors) (visited (length colors) i (S i)) s ->
  different_ok (distance_at colors) (visited (length colors) i (S i)) s ->
  let s' := fold_left (fun s i => scan_row colors i s) (seq i len) s in
  similar_ok (distance_at colors) (fun q => (q.1 < q.2 < length colors)%nat) s'
  /\ different_ok (distance_at colors) (fun q => (q.1 < q.2 < length colors)%nat) s'.
Proof.
  revert i s. induction len as [|len IH]; intros i s Hn Hs Hd; cbn [seq fold_left].
  - assert (Hall : forall q, visited (length colors) i (S i) q
                             <-> (q.1 < q.2 < length colors)%nat).
    { intros [a b]. unfold visited, before. cbn [fst snd]. split; [tauto|]. intros Hr. split; lia. }
    split; [exact (similar_ok_ext _ _ _ s Hall Hs)|exact (different_ok_ext _ _ _ s Hall Hd)].
  - destruct (scan_row_from colors i (length colors - S i) (S i) s) as [Hs' Hd'];
      [lia|lia|exact Hs|exact Hd|].
    assert (Hnext : forall q, visited (length colors) i (length colors) q
                              <-> visited (length colors) (S i) (S (S i)) q).
    { intros [a b]. unfold visited, before. cbn [fst snd]. split; intros (Hr & Hb); split; lia. }
    apply (IH (S i)); [lia| |].
    + exact (similar_ok_ext _ _ _ _ Hnext Hs').
    + exact (different_ok_ext _ _ _ _ Hnext Hd').
Qed.

Lemma scan_pairs_ok (colors : list Color) :
  similar_ok (distance_at colors) (fun q => (q.1 < q.2 < length colors)%nat) (scan_pairs colors)
  /\ different_ok (distance_at colors) (fun q => (q.1 < q.2 < length colors)%nat)
       (scan_pairs colors).
Proof.
  apply (scan_rows_from colors (length colors) 0 scan_init); [lia| |].
  - split; [reflexivity|]. intros [a b] (Hr & Hb). unfold before in Hb. cbn [fst snd] in *. lia.
  - split; [reflexivity|]. intros [a b] (Hr & Hb). unfold before in Hb. cbn [fst snd] in *. lia.
Qed.

(** With two rows or more the analysis reports a most similar pair
    [(i, j)], [i < j]: its distance, kept in [min_distance], is the least
    of all pairs, and every pair the loops visit before it is strictly
    farther apart, so of several closest pairs the first one is reported. *)
Theorem most_similar_pair_first_minimum (colors : list Color) :
  (2 <= length colors)%nat ->
  exists s i j,
    similarity_analysis colors = Some s
    /\ most_similar_pair s = Some (i, j)
    /\ (i < j < length colors)%nat
    /\ min_distance s = Some (distance_at colors (i, j))
    /\ (forall i' j', (i' < j' < length colors)%nat ->
        (distance_at colors (i, j) <= distance_at colors (i', j'))%Q)
    /\ (forall i' j', (i' < j' < length colors)%nat -> before (i', j') (i, j) ->
        (distance_at colors (i, j) < distance_at colors (i', j'))%Q).
Proof.
  intros Hn. destruct (scan_pairs_ok colors) as [Hs _].
  unfold similarity_analysis.
  replace (1 <? length colors)%nat with true by (symmetry; apply Nat.ltb_lt; lia).
  unfold similar_ok in Hs.
  destruct (most_similar_pair (scan_pairs colors)) as [[i j]|] eqn:Ep.
  - destruct Hs as (Hr & Em & Hmin). cbn [fst snd] in Hr.
    exists (scan_pairs colors), i, j.
    split; [reflexivity|]. split; [exact Ep|]. split; [exact Hr|]. split; [exact Em|].
    split.
    + intros i' j' Hr'. exact (proj1 (Hmin (i', j') Hr')).
    + intros i' j' Hr' Hb. exact (proj2 (Hmin (i', j') Hr') Hb).
  - destruct Hs as (_ & Hnone). exfalso. apply (Hnone (0%nat, 1%nat)). cbn [fst snd]. lia.
Qed.

(** The most different pair is reported only when some pair has a
    distance above zero: when all the rows are at distance zero of each
    other none is reported, although [max_distance] is 0 and not missing.
    A reported pair has the greatest distance of all pairs, kept in
    [max_distance], and is the first pair the loops visit with it. *)
Theorem most_different_pair_first_maximum (colors : list Color) :
  let s := scan_pairs colors in
  (most_different_pair s = None <->
   forall i j, (i < j < length colors)%nat -> (distance_at colors (i, j) <= 0)%Q)
  /\ (most_different_pair s = None -> max_distance s = 0%Q)
  /\ (forall i j, most_different_pair s = Some (i, j) ->
      (i < j < length colors)%nat
      /\ max_distance s = distance_at colors (i, j)
      /\ (0 < distance_at colors (i, j))%Q
      /\ (forall i' j', (i' < j' < length colors)%nat ->
          (distance_at colors (i', j') <= distance_at colors (i, j))%Q)
      /\ (forall i' j', (i' < j' < length colors)%nat -> before (i', j') (i, j) ->
          (distance_at colors (i', j') < distance_at colors (i, j))%Q)).
Proof.
  cbv zeta. destruct (scan_pairs_ok colors) as [_ Hd]. unfold different_ok in Hd.
  destruct (most_different_pair (scan_pairs colors)) as [[i j]|] eqn:Ep.
  - destruct Hd as (Hr & Em & Hpos & Hmax). cbn [fst snd] in Hr.
    split; [split; [discriminate|]|split; [discriminate|]].
    + intros Hall. exfalso. pose proof (Hall i j Hr). lra.
    + intros i0 j0 [= <- <-]. split; [exact Hr|]. split; [exact Em|]. split; [exact Hpos|].
      split.
      * intros i' j' Hr'. exact (proj1 (Hmax (i', j') Hr')).
      * intros i' j' Hr' Hb. exact (proj2 (Hmax (i', j') Hr') Hb).
  - destruct Hd as (Em & Hnone).
    split; [split; [|reflexivity]|split; [intros _; exact Em|discriminate]].
    intros _ i j Hr. exact (Hnone (i, j) Hr).
Qed.

End Similarity.

Lemma most_similar_pair_first_minimum_witness :
  exists s i j,
    ColorSimilarity.similarity_analysis (H := SimpleCv.external)
      [(10, 20, 30)%Q; (200, 100, 50)%Q; (10, 20, 30)%Q; (10, 20, 30)%Q] = Some s
    /\ ColorSimilarity.most_similar_pair s = Some (i, j)
    /\ (i < j < 4)%nat.
Proof.
  destruct (most_similar_pair_first_minimum (H := SimpleCv.external)
              [(10, 20, 30)%Q; (200, 100, 50)%Q; (10, 20, 30)%Q; (10, 20, 30)%Q]
              ltac:(cbn; lia)) as (s & i & j & Hs & Hp & Hr & _).
  exists s, i, j. split; [exact Hs|]. split; [exact Hp|exact Hr].
Defined.

(** Three rows of one colour: the first pair is reported as the most
    similar one, and no pair as the most different one. *)
Example identical_colours_scanned :
  ColorSimilarity.most_similar_pair
    (ColorSimilarity.scan_pairs (H := SimpleCv.external)
       [(10, 20, 30)%Q; (10, 20, 30)%Q; (10, 20, 30)%Q]) = Some (0, 1)%nat
  /\ ColorSimilarity.most_different_pair
       (ColorSimilarity.scan_pairs (H := SimpleCv.external)
          [(10, 20, 30)%Q; (10, 20, 30)%Q; (10, 20, 30)%Q]) = None.
Proof. vm_compute. split; reflexivity. Qed.
